(** * Blood supply management: synthetic data generator and analytics helpers

    A shallow embedding of [src/generate_datasets.py] and [src/utils.py].

    - Python integers are [Z]; Python and NumPy floats that feed integer
      results are rationals [Q] whose arithmetic goes through a rounding
      operator [fl] (class [Rounding]); the forecast metrics, which are
      floats from end to end, use the kernel's binary64 floats.
    - The global NumPy generator, the Faker instance and the wall clock are
      explicit state: a generator computation is a function from the state
      to an exception or a result with the next state ([Eff]).
    - Tables (DataFrames) are lists of records, one record per row; a
      [pd.Timestamp] of a daily range is its day number.
    - The calls into NumPy and pandas ([np.random.choice], [pd.qcut],
      [Series.rank], boolean indexing) are embedded with the argument checks
      and the results these libraries document.
    - Printing and the CSV files of [main] are left out. *)

From Stdlib Require Import ZArith QArith Qround Qabs List String Ascii Bool Lia Lqa.
From Stdlib Require Import PrimFloat Uint63 DecimalString.
From Stdlib Require Decimal DecimalPos DecimalN Sorted.
Import ListNotations.
Local Open Scope Z_scope.

(** ** Python values and exceptions *)

Inductive PyExn : Type :=
| ValueError (msg : string)
| KeyError (key : string)
| IndexError (msg : string).

(** [int(x)] on a float: truncation toward zero. *)
Definition py_int (x : Q) : Z := Z.quot (Qnum x) (Zpos (Qden x)).

Definition Qltb (x y : Q) : bool := negb (Qle_bool y x).

(** [str(n)] for a non-negative integer. *)
Definition py_str (n : Z) : string := NilZero.string_of_uint (N.to_uint (Z.to_N n)).

Fixpoint zeros (k : nat) : string :=
  match k with
  | O => EmptyString
  | S k' => String "0"%char (zeros k')
  end.

(** [s.zfill(width)] for a string of digits. *)
Definition zfill (width : nat) (s : string) : string :=
  String.append (zeros (width - String.length s)) s.

(** ** Computations with state and exceptions *)

Definition Eff (W A : Type) : Type := W -> PyExn + (A * W).

Definition ret {W A} (a : A) : Eff W A := fun w => inr (a, w).

Definition bind {W A B} (m : Eff W A) (k : A -> Eff W B) : Eff W B :=
  fun w => match m w with
           | inl e => inl e
           | inr (a, w') => k a w'
           end.

Definition raise {W A} (e : PyExn) : Eff W A := fun _ => inl e.

Declare Scope eff_scope.
Delimit Scope eff_scope with eff.
Notation "x <- m ;; k" := (bind m (fun x => k))
  (at level 61, m at next level, right associativity) : eff_scope.
Notation "' pat <- m ;; k" := (bind m (fun x => match x with pat => k end))
  (at level 61, pat pattern, m at next level, right associativity) : eff_scope.

(** A [for] loop that appends one row per element. *)
Fixpoint for_each {W A B} (body : A -> Eff W B) (xs : list A) : Eff W (list B) :=
  match xs with
  | [] => ret []
  | x :: xs' => (r <- body x ;; rs <- for_each body xs' ;; ret (r :: rs))%eff
  end.

(** A [for] loop whose body appends several rows. *)
Fixpoint for_each_concat {W A B} (body : A -> Eff W (list B)) (xs : list A)
  : Eff W (list B) :=
  match xs with
  | [] => ret []
  | x :: xs' => (r <- body x ;; rs <- for_each_concat body xs' ;; ret (r ++ rs))%eff
  end.

(** ** Floating-point arithmetic that feeds integer results

    A float is the rational it denotes; every arithmetic result is rounded by
    [fl].  The laws are those of IEEE-754 round-to-nearest on binary64:
    rounding is monotone, integers of magnitude at most 2^53 are
    representable, and between 1 and 2^1023 the relative error is at most
    2^-53.  Decimal literals stand for their nominal value. *)

Definition binade_max : Q := inject_Z (2 ^ 1023).
(** 2^-53. *)
Definition unit_roundoff : Q := 1 # 9007199254740992.

Class Rounding : Type := {
  fl : Q -> Q;
  fl_mono : forall x y : Q, (x <= y)%Q -> (fl x <= fl y)%Q;
  fl_int : forall z : Z, Z.abs z <= 2 ^ 53 -> (fl (inject_Z z) == inject_Z z)%Q;
  fl_rel : forall x : Q, (1 <= Qabs x)%Q -> (Qabs x <= binade_max)%Q ->
    (Qabs (fl x - x) <= Qabs x * unit_roundoff)%Q
}.

Definition fadd `{Rounding} (x y : Q) : Q := fl (x + y).
Definition fmul `{Rounding} (x y : Q) : Q := fl (x * y).
Definition fdiv `{Rounding} (x y : Q) : Q := fl (x / y).

(** An integer operand of a float operation is converted first. *)
Definition of_int `{Rounding} (z : Z) : Q := fl (inject_Z z).

(** Arithmetic without rounding error: the simplest model of the laws. *)
Lemma exact_rel (x : Q) :
  (1 <= Qabs x)%Q -> (Qabs x <= binade_max)%Q -> (Qabs (x - x) <= Qabs x * unit_roundoff)%Q.
Proof.
  intros H1 _.
  assert (E : (x - x == 0)%Q) by ring.
  rewrite E. change (Qabs 0) with 0%Q.
  apply Qmult_le_0_compat; [apply Qabs_nonneg | discriminate].
Qed.

#[export] Instance exact_rounding : Rounding := {|
  fl := fun x => x;
  fl_mono := fun x y Hxy => Hxy;
  fl_int := fun z _ => Qeq_refl (inject_Z z);
  fl_rel := exact_rel
|}.

(** ** The NumPy global generator

    [G] is the generator state.  Each sampler returns the draw and the next
    state; the laws record the range of each distribution. *)

Class NumpyRandom (G : Type) : Type := {
  sample_random : G -> Q * G;
  sample_normal : Q -> Q -> G -> Q * G;
  sample_uniform : Q -> Q -> G -> Q * G;
  sample_randint : Z -> Z -> G -> Z * G;
  sample_pareto : Q -> G -> Q * G;
  sample_exponential : Q -> G -> Q * G;
  sample_index : nat -> G -> nat * G;
  random_range : forall g, (0 <= fst (sample_random g) /\ fst (sample_random g) < 1)%Q;
  uniform_range : forall lo hi g, (lo <= hi)%Q ->
    (lo <= fst (sample_uniform lo hi g) /\ fst (sample_uniform lo hi g) <= hi)%Q;
  randint_range : forall lo hi g, lo < hi ->
    lo <= fst (sample_randint lo hi g) < hi;
  pareto_range : forall a g, (0 <= fst (sample_pareto a g))%Q;
  exponential_range : forall s g, (0 <= fst (sample_exponential s g))%Q;
  index_range : forall n g, (0 < n)%nat -> (fst (sample_index n g) < n)%nat
}.

(** ** The Faker instance *)

Class Faker (F : Type) : Type := {
  fake_name : F -> string * F;
  fake_email : F -> string * F;
  fake_phone_number : F -> string * F
}.

(** ** Dates and timestamps

    A [pd.Timestamp] at midnight is its day number (days since 1970-01-01);
    a naive [datetime] is its number of microseconds since 1970-01-01T00:00. *)

Module Calendar.

Record civil : Type := { year : Z; month : Z; day : Z }.

(** Proleptic Gregorian date of a day number. *)
Definition civil_of_days (n : Z) : civil :=
  let z := n + 719468 in
  let era := z / 146097 in
  let doe := z - era * 146097 in
  let yoe := (doe - doe / 1460 + doe / 36524 - doe / 146096) / 365 in
  let doy := doe - (365 * yoe + yoe / 4 - yoe / 100) in
  let mp := (5 * doy + 2) / 153 in
  let d := doy - (153 * mp + 2) / 5 + 1 in
  let m := if mp <? 10 then mp + 3 else mp - 9 in
  {| year := yoe + era * 400 + (if m <=? 2 then 1 else 0); month := m; day := d |}.

(** [Timestamp.dayofweek]: Monday is 0. *)
Definition dayofweek (n : Z) : Z := (n + 3) mod 7.

Definition us_per_day : Z := 86400 * 1000000.

(** [timedelta(days=n)] in microseconds. *)
Definition timedelta_days (n : Z) : Z := n * us_per_day.

(** [(a - b).days]: timedelta normalises with a floor division. *)
Definition delta_days (a b : Z) : Z := (a - b) / us_per_day.

(** [dt.strftime('%Y-%m-%d')] for a datetime with a four-digit year. *)
Definition strftime_ymd (us : Z) : string :=
  let c := civil_of_days (us / us_per_day) in
  String.append (zfill 4 (py_str (year c)))
    (String.append "-" (String.append (zfill 2 (py_str (month c)))
      (String.append "-" (zfill 2 (py_str (day c)))))).

End Calendar.

(** ** Constants of [generate_datasets.py] *)

Definition BLOOD_TYPE_DISTRIBUTION : list (string * Q) :=
  [("O+", 0.37); ("A+", 0.28); ("B+", 0.20); ("AB+", 0.05);
   ("O-", 0.06); ("A-", 0.025); ("B-", 0.015); ("AB-", 0.01)]%string%Q.

Definition AGE_GROUP_RANGES : list (string * (Z * Z * Q)) :=
  [("16-18", (16, 18, 0.08%Q)); ("19-24", (19, 24, 0.15%Q)); ("25-34", (25, 34, 0.22%Q));
   ("35-44", (35, 44, 0.18%Q)); ("45-54", (45, 54, 0.17%Q)); ("55-64", (55, 64, 0.12%Q));
   ("65+", (65, 75, 0.08%Q))]%string.

Definition CITIES : list string :=
  ["Mumbai"; "Delhi"; "Bangalore"; "Chennai"; "Kolkata";
   "Hyderabad"; "Pune"; "Ahmedabad"; "Jaipur"; "Lucknow";
   "Chandigarh"; "Bhopal"; "Indore"; "Nagpur"; "Kochi"]%string.

Definition DEFERRAL_REASONS : list (string * Q) :=
  [("Low hemoglobin", 0.431); ("Non-medical reasons", 0.214);
   ("Blood pressure/pulse", 0.112); ("Travel history", 0.089);
   ("Medication", 0.072); ("Recent tattoo/piercing", 0.045);
   ("Other medical", 0.037)]%string%Q.

(** [list(d.keys())] and [list(d.values())] of a dict literal, in insertion order. *)
Definition keys {K V} (d : list (K * V)) : list K := map fst d.
Definition values {K V} (d : list (K * V)) : list V := map snd d.

(** [d[k]] on a dict with string keys. *)
Fixpoint dict_get {V} (d : list (string * V)) (k : string) : option V :=
  match d with
  | [] => None
  | (k', v) :: d' => if String.eqb k k' then Some v else dict_get d' k
  end.

(** ** NumPy calls of the generator, as computations on the generator state *)

Section NumpyCalls.
Context {G : Type} `{NumpyRandom G}.

Definition lift_sample {A} (s : G -> A * G) : Eff G A := fun g => inr (s g).

Definition np_random_random : Eff G Q := lift_sample sample_random.
Definition np_random_normal (mu sigma : Q) : Eff G Q := lift_sample (sample_normal mu sigma).
Definition np_random_uniform (lo hi : Q) : Eff G Q := lift_sample (sample_uniform lo hi).
Definition np_random_pareto (a : Q) : Eff G Q := lift_sample (sample_pareto a).
Definition np_random_exponential (s : Q) : Eff G Q := lift_sample (sample_exponential s).

(** [np.random.randint(low, high)] rejects an empty range. *)
Definition np_random_randint (lo hi : Z) : Eff G Z :=
  if lo <? hi then lift_sample (sample_randint lo hi)
  else raise (ValueError "low >= high").

Definition Qsum (xs : list Q) : Q := fold_left Qplus xs 0%Q.

(** The tolerance of NumPy's check that [p] sums to one: the square root of
    the binary64 epsilon, 2^-26. *)
Definition choice_atol : Q := 1 # 67108864.

(** [np.random.choice(a, p=p)]: [p = None] draws uniformly. *)
Definition np_random_choice {A} (a : list A) (p : option (list Q)) : Eff G A :=
  match a with
  | [] => raise (ValueError "'a' cannot be empty unless no samples are taken")
  | a0 :: _ =>
      match p with
      | None => (i <- lift_sample (sample_index (List.length a)) ;; ret (nth i a a0))%eff
      | Some ps =>
          if negb (Nat.eqb (List.length ps) (List.length a)) then
            raise (ValueError "'a' and 'p' must have same size")
          else if existsb (fun q => Qltb q 0) ps then
            raise (ValueError "probabilities are not non-negative")
          else if Qltb choice_atol (Qabs (Qsum ps - 1)) then
            raise (ValueError "probabilities do not sum to 1")
          else (i <- lift_sample (sample_index (List.length a)) ;; ret (nth i a a0))%eff
      end
  end.

End NumpyCalls.

(** ** Tables *)

(** A row of the per-(date, component, blood type) demand table. *)
Module DemandRow.
Record t : Type := {
  date : Z;
  component : string;
  blood_type : string;
  demand_units : Z;
  day_of_week : Z;
  month : Z;
  is_weekend : Z;
  is_holiday_season : Z
}.
End DemandRow.

(** A row of the daily aggregate, one per (date, component). *)
Module DailyRow.
Record t : Type := {
  date : Z;
  component : string;
  demand_units : Z;
  day_of_week : Z;
  month : Z;
  is_weekend : Z;
  is_holiday_season : Z
}.
End DailyRow.

(** ** [generate_demand_timeseries] *)

Definition base_demand : list (string * Z) :=
  [("Packed RBC", 80); ("Platelets", 30); ("Fresh Frozen Plasma", 25);
   ("Cryoprecipitate", 10)]%string.

(** [x in xs] on integers. *)
Definition Zmem (x : Z) (xs : list Z) : bool := existsb (Z.eqb x) xs.

(** [df.groupby(['date', 'component']).agg(...).reset_index()]: one row per
    key, keys in sorted order, units summed, the other columns taken from the
    first row of the group. *)
Definition key_eqb (k1 k2 : Z * string) : bool :=
  (fst k1 =? fst k2) && String.eqb (snd k1) (snd k2).

Definition key_ltb (k1 k2 : Z * string) : bool :=
  (fst k1 <? fst k2) ||
  ((fst k1 =? fst k2) &&
   match String.compare (snd k1) (snd k2) with Lt => true | _ => false end).

Fixpoint insert_key (k : Z * string) (ks : list (Z * string)) : list (Z * string) :=
  match ks with
  | [] => [k]
  | k' :: ks' =>
      if key_eqb k k' then ks
      else if key_ltb k k' then k :: ks
      else k' :: insert_key k ks'
  end.

Definition row_key (r : DemandRow.t) : Z * string :=
  (DemandRow.date r, DemandRow.component r).

Definition group_keys (rows : list DemandRow.t) : list (Z * string) :=
  fold_left (fun ks r => insert_key (row_key r) ks) rows [].

Definition aggregate_group (rows : list DemandRow.t) (k : Z * string) : list DailyRow.t :=
  match filter (fun r => key_eqb (row_key r) k) rows with
  | [] => []
  | (r0 :: _) as grp =>
      [{| DailyRow.date := fst k;
          DailyRow.component := snd k;
          DailyRow.demand_units := fold_left Z.add (map DemandRow.demand_units grp) 0;
          DailyRow.day_of_week := DemandRow.day_of_week r0;
          DailyRow.month := DemandRow.month r0;
          DailyRow.is_weekend := DemandRow.is_weekend r0;
          DailyRow.is_holiday_season := DemandRow.is_holiday_season r0 |}]
  end.

Definition groupby_date_component (rows : list DemandRow.t) : list DailyRow.t :=
  flat_map (aggregate_group rows) (group_keys rows).

Section DemandGenerator.
Context {G : Type} `{NumpyRandom G} `{Rounding}.

(** [demand *= k] under a condition. *)
Definition scale_if (c : bool) (k demand : Q) : Q :=
  if c then fmul demand k else demand.

(** The inner loop over blood types, for one (date, component) total. *)
Definition blood_type_rows (date : Z) (component : string) (demand : Z)
  : Eff G (list DemandRow.t) :=
  let day_of_week := Calendar.dayofweek date in
  let month := Calendar.month (Calendar.civil_of_days date) in
  for_each (fun bt : string * Q =>
    let (blood_type, proportion) := bt in
    (noise <- np_random_normal 0 1 ;;
     let type_demand :=
       Z.max 1 (py_int (fadd (fmul (of_int demand) proportion) noise)) in
     ret {| DemandRow.date := date;
            DemandRow.component := component;
            DemandRow.blood_type := blood_type;
            DemandRow.demand_units := type_demand;
            DemandRow.day_of_week := day_of_week;
            DemandRow.month := month;
            DemandRow.is_weekend := if 5 <=? day_of_week then 1 else 0;
            DemandRow.is_holiday_season := if Zmem month [11; 12] then 1 else 0 |})%eff)
    BLOOD_TYPE_DISTRIBUTION.

(** The float demand of one (date, component) pair, after the noise and the
    multipliers. *)
Definition raw_demand (date : Z) (base : Z) : Eff G Q :=
  let day_of_week := Calendar.dayofweek date in
  let month := Calendar.month (Calendar.civil_of_days date) in
  let day := Calendar.day (Calendar.civil_of_days date) in
  (noise <- np_random_normal 0 (fmul (of_int base) 0.15) ;;
   let demand := fadd (of_int base) noise in
   let demand := scale_if (5 <=? day_of_week) 0.7 demand in
   let demand := scale_if (Zmem month [6; 7; 8]) 1.1 demand in
   let demand := scale_if (Zmem month [12; 1; 2]) 1.15 demand in
   let demand :=
     scale_if (((month =? 12) && (20 <=? day)) || ((month =? 1) && (day <=? 5)))
       1.25 demand in
   let demand :=
     scale_if (Zmem month [10; 11] && ((15 <=? day) && (day <=? 30))) 1.2 demand in
   spike <- np_random_random ;;
   if Qltb spike 0.02
   then (k <- np_random_uniform 1.5 2.5 ;; ret (fmul demand k))
   else ret demand)%eff.

(** The integer total of one (date, component) pair:
    [demand = max(1, int(demand))]. *)
Definition component_demand (date : Z) (base : Z) : Eff G Z :=
  (demand <- raw_demand date base ;;
   ret (Z.max 1 (py_int demand)))%eff.

(** The body of the loop over dates. *)
Definition date_rows (date : Z) : Eff G (list DemandRow.t) :=
  for_each_concat (fun cb : string * Z =>
    let (component, base) := cb in
    (demand <- component_demand date base ;;
     blood_type_rows date component demand)%eff)
    base_demand.

(** [pd.date_range(start, periods=periods, freq='D')], as day numbers. *)
Definition date_range (start : Z) (periods : nat) : list Z :=
  map (fun k => start + Z.of_nat k) (seq 0 periods).

(** The detailed table [df] and the daily aggregate [df_daily].  With no row
    the frame has no column and the [groupby] fails on its first key. *)
Definition generate_demand_timeseries (start_date : Z) (periods : nat)
  : Eff G (list DemandRow.t * list DailyRow.t) :=
  (df <- for_each_concat date_rows (date_range start_date periods) ;;
   match df with
   | [] => raise (KeyError "date")
   | _ => ret (df, groupby_date_component df)
   end)%eff.

End DemandGenerator.

(** ** [generate_donor_registry] *)

Module Donor.
Record t : Type := {
  donor_id : string;
  name : string;
  age : Z;
  gender : string;
  blood_type : string;
  city : string;
  email : string;
  phone : string;
  registration_date : string;
  last_donation_date : string;
  total_donations : Z;
  total_volume_cc : Z;
  months_since_first_donation : Z;
  months_since_last_donation : Z;
  availability_status : string;
  is_first_time_donor : bool;
  has_deferral_history : bool;
  deferral_reason : option string
}.
End Donor.

(** The process state the donor generator reads and writes: the NumPy
    generator, the Faker instance, and the wall clock.  [clock k] is what the
    [k]-th call of [datetime.now()] returns, in microseconds. *)
Record World (G F : Type) : Type := {
  rng : G;
  faker : F;
  clock : nat -> Z;
  ticks : nat
}.
Arguments rng {G F} _.
Arguments faker {G F} _.
Arguments clock {G F} _ _.
Arguments ticks {G F} _.

Section DonorGenerator.
Context {G F : Type} `{NumpyRandom G} `{Faker F} `{Rounding}.

(** A NumPy call inside the donor generator. *)
Definition with_rng {A} (m : Eff G A) : Eff (World G F) A :=
  fun w => match m (rng w) with
           | inl e => inl e
           | inr (a, g') =>
               inr (a, {| rng := g'; faker := faker w; clock := clock w; ticks := ticks w |})
           end.

(** A Faker call. *)
Definition with_faker (s : F -> string * F) : Eff (World G F) string :=
  fun w => let (a, f') := s (faker w) in
           inr (a, {| rng := rng w; faker := f'; clock := clock w; ticks := ticks w |}).

(** [datetime.now()]. *)
Definition datetime_now : Eff (World G F) Z :=
  fun w => inr (clock w (ticks w),
                {| rng := rng w; faker := faker w; clock := clock w; ticks := S (ticks w) |}).

(** [np.array(xs).sum()]. *)
Definition np_sum (xs : list Q) : Q := fold_left fadd xs 0%Q.

(** [probs / probs.sum()]. *)
Definition normalize (probs : list Q) : list Q :=
  let total := np_sum probs in map (fun p => fdiv p total) probs.

(** Donation count and the two month counts of one donor. *)
Definition donation_history (is_first_time : bool) : Eff G (Z * Z * Z) :=
  if is_first_time then
    (months_since_first <- np_random_randint 0 6 ;;
     ret (1, months_since_first, months_since_first))%eff
  else
    (pa <- np_random_pareto 1.5 ;;
     let total_donations := py_int (fmul pa 3) + 2 in
     let total_donations := Z.min total_donations 50 in
     k <- np_random_randint 3 8 ;;
     let months_since_first := total_donations * k in
     let months_since_first := Z.min months_since_first 120 in
     ex <- np_random_exponential 6 ;;
     let months_since_last := py_int ex in
     let months_since_last := Z.min months_since_last months_since_first in
     ret (total_donations, months_since_first, months_since_last))%eff.

(** The deferral reason of a donor who has the deferral flag. *)
Definition draw_deferral_reason (gender : string) : Eff G string :=
  (let def_probs := normalize (values DEFERRAL_REASONS) in
   deferral_reason <- np_random_choice (keys DEFERRAL_REASONS) (Some def_probs) ;;
   if String.eqb gender "Female" then
     (r <- np_random_random ;;
      if Qltb r 0.3 then ret "Low hemoglobin"%string else ret deferral_reason)
   else ret deferral_reason)%eff.

(** The body of the loop, for index [i] of [range(n_donors)]. *)
Definition donor_row (i : nat) : Eff (World G F) Donor.t :=
  (age_group <- with_rng (np_random_choice (keys AGE_GROUP_RANGES)
                            (Some (map snd (values AGE_GROUP_RANGES)))) ;;
   match dict_get AGE_GROUP_RANGES age_group with
   | None => raise (KeyError age_group)
   | Some (age_min, age_max, _) =>
   age <- with_rng (np_random_randint age_min (age_max + 1)) ;;
   gender <- with_rng (np_random_choice ["Male"; "Female"]%string (Some [0.54; 0.46]%Q)) ;;
   let bt_probs := normalize (values BLOOD_TYPE_DISTRIBUTION) in
   blood_type <- with_rng (np_random_choice (keys BLOOD_TYPE_DISTRIBUTION) (Some bt_probs)) ;;
   r <- with_rng np_random_random ;;
   let is_first_time := Qltb r 0.30 in
   ' (total_donations, months_since_first, months_since_last) <-
       with_rng (donation_history is_first_time) ;;
   let total_volume_cc := total_donations * 450 in
   now1 <- datetime_now ;;
   let reg_date := now1 - Calendar.timedelta_days (months_since_first * 30) in
   now2 <- datetime_now ;;
   let last_donation := now2 - Calendar.timedelta_days (months_since_last * 30) in
   now3 <- datetime_now ;;
   let days_since_last := Calendar.delta_days now3 last_donation in
   let availability :=
     if 56 <=? days_since_last then "Available"%string else "Not Eligible"%string in
   r <- with_rng np_random_random ;;
   let has_deferral := Qltb r 0.15 in
   deferral_reason <-
     (if has_deferral
      then (reason <- with_rng (draw_deferral_reason gender) ;; ret (Some reason))
      else ret None) ;;
   name <- with_faker fake_name ;;
   city <- with_rng (np_random_choice CITIES None) ;;
   email <- with_faker fake_email ;;
   phone <- with_faker fake_phone_number ;;
   ret {| Donor.donor_id := String.append "D" (zfill 5 (py_str (Z.of_nat i + 1)));
          Donor.name := name;
          Donor.age := age;
          Donor.gender := gender;
          Donor.blood_type := blood_type;
          Donor.city := city;
          Donor.email := email;
          Donor.phone := phone;
          Donor.registration_date := Calendar.strftime_ymd reg_date;
          Donor.last_donation_date := Calendar.strftime_ymd last_donation;
          Donor.total_donations := total_donations;
          Donor.total_volume_cc := total_volume_cc;
          Donor.months_since_first_donation := months_since_first;
          Donor.months_since_last_donation := months_since_last;
          Donor.availability_status := availability;
          Donor.is_first_time_donor := is_first_time;
          Donor.has_deferral_history := has_deferral;
          Donor.deferral_reason := deferral_reason |}
   end)%eff.

(** [range(n_donors)] is empty for [n_donors <= 0]. *)
Definition py_range (n : Z) : list nat := seq 0 (Z.to_nat n).

Definition generate_donor_registry (n_donors : Z) : Eff (World G F) (list Donor.t) :=
  for_each donor_row (py_range n_donors).

End DonorGenerator.

(** ** [generate_rfm_dataset] *)

Module RfmRow.
Record t : Type := {
  donor_id : string;
  Recency : Z;
  Frequency : Z;
  Monetary : Z;
  Time : Z;
  donated_last_quarter : Z
}.
End RfmRow.

Definition rfm_of_donor (d : Donor.t) : RfmRow.t :=
  {| RfmRow.donor_id := Donor.donor_id d;
     RfmRow.Recency := Donor.months_since_last_donation d;
     RfmRow.Frequency := Donor.total_donations d;
     RfmRow.Monetary := Donor.total_volume_cc d;
     RfmRow.Time := Donor.months_since_first_donation d;
     RfmRow.donated_last_quarter :=
       if Donor.months_since_last_donation d <=? 3 then 1 else 0 |}.

(** A registry built from no record has no column to select. *)
Definition generate_rfm_dataset (donor_df : list Donor.t) : PyExn + list RfmRow.t :=
  match donor_df with
  | [] => inl (KeyError "donor_id")
  | _ => inr (map rfm_of_donor donor_df)
  end.

(** ** [generate_supply_data] *)

Module SupplyRow.
Record t : Type := {
  date : Z;
  component : string;
  supply_units : Z;
  demand_units : Z;
  utilized_units : Z;
  wasted_units : Z;
  utilization_rate : Q;
  wastage_rate : Q
}.
End SupplyRow.

Section SupplyGenerator.
Context {G : Type} `{NumpyRandom G} `{Rounding}.

(** The body of the loop over the rows of [demand_df]. *)
Definition supply_row (row : DailyRow.t) : Eff G SupplyRow.t :=
  (buffer_factor <- np_random_uniform 1.05 1.20 ;;
   let supply := py_int (fmul (of_int (DailyRow.demand_units row)) buffer_factor) in
   let utilized := Z.min supply (DailyRow.demand_units row) in
   let wasted := Z.max 0 (supply - DailyRow.demand_units row) in
   expiry <- np_random_uniform 0.01 0.05 ;;
   let expiry_wastage := py_int (fmul (of_int supply) expiry) in
   let wasted := wasted + expiry_wastage in
   ret {| SupplyRow.date := DailyRow.date row;
          SupplyRow.component := DailyRow.component row;
          SupplyRow.supply_units := supply;
          SupplyRow.demand_units := DailyRow.demand_units row;
          SupplyRow.utilized_units := utilized;
          SupplyRow.wasted_units := wasted;
          SupplyRow.utilization_rate :=
            if 0 <? supply then fdiv (of_int utilized) (of_int supply) else 0%Q;
          SupplyRow.wastage_rate :=
            if 0 <? supply then fdiv (of_int wasted) (of_int supply) else 0%Q |})%eff.

(** The two rate parameters are accepted and never read. *)
Definition generate_supply_data (demand_df : list DailyRow.t)
  (utilization_rate wastage_rate : Q) : Eff G (list SupplyRow.t) :=
  for_each supply_row demand_df.

End SupplyGenerator.

(** ** A generator that replays a tape

    The state is the list of raw outcomes still to come; each sampler reads
    the next one and maps it into the range of its distribution.  Every
    sequence of legal draws is the replay of some tape, so this instance
    serves to run the generators on chosen draws. *)

Definition next_raw (g : list Q) : Q * list Q :=
  match g with
  | [] => (0%Q, [])
  | x :: g' => (x, g')
  end.

Definition tape_random (g : list Q) : Q * list Q :=
  let (x, g') := next_raw g in
  (if Qle_bool 0 x && Qltb x 1 then x else 0%Q, g').

Definition tape_normal (mu sigma : Q) (g : list Q) : Q * list Q :=
  let (x, g') := next_raw g in ((mu + sigma * x)%Q, g').

Definition tape_uniform (lo hi : Q) (g : list Q) : Q * list Q :=
  let (x, g') := next_raw g in
  (if Qle_bool lo x && Qle_bool x hi then x else lo, g').

Definition tape_randint (lo hi : Z) (g : list Q) : Z * list Q :=
  let (x, g') := next_raw g in (lo + Qfloor x mod (hi - lo), g').

Definition tape_nonneg (g : list Q) : Q * list Q :=
  let (x, g') := next_raw g in (Qabs x, g').

Definition tape_index (n : nat) (g : list Q) : nat * list Q :=
  let (x, g') := next_raw g in (Z.to_nat (Qfloor x mod Z.of_nat n), g').

Lemma Qltb_lt (x y : Q) : Qltb x y = true <-> (x < y)%Q.
Proof.
  unfold Qltb. rewrite negb_true_iff. split; intro Hxy.
  - apply Qnot_le_lt. intro Hle. apply Qle_bool_iff in Hle. congruence.
  - destruct (Qle_bool y x) eqn:E; [|reflexivity].
    apply Qle_bool_iff in E. exfalso. exact (Qlt_not_le _ _ Hxy E).
Qed.

Lemma tape_random_range (g : list Q) :
  (0 <= fst (tape_random g) /\ fst (tape_random g) < 1)%Q.
Proof.
  unfold tape_random. destruct (next_raw g) as [x g']. cbn [fst].
  destruct (Qle_bool 0 x && Qltb x 1) eqn:E.
  - apply andb_true_iff in E. destruct E as [E1 E2].
    split; [now apply Qle_bool_iff | now apply Qltb_lt].
  - split; [apply Qle_refl | reflexivity].
Qed.

Lemma tape_uniform_range (lo hi : Q) (g : list Q) :
  (lo <= hi)%Q ->
  (lo <= fst (tape_uniform lo hi g) /\ fst (tape_uniform lo hi g) <= hi)%Q.
Proof.
  intro Hle. unfold tape_uniform. destruct (next_raw g) as [x g']. cbn [fst].
  destruct (Qle_bool lo x && Qle_bool x hi) eqn:E.
  - apply andb_true_iff in E. destruct E as [E1 E2].
    split; now apply Qle_bool_iff.
  - split; [apply Qle_refl | exact Hle].
Qed.

Lemma tape_randint_range (lo hi : Z) (g : list Q) :
  lo < hi -> lo <= fst (tape_randint lo hi g) < hi.
Proof.
  intro Hlt. unfold tape_randint. destruct (next_raw g) as [x g']. cbn [fst].
  pose proof (Z.mod_pos_bound (Qfloor x) (hi - lo)). lia.
Qed.

Lemma tape_nonneg_range (g : list Q) : (0 <= fst (tape_nonneg g))%Q.
Proof.
  unfold tape_nonneg. destruct (next_raw g) as [x g']. cbn [fst].
  apply Qabs_nonneg.
Qed.

Lemma tape_index_range (n : nat) (g : list Q) :
  (0 < n)%nat -> (fst (tape_index n g) < n)%nat.
Proof.
  intro Hn. unfold tape_index. destruct (next_raw g) as [x g']. cbn [fst].
  pose proof (Z.mod_pos_bound (Qfloor x) (Z.of_nat n)). lia.
Qed.

#[export] Instance tape_generator : NumpyRandom (list Q) := {|
  sample_random := tape_random;
  sample_normal := tape_normal;
  sample_uniform := tape_uniform;
  sample_randint := tape_randint;
  sample_pareto := fun _ => tape_nonneg;
  sample_exponential := fun _ => tape_nonneg;
  sample_index := tape_index;
  random_range := tape_random_range;
  uniform_range := tape_uniform_range;
  randint_range := tape_randint_range;
  pareto_range := fun _ => tape_nonneg_range;
  exponential_range := fun _ => tape_nonneg_range;
  index_range := tape_index_range
|}.

(** A Faker that replays a tape of strings. *)
Definition next_fake (f : list string) : string * list string :=
  match f with
  | [] => (EmptyString, [])
  | s :: f' => (s, f')
  end.

#[export] Instance tape_faker : Faker (list string) := {|
  fake_name := next_fake;
  fake_email := next_fake;
  fake_phone_number := next_fake
|}.

(** ** pandas calls of [utils.py]

    Columns are lists of rationals, one entry per row. *)

Module Pandas.

Fixpoint insert_sorted (x : Q) (l : list Q) : list Q :=
  match l with
  | [] => [x]
  | y :: l' => if Qle_bool x y then x :: l else y :: insert_sorted x l'
  end.

Definition sort_values (l : list Q) : list Q := fold_right insert_sorted [] l.

(** [np.linspace(0, 1, q + 1)]. *)
Definition linspace01 (q : nat) : list Q :=
  map (fun i => inject_Z (Z.of_nat i) / inject_Z (Z.of_nat q))%Q (seq 0 (S q)).

(** [Series.quantile(p)] with linear interpolation, on the sorted values. *)
Definition quantile (sorted : list Q) (p : Q) : Q :=
  let h := (inject_Z (Z.of_nat (List.length sorted) - 1) * p)%Q in
  let lo := Qfloor h in
  let a := nth (Z.to_nat lo) sorted 0%Q in
  let b := nth (Z.to_nat (lo + 1)) sorted a in
  (a + (b - a) * (h - inject_Z lo))%Q.

(** [algos.unique]: first occurrences, in order. *)
Fixpoint unique (l : list Q) : list Q :=
  match l with
  | [] => []
  | x :: l' => x :: filter (fun y => negb (Qeq_bool x y)) (unique l')
  end.

Fixpoint has_duplicates (l : list Z) : bool :=
  match l with
  | [] => false
  | x :: l' => existsb (Z.eqb x) l' || has_duplicates l'
  end.

(** [bins.searchsorted(x, side='left')] on increasing [bins]. *)
Definition searchsorted_left (bins : list Q) (x : Q) : nat :=
  List.length (filter (fun b => Qltb b x) bins).

(** [_bins_to_cuts] as [qcut] calls it: [include_lowest=True],
    [duplicates='drop'], explicit [labels].  An entry outside every bin is
    [None] (NaN). *)
Definition bins_to_cuts (x bins : list Q) (labels : list Z)
  : PyExn + list (option Z) :=
  let unique_bins := unique bins in
  let bins :=
    if (List.length unique_bins <? List.length bins)%nat
       && negb (List.length bins =? 2)%nat
    then unique_bins else bins in
  let ids :=
    map (fun v => match bins with
                  | b0 :: _ => if Qeq_bool v b0 then 1%nat else searchsorted_left bins v
                  | [] => 0%nat
                  end) x in
  if has_duplicates labels then
    inl (ValueError "labels must be unique if ordered=True")
  else if negb (List.length labels =? List.length bins - 1)%nat then
    inl (ValueError "Bin labels must be one fewer than the number of bin edges")
  else
    inr (map (fun id => if (id =? 0)%nat || (id =? List.length bins)%nat then None
                        else nth_error labels (id - 1)) ids).

(** [pd.qcut(x, q=q, labels=labels, duplicates='drop')]. *)
Definition qcut (x : list Q) (q : nat) (labels : list Z) : PyExn + list (option Z) :=
  let bins := map (quantile (sort_values x)) (linspace01 q) in
  bins_to_cuts x bins labels.

(** [Series.rank(method='first')]: ties ranked in order of appearance. *)
Definition rank_first (x : list Q) : list Q :=
  map (fun i =>
         let v := nth i x 0%Q in
         inject_Z (Z.of_nat
           (1 + List.length (filter (fun y => Qltb y v) x)
              + List.length (filter (fun y => Qeq_bool y v) (firstn i x)))))
      (seq 0 (List.length x)).

(** [Series.astype(int)] on the result of a cut: NaN does not convert. *)
Fixpoint astype_int (s : list (option Z)) : PyExn + list Z :=
  match s with
  | [] => inr []
  | None :: _ => inl (ValueError "Cannot convert float NaN to integer")
  | Some v :: s' =>
      match astype_int s' with
      | inl e => inl e
      | inr vs => inr (v :: vs)
      end
  end.

End Pandas.

(** ** [calculate_rfm_scores] and [assign_rfm_segment] *)

(** A row of the scored table: the input row and the four added columns. *)
Record Scored (Row : Type) : Type := {
  row_of : Row;
  R_Score : Z;
  F_Score : Z;
  M_Score : Z;
  RFM_Score : string
}.
Arguments row_of {Row} _.
Arguments R_Score {Row} _.
Arguments F_Score {Row} _.
Arguments M_Score {Row} _.
Arguments RFM_Score {Row} _.

Definition and_then {A B} (r : PyExn + A) (k : A -> PyExn + B) : PyExn + B :=
  match r with
  | inl e => inl e
  | inr a => k a
  end.

Fixpoint zip_scores {Row} (df : list Row) (r f m : list Z) : list (Scored Row) :=
  match df, r, f, m with
  | row :: df', rs :: r', fs :: f', ms :: m' =>
      {| row_of := row; R_Score := rs; F_Score := fs; M_Score := ms;
         RFM_Score := String.append (py_str rs) (String.append (py_str fs) (py_str ms)) |}
      :: zip_scores df' r' f' m'
  | _, _, _, _ => []
  end.

(** The three column names are the three accessors. *)
Definition calculate_rfm_scores {Row} (df : list Row)
  (recency_col frequency_col monetary_col : Row -> Q) : PyExn + list (Scored Row) :=
  and_then (Pandas.qcut (map recency_col df) 5 [5; 4; 3; 2; 1]) (fun r =>
  and_then (Pandas.qcut (Pandas.rank_first (map frequency_col df)) 5 [1; 2; 3; 4; 5]) (fun f =>
  and_then (Pandas.qcut (Pandas.rank_first (map monetary_col df)) 5 [1; 2; 3; 4; 5]) (fun m =>
  and_then (Pandas.astype_int r) (fun r =>
  and_then (Pandas.astype_int f) (fun f =>
  and_then (Pandas.astype_int m) (fun m =>
  inr (zip_scores df r f m))))))).

Definition assign_rfm_segment {Row} (row : Scored Row) : string :=
  let r := R_Score row in
  let f := F_Score row in
  let m := M_Score row in
  if (4 <=? r) && (4 <=? f) then "Champions"
  else if (3 <=? r) && (3 <=? f) then "Loyal"
  else if (4 <=? r) && (f =? 1) then "New"
  else if (r <=? 2) && (3 <=? f) then "At Risk"
  else if (r <=? 2) && (f <=? 2) then "Hibernating"
  else "Potential".

(** ** [forecast_accuracy_metrics]

    Arrays are lists of binary64 floats.  The order in which [np.mean]
    associates its additions is left open: the definitions take the
    reduction [add_reduce] as a parameter. *)

Module Metrics.
Record t : Type := { MAE : float; RMSE : float; MAPE : float }.
End Metrics.

Definition float_of_nat (n : nat) : float := PrimFloat.of_uint63 (Uint63.of_Z (Z.of_nat n)).

(** [np.rint]: the nearest integer, ties to even. *)
Definition np_rint (x : float) : float :=
  if PrimFloat.eqb x 0 then x
  else if PrimFloat.ltb (PrimFloat.abs x) 4503599627370496 then
    if PrimFloat.ltb x 0
    then PrimFloat.opp (PrimFloat.sub (PrimFloat.add (PrimFloat.opp x) 4503599627370496)
                          4503599627370496)
    else PrimFloat.sub (PrimFloat.add x 4503599627370496) 4503599627370496
  else x.

(** [round(x, 2)] on a NumPy float: scale, [rint], scale back. *)
Definition round2 (x : float) : float :=
  PrimFloat.div (np_rint (PrimFloat.mul x 100)) 100.

(** [a[mask]]. *)
Fixpoint boolean_index (a : list float) (mask : list bool) : PyExn + list float :=
  match a, mask with
  | [], [] => inr []
  | x :: a', b :: mask' =>
      match boolean_index a' mask' with
      | inl e => inl e
      | inr r => inr (if b then x :: r else r)
      end
  | _, _ => inl (IndexError "boolean index did not match indexed array")
  end.

(** An elementwise operation on two arrays of one shape. *)
Definition elementwise (op : float -> float -> float) (a b : list float) : list float :=
  map (fun ab => op (fst ab) (snd ab)) (combine a b).

Section ForecastMetrics.
Variable add_reduce : list float -> float.

Definition np_mean (a : list float) : float :=
  PrimFloat.div (add_reduce a) (float_of_nat (List.length a)).

Definition forecast_accuracy_metrics (y_true y_pred : list float) : PyExn + Metrics.t :=
  let mask := map (fun t => negb (PrimFloat.eqb t 0)) y_true in
  and_then (boolean_index y_true mask) (fun y_true_masked =>
  and_then (boolean_index y_pred mask) (fun y_pred_masked =>
  let mae := np_mean (map PrimFloat.abs (elementwise PrimFloat.sub y_true y_pred)) in
  let rmse :=
    PrimFloat.sqrt
      (np_mean (map (fun d => PrimFloat.mul d d) (elementwise PrimFloat.sub y_true y_pred))) in
  let mape :=
    PrimFloat.mul
      (np_mean (map PrimFloat.abs
                 (elementwise PrimFloat.div
                    (elementwise PrimFloat.sub y_true_masked y_pred_masked)
                    y_true_masked)))
      100 in
  inr {| Metrics.MAE := round2 mae; Metrics.RMSE := round2 rmse;
         Metrics.MAPE := round2 mape |})).

End ForecastMetrics.

(** Additions from left to right, starting from zero. *)
Definition sequential_sum (a : list float) : float := fold_left PrimFloat.add a 0%float.

(** ** [calculate_demand_features] *)

(** Day number of a proleptic Gregorian date. *)
Definition days_from_civil (y m d : Z) : Z :=
  let y := if m <=? 2 then y - 1 else y in
  let era := y / 400 in
  let yoe := y - era * 400 in
  let mp := if 2 <? m then m - 3 else m + 9 in
  let doy := (153 * mp + 2) / 5 + d - 1 in
  let doe := yoe * 365 + yoe / 4 - yoe / 100 + doy in
  era * 146097 + doe - 719468.

(** [dt.isocalendar().week]: the week of the year of the Thursday of the
    date's Monday-to-Sunday week. *)
Definition isocalendar_week (n : Z) : Z :=
  let thursday := n - Calendar.dayofweek n + 3 in
  let iso_year := Calendar.year (Calendar.civil_of_days thursday) in
  (thursday - days_from_civil iso_year 1 1) / 7 + 1.

(** [dt.quarter]. *)
Definition quarter_of_month (m : Z) : Z := (m - 1) / 3 + 1.

(** [series.isin(xs).astype(int)]. *)
Definition isin_int (x : Z) (xs : list Z) : Z := if Zmem x xs then 1 else 0.

(** A row of the table with the time features: the input row and the ten
    columns the function sets. *)
Module FeatureRow.
Record t (Row : Type) : Type := {
  row_of : Row;
  year : Z;
  month : Z;
  day : Z;
  day_of_week : Z;
  week_of_year : Z;
  is_weekend : Z;
  quarter : Z;
  is_summer : Z;
  is_winter : Z;
  is_holiday_season : Z
}.
Arguments row_of {Row} _.
Arguments year {Row} _.
Arguments month {Row} _.
Arguments day {Row} _.
Arguments day_of_week {Row} _.
Arguments week_of_year {Row} _.
Arguments is_weekend {Row} _.
Arguments quarter {Row} _.
Arguments is_summer {Row} _.
Arguments is_winter {Row} _.
Arguments is_holiday_season {Row} _.
End FeatureRow.

Definition demand_features {Row} (date_col : Row -> Z) (row : Row) : FeatureRow.t Row :=
  let date := date_col row in
  let c := Calendar.civil_of_days date in
  let month := Calendar.month c in
  let day_of_week := Calendar.dayofweek date in
  {| FeatureRow.row_of := row;
     FeatureRow.year := Calendar.year c;
     FeatureRow.month := month;
     FeatureRow.day := Calendar.day c;
     FeatureRow.day_of_week := day_of_week;
     FeatureRow.week_of_year := isocalendar_week date;
     FeatureRow.is_weekend := isin_int day_of_week [5; 6];
     FeatureRow.quarter := quarter_of_month month;
     FeatureRow.is_summer := isin_int month [6; 7; 8];
     FeatureRow.is_winter := isin_int month [12; 1; 2];
     FeatureRow.is_holiday_season := isin_int month [11; 12] |}.

(** The date column, already a column of dates, is the accessor. *)
Definition calculate_demand_features {Row} (df : list Row) (date_col : Row -> Z)
  : list (FeatureRow.t Row) :=
  map (demand_features date_col) df.

(** ** [calculate_inventory_metrics]

    The two arguments are columns of unit counts. *)

Module InventoryMetrics.
Record t : Type := {
  total_demand : Z;
  total_supply : Z;
  utilization_rate : Q;
  shortage_risk : Q;
  wastage_risk : Q
}.
End InventoryMetrics.

(** The exact sum of a column of integers, which [groupby(...).agg('sum')]
    gives on the unit counts of the generator's table. *)
Definition Zsum (xs : list Z) : Z := fold_left Z.add xs 0.

(** Arithmetic on [int64] wraps around. *)
Definition wrap_int64 (z : Z) : Z := (z + 2 ^ 63) mod 2 ^ 64 - 2 ^ 63.

(** [series.sum()] of an [int64] column. *)
Definition int64_sum (xs : list Z) : Z :=
  fold_left (fun acc x => wrap_int64 (acc + x)) xs 0.

(** [min(a, b)] and [max(a, b)]: the first argument unless the second is
    smaller, respectively greater. *)
Definition py_min (a b : Q) : Q := if Qltb b a then b else a.
Definition py_max (a b : Q) : Q := if Qltb a b then b else a.

Section InventoryMetricsModel.
Context `{Rounding}.

(** The sums and their differences are [int64]; the quotients are floats.
    The shelf life is accepted and never read. *)
Definition calculate_inventory_metrics (demand supply : list Z) (shelf_life_days : Z)
  : InventoryMetrics.t :=
  let d := int64_sum demand in
  let s := int64_sum supply in
  {| InventoryMetrics.total_demand := d;
     InventoryMetrics.total_supply := s;
     InventoryMetrics.utilization_rate :=
       if 0 <? s then py_min (fdiv (of_int d) (of_int s)) 1 else 0%Q;
     InventoryMetrics.shortage_risk :=
       if 0 <? d then py_max 0 (fdiv (of_int (wrap_int64 (d - s))) (of_int d)) else 0%Q;
     InventoryMetrics.wastage_risk :=
       if 0 <? s then py_max 0 (fdiv (of_int (wrap_int64 (s - d))) (of_int s)) else 0%Q |}.

End InventoryMetricsModel.

(** ** [get_outreach_recommendations] *)

Module Recommendation.
Record t : Type := {
  action : string;
  strategy : string;
  frequency : string;
  channel : string
}.
End Recommendation.

(** The argument is accepted and never read. *)
Definition get_outreach_recommendations {Row} (segment_df : list Row)
  : list (string * Recommendation.t) :=
  [("Champions",
    {| Recommendation.action := "Retain & Reward";
       Recommendation.strategy :=
         "VIP treatment, early access to donation drives, recognition programs";
       Recommendation.frequency := "Monthly touchpoints";
       Recommendation.channel := "Personal calls, exclusive emails" |});
   ("Loyal",
    {| Recommendation.action := "Upsell & Engage";
       Recommendation.strategy :=
         "Encourage referrals, milestone celebrations, loyalty rewards";
       Recommendation.frequency := "Bi-weekly engagement";
       Recommendation.channel := "Email, SMS reminders" |});
   ("Potential",
    {| Recommendation.action := "Nurture & Convert";
       Recommendation.strategy :=
         "Education about impact, flexible scheduling, convenience focus";
       Recommendation.frequency := "Weekly gentle reminders";
       Recommendation.channel := "Email campaigns, social media" |});
   ("At Risk",
    {| Recommendation.action := "Reactivate Urgently";
       Recommendation.strategy :=
         "Win-back campaigns, understand barriers, offer incentives";
       Recommendation.frequency := "Immediate outreach";
       Recommendation.channel := "Personal calls, targeted emails" |});
   ("Hibernating",
    {| Recommendation.action := "Re-engage or Archive";
       Recommendation.strategy :=
         "Last-chance campaigns, surveys to understand dropout reasons";
       Recommendation.frequency := "One-time campaign";
       Recommendation.channel := "Email, direct mail" |});
   ("New",
    {| Recommendation.action := "Onboard & Educate";
       Recommendation.strategy :=
         "Welcome series, first-donation follow-up, community building";
       Recommendation.frequency := "Weekly for first month";
       Recommendation.channel := "Email series, app notifications" |})]%string.

(** ** [main], without the directory, the files and the printing *)

Module Datasets.
Record t : Type := {
  demand_detailed : list DemandRow.t;
  demand_daily : list DailyRow.t;
  donor_registry : list Donor.t;
  rfm_dataset : list RfmRow.t;
  supply_inventory : list SupplyRow.t
}.
End Datasets.

Section Main.
Context {G F : Type} `{NumpyRandom G} `{Faker F} `{Rounding}.

(** A step that cannot read the state. *)
Definition lift_result {W A} (r : PyExn + A) : Eff W A :=
  fun w => match r with
           | inl e => inl e
           | inr a => inr (a, w)
           end.

Definition main : Eff (World G F) Datasets.t :=
  (' (demand_detailed, demand_daily) <-
       with_rng (generate_demand_timeseries 18628 1095) ;;
   donor_df <- generate_donor_registry 10000 ;;
   rfm_df <- lift_result (generate_rfm_dataset donor_df) ;;
   supply_df <- with_rng (generate_supply_data demand_daily 0.929 0.071) ;;
   ret {| Datasets.demand_detailed := demand_detailed;
          Datasets.demand_daily := demand_daily;
          Datasets.donor_registry := donor_df;
          Datasets.rfm_dataset := rfm_df;
          Datasets.supply_inventory := supply_df |})%eff.

End Main.

(** * Statements

    The predicates the properties below are stated with, and the sample
    inputs they are run on. *)

(** A (date, component) group of the detailed table: its key, the base
    demand of the component, the integer total of the pair and the rows of
    its blood types. *)
Module Group.
Record t : Type := {
  date : Z;
  component : string;
  base : Z;
  total : Z;
  rows : list DemandRow.t
}.
End Group.

Section DemandStatements.
Context {G : Type} `{NumpyRandom G} `{Rounding}.

(** The rows of a pair with total [total], read along the run from the
    state [g] to the state [g']: one row per blood type, in the order of the
    distribution; the units of a row are the share
    [total * proportion + noise] of its blood type, truncated and clamped at
    one, where [proportion] is the proportion of that blood type and [noise]
    the draw made at the state the run has reached. *)
Fixpoint split_from (total : Z) (types : list (string * Q)) (g : G)
  (rows : list DemandRow.t) (g' : G) : Prop :=
  match types, rows with
  | [], [] => g' = g
  | (blood_type, proportion) :: types', row :: rows' =>
      let (noise, g1) := sample_normal 0 1 g in
      DemandRow.blood_type row = blood_type
      /\ DemandRow.demand_units row
         = Z.max 1 (py_int (fadd (fmul (of_int total) proportion) noise))
      /\ 1 <= DemandRow.demand_units row
      /\ split_from total types' g1 rows' g'
  | _, _ => False
  end.

(** The groups of a table, read along the run from [g] to [g']: the total of
    a group is the float demand that the run computes for its date and
    component at the state it has reached, truncated and clamped at one, and
    its rows are the split of that total. *)
Fixpoint groups_from (g : G) (groups : list Group.t) (g' : G) : Prop :=
  match groups with
  | [] => g' = g
  | grp :: groups' =>
      exists (demand : Q) (g1 g2 : G),
        raw_demand (Group.date grp) (Group.base grp) g = inr (demand, g1)
        /\ Group.total grp = Z.max 1 (py_int demand)
        /\ 1 <= Group.total grp
        /\ split_from (Group.total grp) BLOOD_TYPE_DISTRIBUTION g1 (Group.rows grp) g2
        /\ Forall (fun r => DemandRow.date r = Group.date grp
                            /\ DemandRow.component r = Group.component grp)
                  (Group.rows grp)
        /\ groups_from g2 groups' g'
  end.

(** The key and base demand of a group, and those of the loops over
    [periods] dates from [start_date] and over the components. *)
Definition group_label (grp : Group.t) : Z * (string * Z) :=
  (Group.date grp, (Group.component grp, Group.base grp)).

Definition group_labels (start_date : Z) (periods : nat) : list (Z * (string * Z)) :=
  flat_map (fun date => map (fun cb => (date, cb)) base_demand)
    (date_range start_date periods).

End DemandStatements.

(** ** Supply rows *)

Definition in_range (lo hi x : Q) : Prop := (lo <= x)%Q /\ (x <= hi)%Q.

Definition int64_demand (row : DailyRow.t) : Prop :=
  1 <= DailyRow.demand_units row < 2 ^ 63.

Section SupplyStatements.
Context `{Rounding}.

(** What a supply row is, for a demand [d], a buffer factor [b] and an expiry
    fraction [u]. *)
Definition supply_row_of (d : Z) (b u : Q) (s : SupplyRow.t) : Prop :=
  SupplyRow.demand_units s = d
  /\ SupplyRow.supply_units s = Qfloor (fmul (of_int d) b)
  /\ SupplyRow.utilized_units s = Z.min (SupplyRow.supply_units s) d
  /\ SupplyRow.wasted_units s =
       Z.max 0 (SupplyRow.supply_units s - d)
       + Qfloor (fmul (of_int (SupplyRow.supply_units s)) u).

End SupplyStatements.

(** ** Donor records *)

(** The invariants of a donor record.  [now_last] is the clock reading from
    which the last donation date was counted back, [now_status] the later
    reading at which the availability was decided. *)
Definition donor_record_ok (now_last now_status : Z) (d : Donor.t) : Prop :=
  Donor.months_since_last_donation d <= Donor.months_since_first_donation d
  /\ Donor.total_volume_cc d = Donor.total_donations d * 450
  /\ let last_donation :=
       now_last - Calendar.timedelta_days (Donor.months_since_last_donation d * 30) in
     Donor.last_donation_date d = Calendar.strftime_ymd last_donation
     /\ (Donor.availability_status d = "Available"%string <->
         56 <= Calendar.delta_days now_status last_donation)
     /\ (Donor.availability_status d <> "Available"%string ->
         Donor.availability_status d = "Not Eligible"%string).

(** The deferral reason is present exactly when the flag is set, and is then
    one of the seven reasons of [DEFERRAL_REASONS]. *)
Definition deferral_ok (d : Donor.t) : Prop :=
  (Donor.deferral_reason d <> None <-> Donor.has_deferral_history d = true)
  /\ (Donor.has_deferral_history d = false -> Donor.deferral_reason d = None)
  /\ (Donor.has_deferral_history d = true ->
      exists reason : string,
        Donor.deferral_reason d = Some reason
        /\ In reason
             ["Low hemoglobin"; "Non-medical reasons"; "Blood pressure/pulse";
              "Travel history"; "Medication"; "Recent tattoo/piercing";
              "Other medical"]%string).

(** A step that leaves the clock alone. *)
Definition same_time {G F : Type} (w w' : World G F) : Prop :=
  clock w' = clock w /\ ticks w' = ticks w.

(** The argument checks of [np.random.choice]. *)
Definition choice_accepts {A} (a : list A) (p : option (list Q)) : bool :=
  match a, p with
  | [], _ => false
  | _ :: _, None => true
  | _ :: _, Some ps =>
      Nat.eqb (List.length ps) (List.length a)
      && negb (existsb (fun q => Qltb q 0) ps)
      && negb (Qltb choice_atol (Qabs (Qsum ps - 1)))
  end.

(** ** Forecast metrics, point by point *)

(** The metrics point by point, on the pairs (true value, prediction). *)
Definition abs_error (tp : float * float) : float :=
  PrimFloat.abs (PrimFloat.sub (fst tp) (snd tp)).

Definition squared_error (tp : float * float) : float :=
  PrimFloat.mul (PrimFloat.sub (fst tp) (snd tp)) (PrimFloat.sub (fst tp) (snd tp)).

Definition abs_pct_error (tp : float * float) : float :=
  PrimFloat.abs (PrimFloat.div (PrimFloat.sub (fst tp) (snd tp)) (fst tp)).

Definition true_is_nonzero (tp : float * float) : bool :=
  negb (PrimFloat.eqb (fst tp) 0).

Section PointwiseMetrics.
Variable add_reduce : list float -> float.

Definition mae_all_points (y_true y_pred : list float) : float :=
  np_mean add_reduce (map abs_error (combine y_true y_pred)).

Definition rmse_all_points (y_true y_pred : list float) : float :=
  PrimFloat.sqrt (np_mean add_reduce (map squared_error (combine y_true y_pred))).

Definition mape_nonzero_points (y_true y_pred : list float) : float :=
  PrimFloat.mul
    (np_mean add_reduce
       (map abs_pct_error (filter true_is_nonzero (combine y_true y_pred))))
    100.

End PointwiseMetrics.

(** ** Sample inputs *)

(** A run on the tape [1/2; 1; 3/2], from 2021-01-01, for one period. *)
Definition sample_demand_tape : list Q := [(1 # 2); 1; (3 # 2)]%Q.

Definition sample_demand_df : list DemandRow.t :=
  Eval vm_compute in
    match generate_demand_timeseries (G := list Q) 18628 1 sample_demand_tape with
    | inr ((df, _), _) => df
    | inl _ => []
    end.

Definition sample_demand_daily : list DailyRow.t :=
  Eval vm_compute in
    match generate_demand_timeseries (G := list Q) 18628 1 sample_demand_tape with
    | inr ((_, df_daily), _) => df_daily
    | inl _ => []
    end.

(** The supply rows of the sample daily table, on a tape of buffer and expiry
    draws. *)
Definition sample_supply_tape : list Q :=
  [1.1; 0.03; 1.05; 0.01; 1.2; 0.05; 1.13; 0.02]%Q.

Definition sample_supply_df : list SupplyRow.t :=
  Eval vm_compute in
    match generate_supply_data (G := list Q) sample_demand_daily 0.929 0.071
            sample_supply_tape with
    | inr (supply_df, _) => supply_df
    | inl _ => []
    end.

(** A world for two donors: the draws of a repeat donor with a deferral and
    of a first-time donor without, and a clock that starts at [today] and
    advances by a microsecond per reading. *)
Definition sample_donor_tape : list Q :=
  [2; 30; 1; 0; 0.5; 2.5; 4; 3; 0.1; 0; 0.2; 7;
   0; 17; 0; 3; 0.1; 1; 0.9; 4]%Q.

Definition sample_world (today : Z) : World (list Q) (list string) :=
  {| rng := sample_donor_tape;
     faker := ["Asha Rao"; "asha@example.org"; "555-0100";
               "Ravi Nair"; "ravi@example.org"; "555-0101"]%string;
     clock := fun k => Z.of_nat k + today;
     ticks := 0 |}.

(** 2024-01-01 and 2024-01-02, at midnight. *)
Definition day_one : Z := 19723 * Calendar.us_per_day.
Definition day_two : Z := 19724 * Calendar.us_per_day.

Definition sample_repeat_donor : Donor.t :=
  {| Donor.donor_id := "D00001";
     Donor.name := "Asha Rao";
     Donor.age := 25;
     Donor.gender := "Female";
     Donor.blood_type := "O+";
     Donor.city := "Ahmedabad";
     Donor.email := "asha@example.org";
     Donor.phone := "555-0100";
     Donor.registration_date := "2018-10-29";
     Donor.last_donation_date := "2023-10-03";
     Donor.total_donations := 9;
     Donor.total_volume_cc := 4050;
     Donor.months_since_first_donation := 63;
     Donor.months_since_last_donation := 3;
     Donor.availability_status := "Available";
     Donor.is_first_time_donor := false;
     Donor.has_deferral_history := true;
     Donor.deferral_reason := Some "Low hemoglobin"%string |}.

Definition sample_first_time_donor : Donor.t :=
  {| Donor.donor_id := "D00002";
     Donor.name := "Ravi Nair";
     Donor.age := 18;
     Donor.gender := "Male";
     Donor.blood_type := "AB+";
     Donor.city := "Kolkata";
     Donor.email := "ravi@example.org";
     Donor.phone := "555-0101";
     Donor.registration_date := "2023-12-02";
     Donor.last_donation_date := "2023-12-02";
     Donor.total_donations := 1;
     Donor.total_volume_cc := 450;
     Donor.months_since_first_donation := 1;
     Donor.months_since_last_donation := 1;
     Donor.availability_status := "Not Eligible";
     Donor.is_first_time_donor := true;
     Donor.has_deferral_history := false;
     Donor.deferral_reason := None |}.

Definition sample_registry : list Donor.t :=
  [sample_repeat_donor; sample_first_time_donor].

Definition sample_world_after : World (list Q) (list string) :=
  {| rng := []; faker := []; clock := clock (sample_world day_one); ticks := 6 |}.

(** Six donors who all gave three months ago. *)
Definition tied_rfm_row (k : Z) : RfmRow.t :=
  {| RfmRow.donor_id := String.append "D" (zfill 5 (py_str k));
     RfmRow.Recency := 3;
     RfmRow.Frequency := k;
     RfmRow.Monetary := k * 450;
     RfmRow.Time := 12 * k;
     RfmRow.donated_last_quarter := 1 |}.

Definition tied_rfm_table : list RfmRow.t := map tied_rfm_row [1; 2; 3; 4; 5; 6].

Definition Recency_col (r : RfmRow.t) : Q := inject_Z (RfmRow.Recency r).
Definition Frequency_col (r : RfmRow.t) : Q := inject_Z (RfmRow.Frequency r).
Definition Monetary_col (r : RfmRow.t) : Q := inject_Z (RfmRow.Monetary r).

(** Ten donors with Recency, Frequency and Monetary spread over ten values. *)
Definition spread_rfm_row (k : Z) : RfmRow.t :=
  {| RfmRow.donor_id := String.append "D" (zfill 5 (py_str k));
     RfmRow.Recency := k;
     RfmRow.Frequency := k;
     RfmRow.Monetary := k * 450;
     RfmRow.Time := 12 * k;
     RfmRow.donated_last_quarter := if k <=? 3 then 1 else 0 |}.

Definition spread_rfm_table : list RfmRow.t :=
  map spread_rfm_row [1; 2; 3; 4; 5; 6; 7; 8; 9; 10].

Definition spread_scored_table : list (Scored RfmRow.t) :=
  Eval vm_compute in
    match calculate_rfm_scores spread_rfm_table Recency_col Frequency_col Monetary_col with
    | inr scored => scored
    | inl _ => []
    end.

(** A daily table of one row without demand, and its supply row. *)
Definition zero_demand_daily : list DailyRow.t :=
  [{| DailyRow.date := 18628;
      DailyRow.component := "Platelets";
      DailyRow.demand_units := 0;
      DailyRow.day_of_week := 4;
      DailyRow.month := 1;
      DailyRow.is_weekend := 0;
      DailyRow.is_holiday_season := 0 |}].

Definition zero_supply_df : list SupplyRow.t :=
  Eval vm_compute in
    match generate_supply_data (G := list Q) zero_demand_daily 0.929 0.071
            sample_supply_tape with
    | inr (supply_df, _) => supply_df
    | inl _ => []
    end.

(** ** Donor records, further *)

(** The number in a donor id: [int(donor_id[1:])]. *)
Definition decode_donor_id (s : string) : option Z :=
  match s with
  | String "D"%char digits =>
      option_map (fun u => Z.of_N (N.of_uint u)) (NilZero.uint_of_string digits)
  | _ => None
  end.

(** The ranges of the columns of a donor record. *)
Definition donor_in_range (d : Donor.t) : Prop :=
  (exists (age_group : string) (age_min age_max : Z) (p : Q),
     In (age_group, (age_min, age_max, p)) AGE_GROUP_RANGES
     /\ age_min <= Donor.age d <= age_max)
  /\ 16 <= Donor.age d <= 75
  /\ In (Donor.gender d) ["Male"; "Female"]%string
  /\ In (Donor.blood_type d) (keys BLOOD_TYPE_DISTRIBUTION)
  /\ In (Donor.city d) CITIES
  /\ 1 <= Donor.total_donations d <= 50
  /\ 0 <= Donor.months_since_last_donation d
  /\ Donor.months_since_first_donation d <= 120
  /\ (Donor.is_first_time_donor d = true <-> Donor.total_donations d = 1)
  /\ (Donor.is_first_time_donor d = true ->
      Donor.months_since_last_donation d = Donor.months_since_first_donation d
      /\ Donor.months_since_first_donation d <= 5)
  /\ (Donor.is_first_time_donor d = false ->
      6 <= Donor.months_since_first_donation d).

(** What turn [i] of the loop writes besides: the id, and the registration
    date counted back from the clock reading [now_reg]. *)
Definition donor_identity (i : nat) (now_reg : Z) (d : Donor.t) : Prop :=
  Donor.donor_id d = String.append "D" (zfill 5 (py_str (Z.of_nat i + 1)))
  /\ Donor.registration_date d
     = Calendar.strftime_ymd
         (now_reg - Calendar.timedelta_days (Donor.months_since_first_donation d * 30)).

(** ** Keys of the demand tables *)

(** The order in which [groupby] sorts the keys: by date, then by component
    name. *)
Definition key_lt (k1 k2 : Z * string) : Prop := key_ltb k1 k2 = true.

Definition daily_key (r : DailyRow.t) : Z * string :=
  (DailyRow.date r, DailyRow.component r).

(** The detail rows of one key. *)
Definition rows_of_key (rows : list DemandRow.t) (k : Z * string) : list DemandRow.t :=
  filter (fun r => key_eqb (row_key r) k) rows.

(** Date, component and blood type of a detail row. *)
Definition row_label (r : DemandRow.t) : Z * string * string :=
  (DemandRow.date r, DemandRow.component r, DemandRow.blood_type r).

(** The labels of the detailed table of [periods] days from [start_date]:
    dates in order, the four components within a date, the eight blood
    types within a component. *)
Definition demand_labels (start_date : Z) (periods : nat) : list (Z * string * string) :=
  flat_map (fun date =>
    flat_map (fun component =>
      map (fun blood_type => (date, component, blood_type))
          (keys BLOOD_TYPE_DISTRIBUTION))
      (keys base_demand))
    (date_range start_date periods).

(** The calendar columns of a demand row agree with its date. *)
Definition calendar_columns_ok (r : DemandRow.t) : Prop :=
  DemandRow.day_of_week r = Calendar.dayofweek (DemandRow.date r)
  /\ DemandRow.month r = Calendar.month (Calendar.civil_of_days (DemandRow.date r))
  /\ 0 <= DemandRow.day_of_week r <= 6
  /\ 1 <= DemandRow.month r <= 12
  /\ (DemandRow.is_weekend r = 1 /\ 5 <= DemandRow.day_of_week r
      \/ DemandRow.is_weekend r = 0 /\ DemandRow.day_of_week r <= 4)
  /\ (DemandRow.is_holiday_season r = 1 /\ 11 <= DemandRow.month r
      \/ DemandRow.is_holiday_season r = 0 /\ DemandRow.month r <= 10).

(** The keys of the tables of [periods] days from [start_date]. *)
Definition demand_keys (start_date : Z) (periods : nat) : list (Z * string) :=
  flat_map (fun date => map (fun component => (date, component)) (keys base_demand))
    (date_range start_date periods).

(** The calendar columns of a daily row agree with its date. *)
Definition daily_calendar_columns_ok (r : DailyRow.t) : Prop :=
  DailyRow.day_of_week r = Calendar.dayofweek (DailyRow.date r)
  /\ DailyRow.month r = Calendar.month (Calendar.civil_of_days (DailyRow.date r))
  /\ (DailyRow.is_weekend r = 1 /\ 5 <= DailyRow.day_of_week r
      \/ DailyRow.is_weekend r = 0 /\ DailyRow.day_of_week r <= 4)
  /\ (DailyRow.is_holiday_season r = 1 /\ 11 <= DailyRow.month r
      \/ DailyRow.is_holiday_season r = 0 /\ DailyRow.month r <= 10).

(** ** Rows of the RFM table *)

(** What a row of the RFM table of a generated registry satisfies. *)
Definition rfm_in_range (r : RfmRow.t) : Prop :=
  0 <= RfmRow.Recency r <= RfmRow.Time r
  /\ RfmRow.Time r <= 120
  /\ 1 <= RfmRow.Frequency r <= 50
  /\ RfmRow.Monetary r = RfmRow.Frequency r * 450
  /\ (RfmRow.donated_last_quarter r = 1 /\ RfmRow.Recency r <= 3
      \/ RfmRow.donated_last_quarter r = 0 /\ 4 <= RfmRow.Recency r).

(** ** Time features *)

(** A flag column: [1] where [P] holds and [0] elsewhere. *)
Definition flag_of (flag : Z) (P : Prop) : Prop := flag = 1 /\ P \/ flag = 0 /\ ~ P.

(** What the ten columns of a row with time features satisfy. *)
Definition features_in_range {Row} (f : FeatureRow.t Row) : Prop :=
  1 <= FeatureRow.month f <= 12
  /\ 1 <= FeatureRow.day f <= 31
  /\ 0 <= FeatureRow.day_of_week f <= 6
  /\ 1 <= FeatureRow.week_of_year f <= 53
  /\ 1 <= FeatureRow.quarter f <= 4
  /\ 3 * FeatureRow.quarter f - 2 <= FeatureRow.month f <= 3 * FeatureRow.quarter f
  /\ flag_of (FeatureRow.is_weekend f) (5 <= FeatureRow.day_of_week f)
  /\ flag_of (FeatureRow.is_summer f) (6 <= FeatureRow.month f <= 8)
  /\ flag_of (FeatureRow.is_winter f)
             (FeatureRow.month f = 12 \/ FeatureRow.month f <= 2)
  /\ flag_of (FeatureRow.is_holiday_season f) (11 <= FeatureRow.month f).

(** The columns that the features overwrite in a daily table and in a
    detailed table keep their values. *)
Definition keeps_daily_columns (f : FeatureRow.t DailyRow.t) : Prop :=
  FeatureRow.day_of_week f = DailyRow.day_of_week (FeatureRow.row_of f)
  /\ FeatureRow.month f = DailyRow.month (FeatureRow.row_of f)
  /\ FeatureRow.is_weekend f = DailyRow.is_weekend (FeatureRow.row_of f)
  /\ FeatureRow.is_holiday_season f = DailyRow.is_holiday_season (FeatureRow.row_of f).

Definition keeps_detail_columns (f : FeatureRow.t DemandRow.t) : Prop :=
  FeatureRow.day_of_week f = DemandRow.day_of_week (FeatureRow.row_of f)
  /\ FeatureRow.month f = DemandRow.month (FeatureRow.row_of f)
  /\ FeatureRow.is_weekend f = DemandRow.is_weekend (FeatureRow.row_of f)
  /\ FeatureRow.is_holiday_season f = DemandRow.is_holiday_season (FeatureRow.row_of f).

(** ** The five tables of [main] *)

Definition supply_key (s : SupplyRow.t) : Z * string :=
  (SupplyRow.date s, SupplyRow.component s).

(** The sizes of the five tables and what links them. *)
Definition datasets_linked (ds : Datasets.t) : Prop :=
  Z.of_nat (List.length (Datasets.demand_detailed ds)) = 35040
  /\ Z.of_nat (List.length (Datasets.demand_daily ds)) = 4380
  /\ Z.of_nat (List.length (Datasets.donor_registry ds)) = 10000
  /\ Z.of_nat (List.length (Datasets.rfm_dataset ds)) = 10000
  /\ Z.of_nat (List.length (Datasets.supply_inventory ds)) = 4380
  /\ Datasets.demand_daily ds = groupby_date_component (Datasets.demand_detailed ds)
  /\ map RfmRow.donor_id (Datasets.rfm_dataset ds)
     = map Donor.donor_id (Datasets.donor_registry ds)
  /\ map supply_key (Datasets.supply_inventory ds)
     = map daily_key (Datasets.demand_daily ds)
  /\ map SupplyRow.demand_units (Datasets.supply_inventory ds)
     = map DailyRow.demand_units (Datasets.demand_daily ds).

(** ** Order of the scores *)

(** The bin number that [_bins_to_cuts] gives a value. *)
Definition bin_id (bins : list Q) (v : Q) : nat :=
  match bins with
  | b0 :: _ => if Qeq_bool v b0 then 1%nat else Pandas.searchsorted_left bins v
  | [] => 0%nat
  end.

(** The rank of entry [i], whose value is [v]. *)
Definition rank_of (x : list Q) (i : nat) (v : Q) : nat :=
  (1 + List.length (filter (fun y => Qltb y v) x)
   + List.length (filter (fun y => Qeq_bool y v) (firstn i x)))%nat.

(** Between rows [i] and [j] of the scored table: a recency not above gives
    an R score not below; a frequency below, or the same frequency earlier
    in the table, gives an F score not above; and so for the monetary
    value. *)
Definition scores_ordered {Row} (recency_col frequency_col monetary_col : Row -> Q)
  (i j : nat) (si sj : Scored Row) : Prop :=
  ((recency_col (row_of si) <= recency_col (row_of sj))%Q -> R_Score sj <= R_Score si)
  /\ ((frequency_col (row_of si) < frequency_col (row_of sj))%Q
      \/ (frequency_col (row_of si) == frequency_col (row_of sj))%Q /\ (i <= j)%nat ->
      F_Score si <= F_Score sj)
  /\ ((monetary_col (row_of si) < monetary_col (row_of sj))%Q
      \/ (monetary_col (row_of si) == monetary_col (row_of sj))%Q /\ (i <= j)%nat ->
      M_Score si <= M_Score sj).

(** * Properties *)

(** ** Dates *)

Example civil_epoch :
  Calendar.civil_of_days 0
  = {| Calendar.year := 1970; Calendar.month := 1; Calendar.day := 1 |}.
Proof. reflexivity. Qed.

Example civil_leap_day :
  Calendar.civil_of_days 19782
  = {| Calendar.year := 2024; Calendar.month := 2; Calendar.day := 29 |}.
Proof. reflexivity. Qed.

Example civil_before_epoch :
  Calendar.civil_of_days (-1)
  = {| Calendar.year := 1969; Calendar.month := 12; Calendar.day := 31 |}.
Proof. reflexivity. Qed.

(** 2021-01-01, the default start date, was a Friday. *)
Example dayofweek_default_start : Calendar.dayofweek 18628 = 4.
Proof. reflexivity. Qed.

Example strftime_default_start :
  Calendar.strftime_ymd (18628 * Calendar.us_per_day + 1) = "2021-01-01"%string.
Proof. reflexivity. Qed.

(** Thirty days back from midnight is thirty days. *)
Example delta_days_thirty :
  Calendar.delta_days day_one (day_one - Calendar.timedelta_days 30) = 30.
Proof. reflexivity. Qed.

(** ** Computations *)

Lemma bind_inr {W A B} (m : Eff W A) (k : A -> Eff W B) (w w' : W) (b : B) :
  bind m k w = inr (b, w') ->
  exists a w1, m w = inr (a, w1) /\ k a w1 = inr (b, w').
Proof.
  unfold bind. destruct (m w) as [e | [a w1]]; [discriminate|].
  intro Hk. exists a, w1. split; [reflexivity | exact Hk].
Qed.

Lemma ret_inr {W A} (a b : A) (w w' : W) :
  ret a w = inr (b, w') -> b = a /\ w' = w.
Proof. unfold ret. intro E. inversion E. split; reflexivity. Qed.

(** Peel one [bind] (or the final [ret]) off a run that returned. *)
Ltac eff_inv H :=
  lazymatch type of H with
  | bind _ _ _ = inr _ =>
      let a := fresh "a" in
      let w1 := fresh "w" in
      let Hm := fresh "Hm" in
      apply bind_inr in H; destruct H as (a & w1 & Hm & H)
  | ret _ _ = inr _ =>
      apply ret_inr in H; destruct H as [? ?]; subst
  end.

(** Peel one [bind], naming the result, the state after it and its run. *)
Ltac eff_bind H a w Hm :=
  apply bind_inr in H; destruct H as (a & w & Hm & H).

Lemma for_each_Forall2 {W A B} (P : A -> B -> Prop) (body : A -> Eff W B) :
  (forall x w r w', body x w = inr (r, w') -> P x r) ->
  forall xs w rs w', for_each body xs w = inr (rs, w') -> Forall2 P xs rs.
Proof.
  intros Hbody xs. induction xs as [|x xs IH]; intros w rs w' Hrun; cbn in Hrun.
  - eff_inv Hrun. constructor.
  - eff_inv Hrun. eff_inv Hrun. eff_inv Hrun.
    constructor; [eapply Hbody; eassumption | eapply IH; eassumption].
Qed.

Lemma for_each_Forall {W A B} (P : B -> Prop) (body : A -> Eff W B) :
  (forall x w r w', body x w = inr (r, w') -> P r) ->
  forall xs w rs w', for_each body xs w = inr (rs, w') -> Forall P rs.
Proof.
  intros Hbody xs w rs w' Hrun.
  apply (for_each_Forall2 (fun _ r => P r)) in Hrun; [|exact Hbody].
  induction Hrun; constructor; assumption.
Qed.

Lemma for_each_concat_Forall {W A B} (P : B -> Prop) (body : A -> Eff W (list B)) :
  (forall x w r w', body x w = inr (r, w') -> Forall P r) ->
  forall xs w rs w', for_each_concat body xs w = inr (rs, w') -> Forall P rs.
Proof.
  intros Hbody xs. induction xs as [|x xs IH]; intros w rs w' Hrun; cbn in Hrun.
  - eff_inv Hrun. constructor.
  - eff_inv Hrun. eff_inv Hrun. eff_inv Hrun.
    apply Forall_app. split; [eapply Hbody; eassumption | eapply IH; eassumption].
Qed.

(** A loop returns when its body always does. *)
Lemma for_each_returns {W A B} (body : A -> Eff W B) :
  (forall x w, exists r w', body x w = inr (r, w')) ->
  forall xs w, exists rs w',
    for_each body xs w = inr (rs, w') /\ List.length rs = List.length xs.
Proof.
  intros Hbody xs. induction xs as [|x xs IH]; intro w; cbn.
  - exists [], w. split; reflexivity.
  - destruct (Hbody x w) as (r & w1 & Hr).
    destruct (IH w1) as (rs & w2 & Hrs & Hlen).
    exists (r :: rs), w2. unfold bind. rewrite Hr, Hrs. cbn.
    split; [reflexivity | now rewrite Hlen].
Qed.

(** ** Segments *)

(** C3: the segment is decided by the R and F scores alone, by the rules
    Champions, Loyal, New, At Risk, Hibernating in this order of priority and
    Potential when none applies; the M score plays no part; (4,1) is New,
    (5,5) is Champions and (1,1) is Hibernating. *)
Theorem assign_rfm_segment_priority {Row : Type} (row : Scored Row) :
  let r := R_Score row in
  let f := F_Score row in
  let champions := 4 <= r /\ 4 <= f in
  let loyal := 3 <= r /\ 3 <= f in
  let new := 4 <= r /\ f = 1 in
  let at_risk := r <= 2 /\ 3 <= f in
  let hibernating := r <= 2 /\ f <= 2 in
  (champions -> assign_rfm_segment row = "Champions"%string)
  /\ (~ champions -> loyal -> assign_rfm_segment row = "Loyal"%string)
  /\ (~ champions -> ~ loyal -> new -> assign_rfm_segment row = "New"%string)
  /\ (~ champions -> ~ loyal -> ~ new -> at_risk ->
      assign_rfm_segment row = "At Risk"%string)
  /\ (~ champions -> ~ loyal -> ~ new -> ~ at_risk -> hibernating ->
      assign_rfm_segment row = "Hibernating"%string)
  /\ (~ champions -> ~ loyal -> ~ new -> ~ at_risk -> ~ hibernating ->
      assign_rfm_segment row = "Potential"%string)
  /\ (forall (Row' : Type) (row' : Scored Row'),
        R_Score row' = r -> F_Score row' = f ->
        assign_rfm_segment row' = assign_rfm_segment row)
  /\ (r = 4 -> f = 1 -> assign_rfm_segment row = "New"%string)
  /\ (r = 5 -> f = 5 -> assign_rfm_segment row = "Champions"%string)
  /\ (r = 1 -> f = 1 -> assign_rfm_segment row = "Hibernating"%string).
Proof.
  cbv zeta. unfold assign_rfm_segment.
  repeat split; intros;
    repeat match goal with
           | E : R_Score _ = _ |- _ => rewrite E; clear E
           | E : F_Score _ = _ |- _ => rewrite E; clear E
           | |- context [?a <=? ?b] => destruct (Z.leb_spec a b)
           | |- context [?a =? ?b] => destruct (Z.eqb_spec a b)
           end; cbn; try reflexivity; lia.
Qed.

(** ** Demand *)

Section DemandProperties.
Context {G : Type} `{NumpyRandom G} `{Rounding}.

Lemma lift_sample_inr {A} (s : G -> A * G) (g g' : G) (a : A) :
  lift_sample s g = inr (a, g') -> a = fst (s g) /\ g' = snd (s g).
Proof.
  unfold lift_sample. intro E. inversion E as [E'].
  rewrite E'. split; reflexivity.
Qed.

Lemma lift_sample_returns {A} (s : G -> A * G) (g : G) :
  exists a g', lift_sample s g = inr (a, g').
Proof.
  unfold lift_sample. destruct (s g) as [a g']. exists a, g'. reflexivity.
Qed.

Lemma raw_demand_returns (date base : Z) (g : G) :
  exists x g', raw_demand date base g = inr (x, g').
Proof.
  unfold raw_demand, bind, np_random_normal, np_random_random, lift_sample.
  destruct (sample_normal _ _ g) as [noise g1].
  destruct (sample_random g1) as [spike g2].
  destruct (Qltb spike 0.02).
  - unfold np_random_uniform, lift_sample.
    destruct (sample_uniform _ _ g2) as [k g3]. unfold ret. eauto.
  - unfold ret. eauto.
Qed.

(** The total is the float demand, truncated and clamped at one. *)
Lemma component_demand_total (date base : Z) (g g' : G) (total : Z) :
  component_demand date base g = inr (total, g') ->
  exists demand : Q,
    raw_demand date base g = inr (demand, g')
    /\ total = Z.max 1 (py_int demand)
    /\ 1 <= total.
Proof.
  unfold component_demand. intro Hrun.
  eff_bind Hrun demand g1 Hraw. apply ret_inr in Hrun. destruct Hrun as [-> ->].
  exists demand. split; [exact Hraw|]. split; [reflexivity | lia].
Qed.

Lemma component_demand_returns (date base : Z) (g : G) :
  exists d g', component_demand date base g = inr (d, g').
Proof.
  unfold component_demand, bind.
  destruct (raw_demand_returns date base g) as (x & g' & ->).
  unfold ret. eauto.
Qed.

(** The split of a total, read along the run. *)
Lemma blood_type_rows_split (date : Z) (component : string) (total : Z)
  (g g' : G) (rows : list DemandRow.t) :
  blood_type_rows date component total g = inr (rows, g') ->
  split_from total BLOOD_TYPE_DISTRIBUTION g rows g'
  /\ Forall (fun r => DemandRow.date r = date /\ DemandRow.component r = component) rows.
Proof.
  unfold blood_type_rows. generalize BLOOD_TYPE_DISTRIBUTION as types.
  intro types. revert g rows.
  induction types as [|[blood_type proportion] types IH]; intros g rows Hrun;
    cbn [for_each] in Hrun.
  - apply ret_inr in Hrun. destruct Hrun as [-> ->].
    split; [reflexivity | constructor].
  - eff_bind Hrun r g1 Hrow. eff_bind Hrun rs g2 Hrest.
    apply ret_inr in Hrun. destruct Hrun as [-> ->].
    destruct (IH _ _ Hrest) as [Hsplit Hfields].
    unfold bind, np_random_normal, lift_sample in Hrow.
    cbn [split_from].
    destruct (sample_normal 0 1 g) as [noise g1'].
    unfold ret in Hrow. inversion Hrow; subst r g1'. clear Hrow.
    cbn [DemandRow.blood_type DemandRow.demand_units DemandRow.date
         DemandRow.component].
    split.
    + split; [reflexivity|]. split; [reflexivity|]. split; [lia | exact Hsplit].
    + constructor; [split; reflexivity | exact Hfields].
Qed.

Lemma split_from_positive (total : Z) (types : list (string * Q)) :
  forall (g : G) (rows : list DemandRow.t) (g' : G),
    split_from total types g rows g' ->
    Forall (fun r => 1 <= DemandRow.demand_units r) rows.
Proof.
  induction types as [|[blood_type proportion] types IH];
    intros g [|row rows] g' Hsplit; cbn [split_from] in Hsplit;
    try contradiction; [constructor|].
  destruct (sample_normal 0 1 g) as [noise g1].
  destruct Hsplit as (_ & _ & Hpos & Hrest).
  constructor; [exact Hpos | exact (IH _ _ _ Hrest)].
Qed.

Lemma blood_type_rows_positive (date : Z) (component : string) (total : Z)
  (g g' : G) (rows : list DemandRow.t) :
  blood_type_rows date component total g = inr (rows, g') ->
  Forall (fun r => 1 <= DemandRow.demand_units r) rows.
Proof.
  intro Hrun. apply blood_type_rows_split in Hrun. destruct Hrun as [Hsplit _].
  eapply split_from_positive. exact Hsplit.
Qed.

Lemma blood_type_rows_returns (date : Z) (component : string) (demand : Z) (g : G) :
  exists rows g',
    blood_type_rows date component demand g = inr (rows, g')
    /\ List.length rows = 8%nat.
Proof.
  unfold blood_type_rows.
  apply (for_each_returns _ ) with (xs := BLOOD_TYPE_DISTRIBUTION).
  intros [blood_type proportion] w.
  unfold bind, np_random_normal, lift_sample.
  destruct (sample_normal 0 1 w) as [noise w1]. unfold ret. eauto.
Qed.

Lemma date_rows_positive (date : Z) (g g' : G) (rows : list DemandRow.t) :
  date_rows date g = inr (rows, g') ->
  Forall (fun r => 1 <= DemandRow.demand_units r) rows.
Proof.
  unfold date_rows. apply for_each_concat_Forall.
  intros [component base] w r w' Hrun.
  eff_bind Hrun total w1 Htotal.
  eapply blood_type_rows_positive. exact Hrun.
Qed.

Lemma groups_from_app (groups1 groups2 : list Group.t) :
  forall g g1 g2 : G,
    groups_from g groups1 g1 -> groups_from g1 groups2 g2 ->
    groups_from g (groups1 ++ groups2) g2.
Proof.
  induction groups1 as [|grp groups1 IH]; intros g g1 g2 H1 H2; cbn [groups_from app] in *.
  - subst g1. exact H2.
  - destruct H1 as (demand & ga & gb & Hraw & Htotal & Hpos & Hsplit & Hfields & Hrest).
    exists demand, ga, gb. repeat (split; [assumption|]).
    eapply IH; eassumption.
Qed.

(** The groups of one date. *)
Lemma date_rows_groups (date : Z) (g g' : G) (rows : list DemandRow.t) :
  date_rows date g = inr (rows, g') ->
  exists groups : list Group.t,
    map group_label groups = map (fun cb => (date, cb)) base_demand
    /\ rows = flat_map Group.rows groups
    /\ groups_from g groups g'.
Proof.
  unfold date_rows. generalize base_demand as components.
  intro components. revert g rows.
  induction components as [|[component base] components IH]; intros g rows Hrun;
    cbn [for_each_concat] in Hrun.
  - apply ret_inr in Hrun. destruct Hrun as [-> ->].
    exists []. repeat split.
  - eff_bind Hrun r g1 Hgroup. eff_bind Hrun rs g2 Hrest.
    apply ret_inr in Hrun. destruct Hrun as [-> ->].
    eff_bind Hgroup total ga Htotal.
    destruct (component_demand_total _ _ _ _ _ Htotal) as (demand & Hraw & Hmax & Hpos).
    destruct (blood_type_rows_split _ _ _ _ _ _ Hgroup) as [Hsplit Hfields].
    destruct (IH _ _ Hrest) as (groups & Hlabels & Hrows & Hfrom).
    exists ({| Group.date := date; Group.component := component; Group.base := base;
               Group.total := total; Group.rows := r |} :: groups).
    split; [|split].
    + cbn [map]. rewrite Hlabels. reflexivity.
    + cbn [flat_map Group.rows]. rewrite Hrows. reflexivity.
    + cbn [groups_from Group.date Group.base Group.total Group.rows Group.component].
      exists demand, ga, g1. repeat (split; [assumption|]). exact Hfrom.
Qed.

(** The groups of the loop over the dates. *)
Lemma dates_groups (dates : list Z) :
  forall (g g' : G) (df : list DemandRow.t),
    for_each_concat date_rows dates g = inr (df, g') ->
    exists groups : list Group.t,
      map group_label groups
      = flat_map (fun date => map (fun cb => (date, cb)) base_demand) dates
      /\ df = flat_map Group.rows groups
      /\ groups_from g groups g'.
Proof.
  induction dates as [|date dates IH]; intros g g' df Hrun;
    cbn [for_each_concat] in Hrun.
  - apply ret_inr in Hrun. destruct Hrun as [-> ->].
    exists []. repeat split.
  - eff_bind Hrun r g1 Hdate. eff_bind Hrun rs g2 Hrest.
    apply ret_inr in Hrun. destruct Hrun as [-> ->].
    destruct (date_rows_groups _ _ _ _ Hdate) as (groups1 & Hl1 & Hr1 & Hf1).
    destruct (IH _ _ _ Hrest) as (groups2 & Hl2 & Hr2 & Hf2).
    exists (groups1 ++ groups2). split; [|split].
    + cbn [flat_map]. rewrite map_app, Hl1, Hl2. reflexivity.
    + rewrite flat_map_app, Hr1, Hr2. reflexivity.
    + eapply groups_from_app; eassumption.
Qed.

End DemandProperties.

Lemma for_each_concat_returns {W A B} (body : A -> Eff W (list B)) (k : nat) :
  (forall x w, exists r w', body x w = inr (r, w') /\ List.length r = k) ->
  forall xs w, exists rs w',
    for_each_concat body xs w = inr (rs, w')
    /\ List.length rs = (k * List.length xs)%nat.
Proof.
  intros Hbody xs. induction xs as [|x xs IH]; intro w; cbn [for_each_concat].
  - exists [], w. split; [reflexivity | cbn; lia].
  - destruct (Hbody x w) as (r & w1 & Hr & Hk).
    destruct (IH w1) as (rs & w2 & Hrs & Hlen).
    exists (r ++ rs), w2. unfold bind. rewrite Hr, Hrs. unfold ret.
    split; [reflexivity|]. rewrite length_app, Hk, Hlen. cbn [List.length]. lia.
Qed.

Section DemandTable.
Context {G : Type} `{NumpyRandom G} `{Rounding}.

Lemma date_rows_returns (date : Z) (g : G) :
  exists rows g', date_rows date g = inr (rows, g') /\ List.length rows = 32%nat.
Proof.
  unfold date_rows.
  apply (for_each_concat_returns _ 8) with (xs := base_demand).
  intros [component base] w. unfold bind.
  destruct (component_demand_returns date base w) as (d & w1 & ->).
  apply blood_type_rows_returns.
Qed.

(** With at least one period the generator returns, 32 rows per date. *)
Lemma generate_demand_timeseries_returns (start_date : Z) (periods : nat) (g : G) :
  (0 < periods)%nat ->
  exists df daily g',
    generate_demand_timeseries start_date periods g = inr ((df, daily), g')
    /\ List.length df = (32 * periods)%nat.
Proof.
  intro Hpos. unfold generate_demand_timeseries, bind.
  destruct (for_each_concat_returns date_rows 32 date_rows_returns
              (date_range start_date periods) g) as (df & g' & -> & Hlen).
  unfold date_range in Hlen. rewrite length_map, length_seq in Hlen.
  destruct df as [|r df].
  - cbn in Hlen. lia.
  - unfold ret. eauto.
Qed.

(** C7: the detailed demand table is made of the groups of its (date,
    component) pairs in the order of the loops.  The total of each group is
    an integer of at least one: the float demand of the pair, truncated and
    clamped at one.  The rows of the group are the split of that total over
    the blood types, each again truncated and clamped at one.  So every row
    of the table has an integer unit count of at least one. *)
Theorem demand_units_at_least_one (start_date : Z) (periods : nat) (g g' : G)
  (df : list DemandRow.t) (df_daily : list DailyRow.t) :
  generate_demand_timeseries start_date periods g = inr ((df, df_daily), g') ->
  (exists groups : list Group.t,
     map group_label groups = group_labels start_date periods
     /\ df = flat_map Group.rows groups
     /\ groups_from g groups g'
     /\ Forall (fun grp => 1 <= Group.total grp) groups)
  /\ Forall (fun r => 1 <= DemandRow.demand_units r) df.
Proof.
  unfold generate_demand_timeseries. intro Hrun.
  eff_bind Hrun rows g1 Hrows.
  destruct rows as [|r rows]; [discriminate|].
  apply ret_inr in Hrun. destruct Hrun as [E ->]. inversion E; subst. clear E.
  split.
  - destruct (dates_groups _ _ _ _ Hrows) as (groups & Hlabels & Hdf & Hfrom).
    exists groups. split; [exact Hlabels|]. split; [exact Hdf|]. split; [exact Hfrom|].
    clear Hlabels Hdf Hrows. revert g Hfrom.
    induction groups as [|grp groups IH]; intros g Hfrom; [constructor|].
    cbn [groups_from] in Hfrom.
    destruct Hfrom as (demand & ga & gb & _ & _ & Hpos & _ & _ & Hrest).
    constructor; [exact Hpos | exact (IH _ Hrest)].
  - eapply for_each_concat_Forall; [|exact Hrows].
    intros date w rs w'. apply date_rows_positive.
Qed.

End DemandTable.

(** On a tape every draw of the split takes one entry. *)
Lemma split_from_tape (total : Z) (types : list (string * Q)) :
  forall (g : list Q) (rows : list DemandRow.t) (g' : list Q),
    split_from total types g rows g' -> g' = skipn (List.length types) g.
Proof.
  induction types as [|[blood_type proportion] types IH];
    intros g [|row rows] g' Hsplit; cbn [split_from] in Hsplit; try contradiction.
  - exact Hsplit.
  - destruct g as [|x g]; cbn in Hsplit; destruct Hsplit as (_ & _ & _ & Hrest);
      apply IH in Hrest; rewrite Hrest; cbn [List.length skipn].
    + now rewrite skipn_nil.
    + reflexivity.
Qed.

(** Reads the next group of a run on a tape: its label, its float demand and
    total, and the state after its split. *)
Ltac next_group Hl Hfrom :=
  match type of Hfrom with
  | groups_from _ ?groups _ =>
      destruct groups as [|[? ? ? ? ?] ?]; [discriminate Hl|];
      vm_compute in Hl; injection Hl as -> -> -> Hl;
      cbn [groups_from Group.date Group.base Group.total Group.rows Group.component]
        in Hfrom;
      let x := fresh "x" in let ga := fresh "ga" in let gb := fresh "gb" in
      let Hraw := fresh "Hraw" in let Ht := fresh "Ht" in
      let Hsplit := fresh "Hsplit" in
      destruct Hfrom as (x & ga & gb & Hraw & Ht & _ & Hsplit & _ & Hfrom);
      vm_compute in Hraw; injection Hraw as <- <-;
      vm_compute in Ht; subst;
      apply split_from_tape in Hsplit; vm_compute in Hsplit; subst gb
  end.

Lemma demand_units_at_least_one_witness :
  List.length sample_demand_df = 32%nat
  /\ (exists groups : list Group.t,
        map group_label groups = group_labels 18628 1
        /\ map Group.total groups = [185; 64; 53; 21]
        /\ sample_demand_df = flat_map Group.rows groups
        /\ groups_from sample_demand_tape groups []
        /\ Forall (fun grp => 1 <= Group.total grp) groups)
  /\ Forall (fun r => 1 <= DemandRow.demand_units r) sample_demand_df.
Proof.
  split; [reflexivity|].
  destruct (demand_units_at_least_one (G := list Q) 18628 1 sample_demand_tape []
              sample_demand_df sample_demand_daily)
    as [(groups & Hl & Hdf & Hfrom & Hpos) Hall].
  { vm_compute. reflexivity. }
  split; [|exact Hall].
  exists groups. split; [exact Hl|].
  split; [|split; [exact Hdf | split; [exact Hfrom | exact Hpos]]].
  clear Hdf Hpos Hall.
  next_group Hl Hfrom. next_group Hl Hfrom. next_group Hl Hfrom. next_group Hl Hfrom.
  destruct groups; [reflexivity | discriminate Hl].
Defined.

(** ** Rounded arithmetic *)

Lemma py_int_floor (x : Q) : (0 <= x)%Q -> py_int x = Qfloor x.
Proof.
  destruct x as [n d]. unfold Qle, py_int, Qfloor. cbn. intro Hn.
  apply Z.quot_div_nonneg; lia.
Qed.

Lemma Qfloor_ge (z : Z) (x : Q) : (inject_Z z <= x)%Q -> z <= Qfloor x.
Proof.
  intro Hle. rewrite <- (Qfloor_Z z). apply Qfloor_resp_le. exact Hle.
Qed.

Lemma Qfloor_nonneg (x : Q) : (0 <= x)%Q -> 0 <= Qfloor x.
Proof. intro Hx. apply (Qfloor_ge 0). exact Hx. Qed.

Section RoundingFacts.
Context `{Rounding}.

Lemma fl_0 : (fl 0 == 0)%Q.
Proof. apply (fl_int 0). cbn. lia. Qed.

Lemma fl_1 : (fl 1 == 1)%Q.
Proof. apply (fl_int 1). cbn. lia. Qed.

Lemma fl_nonneg (x : Q) : (0 <= x)%Q -> (0 <= fl x)%Q.
Proof. intro Hx. rewrite <- fl_0. apply fl_mono. exact Hx. Qed.

Lemma fl_le_1 (x : Q) : (x <= 1)%Q -> (fl x <= 1)%Q.
Proof. intro Hx. rewrite <- fl_1. apply fl_mono. exact Hx. Qed.

Lemma fl_ge_1 (x : Q) : (1 <= x)%Q -> (1 <= fl x)%Q.
Proof. intro Hx. rewrite <- fl_1. apply fl_mono. exact Hx. Qed.

(** The relative error bound, as two inequalities. *)
Lemma fl_rel_bounds (x : Q) :
  (1 <= x)%Q -> (x <= binade_max)%Q ->
  (x - x * unit_roundoff <= fl x /\ fl x <= x + x * unit_roundoff)%Q.
Proof.
  intros H1 Hmax.
  assert (Hpos : (0 <= x)%Q) by (apply Qle_trans with 1%Q; [discriminate | exact H1]).
  pose proof (fl_rel x) as Hrel. rewrite (Qabs_pos x Hpos) in Hrel.
  specialize (Hrel H1 Hmax). apply Qabs_Qle_condition in Hrel.
  destruct Hrel as [Hlo Hhi]. split; lra.
Qed.

Lemma of_int_mono (a b : Z) : a <= b -> (of_int a <= of_int b)%Q.
Proof.
  intro Hab. unfold of_int. apply fl_mono. rewrite <- Zle_Qle. exact Hab.
Qed.

Lemma of_int_nonneg (a : Z) : 0 <= a -> (0 <= of_int a)%Q.
Proof.
  intro Ha. unfold of_int. apply fl_nonneg. change 0%Q with (inject_Z 0).
  rewrite <- Zle_Qle. exact Ha.
Qed.

Lemma of_int_ge_1 (a : Z) : 1 <= a -> (1 <= of_int a)%Q.
Proof.
  intro Ha. unfold of_int. apply fl_ge_1. change 1%Q with (inject_Z 1).
  rewrite <- Zle_Qle. exact Ha.
Qed.

Lemma int64_below_binade_max (d : Z) :
  d < 2 ^ 63 -> (2 * inject_Z d <= binade_max)%Q.
Proof.
  intro Hd. unfold binade_max.
  apply Qle_trans with (inject_Z (2 * 2 ^ 63)).
  - assert (E : (2 * inject_Z d == inject_Z (2 * d))%Q)
      by (rewrite inject_Z_mult; reflexivity).
    rewrite E, <- Zle_Qle. lia.
  - rewrite <- Zle_Qle. apply Z.leb_le. vm_compute. reflexivity.
Qed.

(** A count of at least one times a buffer factor of at least 1.05 rounds to
    at least one. *)
Lemma buffered_product_ge_1 (d : Z) (b : Q) :
  1 <= d -> (1.05 <= b)%Q -> (1 <= fmul (of_int d) b)%Q.
Proof.
  intros Hd Hb. unfold fmul. apply fl_ge_1.
  pose proof (of_int_ge_1 d Hd) as HF. nra.
Qed.

(** The product of a 64-bit count of at least one and a buffer factor of at
    least 1.05 does not round below the count. *)
Lemma buffered_supply_ge (d : Z) (b : Q) :
  1 <= d < 2 ^ 63 -> (1.05 <= b)%Q -> (b <= 1.20)%Q ->
  (inject_Z d <= fmul (of_int d) b)%Q.
Proof.
  intros [Hd1 Hd63] Hb1 Hb2.
  assert (HD1 : (1 <= inject_Z d)%Q).
  { change 1%Q with (inject_Z 1). rewrite <- Zle_Qle. exact Hd1. }
  pose proof (int64_below_binade_max d Hd63) as HDmax.
  assert (HDm : (inject_Z d <= binade_max)%Q) by lra.
  destruct (fl_rel_bounds (inject_Z d) HD1 HDm) as [HFlo HFhi].
  fold (of_int d) in HFlo, HFhi.
  set (D := inject_Z d) in *. set (F := of_int d) in *.
  clearbody D F. unfold unit_roundoff in *.
  assert (HF0 : (0 <= F)%Q) by lra.
  assert (Hy1 : (F * 1.05 <= F * b)%Q) by nra.
  assert (Hy2 : (F * b <= F * 1.20)%Q) by nra.
  assert (Hge1 : (1 <= F * b)%Q) by lra.
  assert (Hmax : (F * b <= binade_max)%Q) by lra.
  destruct (fl_rel_bounds (F * b)%Q Hge1 Hmax) as [Hlo _].
  unfold fmul. unfold unit_roundoff in Hlo. lra.
Qed.

End RoundingFacts.

(** ** Supply *)

Section SupplyProperties.
Context {G : Type} `{NumpyRandom G} `{Rounding}.

Lemma uniform_in_range (lo hi : Q) (g g' : G) (x : Q) :
  (lo <= hi)%Q -> np_random_uniform lo hi g = inr (x, g') -> in_range lo hi x.
Proof.
  intros Hle Hrun. apply lift_sample_inr in Hrun. destruct Hrun as [-> _].
  apply uniform_range. exact Hle.
Qed.

Lemma rate_in_unit_interval (a b : Z) :
  1 <= a <= b -> (0 <= fdiv (of_int a) (of_int b) <= 1)%Q.
Proof.
  intros [Ha Hab]. unfold fdiv.
  pose proof (of_int_ge_1 a Ha) as HA.
  pose proof (of_int_mono a b Hab) as HAB.
  assert (HB : (0 < of_int b)%Q) by lra.
  split.
  - apply fl_nonneg. apply Qle_shift_div_l; [exact HB | lra].
  - apply fl_le_1. apply Qle_shift_div_r; [exact HB | lra].
Qed.

Lemma rate_nonneg (a b : Z) :
  0 <= a -> 1 <= b -> (0 <= fdiv (of_int a) (of_int b))%Q.
Proof.
  intros Ha Hb. unfold fdiv.
  pose proof (of_int_nonneg a Ha) as HA.
  pose proof (of_int_ge_1 b Hb) as HB.
  apply fl_nonneg. apply Qle_shift_div_l; lra.
Qed.

(** One turn of the loop, on a demand of at least one. *)
Lemma supply_row_correct (row : DailyRow.t) (g g' : G) (s : SupplyRow.t) :
  1 <= DailyRow.demand_units row ->
  supply_row row g = inr (s, g') ->
  let d := DailyRow.demand_units row in
  (exists b u : Q,
     in_range 1.05 1.20 b /\ in_range 0.01 0.05 u /\ supply_row_of d b u s)
  /\ SupplyRow.utilized_units s <= SupplyRow.supply_units s
  /\ (0 <= SupplyRow.utilization_rate s <= 1)%Q
  /\ (0 <= SupplyRow.wastage_rate s)%Q.
Proof.
  intros Hd Hrun d. unfold supply_row in Hrun. fold d in Hrun, Hd.
  eff_inv Hrun. rename a into b, Hm into Hb.
  eff_inv Hrun. rename a into u, Hm into Hu.
  eff_inv Hrun.
  apply uniform_in_range in Hb; [|lra].
  apply uniform_in_range in Hu; [|lra].
  destruct Hb as [Hb1 Hb2]. destruct Hu as [Hu1 Hu2].
  pose proof (buffered_product_ge_1 d b Hd Hb1) as Hprod.
  assert (Hfloor : py_int (fmul (of_int d) b) = Qfloor (fmul (of_int d) b))
    by (apply py_int_floor; lra).
  assert (Hsup : 1 <= Qfloor (fmul (of_int d) b)) by (apply Qfloor_ge; exact Hprod).
  rewrite Hfloor in *.
  set (supply := Qfloor (fmul (of_int d) b)) in *.
  assert (Hexp0 : (0 <= fmul (of_int supply) u)%Q).
  { unfold fmul. apply fl_nonneg.
    assert (Hs0 : 0 <= supply) by lia.
    pose proof (of_int_nonneg supply Hs0).
    nra. }
  rewrite (py_int_floor _ Hexp0).
  pose proof (Qfloor_nonneg _ Hexp0) as Hexp.
  assert (Hpos : (0 <? supply) = true) by (apply Z.ltb_lt; lia).
  cbn [SupplyRow.demand_units SupplyRow.supply_units SupplyRow.utilized_units
       SupplyRow.wasted_units SupplyRow.utilization_rate SupplyRow.wastage_rate].
  rewrite Hpos.
  split; [|split; [|split]].
  - exists b, u. unfold in_range, supply_row_of.
    cbn [SupplyRow.demand_units SupplyRow.supply_units SupplyRow.utilized_units
         SupplyRow.wasted_units].
    repeat split; assumption || reflexivity.
  - lia.
  - apply rate_in_unit_interval. lia.
  - apply rate_nonneg; lia.
Qed.


(** Row by row, a 64-bit demand of at least one is covered by the supply. *)
Lemma supply_rows_cover (demand_df : list DailyRow.t)
  (utilization_rate wastage_rate : Q) (g g' : G) (supply_df : list SupplyRow.t) :
  Forall int64_demand demand_df ->
  generate_supply_data demand_df utilization_rate wastage_rate g = inr (supply_df, g') ->
  Forall2 (fun row s =>
             SupplyRow.demand_units s = DailyRow.demand_units row
             /\ DailyRow.demand_units row <= SupplyRow.supply_units s)
          demand_df supply_df.
Proof.
  intros Hall Hrun. unfold generate_supply_data in Hrun.
  apply (for_each_Forall2
           (fun row s => int64_demand row ->
              SupplyRow.demand_units s = DailyRow.demand_units row
              /\ DailyRow.demand_units row <= SupplyRow.supply_units s)) in Hrun.
  - revert Hall. induction Hrun as [|row s rows ss Hrow _ IH]; intro Hall; constructor.
    + apply Hrow. now inversion Hall.
    + apply IH. now inversion Hall.
  - intros row w s w' Hrow Hd.
    destruct (supply_row_correct row w w' s (proj1 Hd) Hrow)
      as ((b & u & [Hb1 Hb2] & _ & Hdem & Hsup & _) & _).
    split; [exact Hdem|]. rewrite Hsup.
    apply Qfloor_ge. apply buffered_supply_ge; assumption.
Qed.

(** C1, as the code has it: for demand rows with a 64-bit integer demand of
    at least one, every generated row has a supply that is not below its
    demand, whatever the draws. *)
Theorem supply_covers_demand (demand_df : list DailyRow.t)
  (utilization_rate wastage_rate : Q) (g g' : G) (supply_df : list SupplyRow.t) :
  Forall int64_demand demand_df ->
  generate_supply_data demand_df utilization_rate wastage_rate g = inr (supply_df, g') ->
  Forall (fun s => SupplyRow.demand_units s <= SupplyRow.supply_units s) supply_df.
Proof.
  intros Hall Hrun.
  pose proof (supply_rows_cover demand_df utilization_rate wastage_rate g g'
                supply_df Hall Hrun) as Hcover.
  clear Hall Hrun.
  induction Hcover as [|row s rows ss [Hdem Hge] _ IH]; constructor.
  - rewrite Hdem. exact Hge.
  - exact IH.
Qed.

(** The supply generator returns one row per demand row. *)
Lemma generate_supply_data_returns (demand_df : list DailyRow.t)
  (utilization_rate wastage_rate : Q) (g : G) :
  exists supply_df g',
    generate_supply_data demand_df utilization_rate wastage_rate g = inr (supply_df, g')
    /\ List.length supply_df = List.length demand_df.
Proof.
  unfold generate_supply_data. apply for_each_returns.
  intros row w. unfold supply_row, bind, np_random_uniform, lift_sample.
  destruct (sample_uniform 1.05 1.20 w) as [b w1].
  destruct (sample_uniform 0.01 0.05 w1) as [u w2].
  unfold ret. eauto.
Qed.

End SupplyProperties.

(** C1, as the spec states it, fails: no generator, no rounding and no demand
    table of 64-bit counts of at least one yield a row whose supply is below
    its demand. *)
Lemma supply_below_demand_never :
  ~ (exists (G : Type) (NR : NumpyRandom G) (R : Rounding)
            (demand_df : list DailyRow.t) (utilization_rate wastage_rate : Q)
            (g g' : G) (supply_df : list SupplyRow.t) (s : SupplyRow.t),
        Forall int64_demand demand_df
        /\ generate_supply_data demand_df utilization_rate wastage_rate g
             = inr (supply_df, g')
        /\ In s supply_df
        /\ SupplyRow.supply_units s < SupplyRow.demand_units s).
Proof.
  intros (G & NR & R & demand_df & ur & wr & g & g' & supply_df & s
          & Hall & Hrun & Hin & Hlt).
  pose proof (supply_rows_cover demand_df ur wr g g' supply_df Hall Hrun) as Hcover.
  clear Hall Hrun.
  induction Hcover as [|row s' rows ss [Hdem Hge] _ IH]; [contradiction|].
  destruct Hin as [<- | Hin]; [lia | exact (IH Hin)].
Qed.

Lemma sample_demand_daily_int64 : Forall int64_demand sample_demand_daily.
Proof. repeat constructor; unfold int64_demand; cbn; lia. Defined.



Lemma supply_covers_demand_witness :
  Forall int64_demand sample_demand_daily
  /\ Forall (fun s => SupplyRow.demand_units s <= SupplyRow.supply_units s)
            sample_supply_df.
Proof.
  split; [exact sample_demand_daily_int64|].
  apply (supply_covers_demand (G := list Q) sample_demand_daily 0.929 0.071
           sample_supply_tape [] sample_supply_df sample_demand_daily_int64).
  vm_compute. reflexivity.
Defined.

(** ** Donors *)

(** While less than a day passes between the two readings, the days elapsed
    are thirty per month. *)
Lemma delta_days_steady (now_last now_status months : Z) :
  0 <= now_status - now_last < Calendar.us_per_day ->
  Calendar.delta_days now_status
    (now_last - Calendar.timedelta_days (months * 30)) = months * 30.
Proof.
  unfold Calendar.delta_days, Calendar.timedelta_days. intro Hsteady.
  replace (now_status - (now_last - months * 30 * Calendar.us_per_day))
    with ((now_status - now_last) + months * 30 * Calendar.us_per_day) by ring.
  rewrite Z.div_add by (unfold Calendar.us_per_day; lia).
  rewrite Z.div_small by exact Hsteady. reflexivity.
Qed.

Section DonorProperties.
Context {G F : Type} `{NumpyRandom G} `{Faker F} `{Rounding}.

Lemma with_rng_inr {A} (m : Eff G A) (w w' : World G F) (a : A) :
  with_rng m w = inr (a, w') ->
  (exists g', m (rng w) = inr (a, g')) /\ same_time w w'.
Proof.
  unfold with_rng. destruct (m (rng w)) as [e | [a' g']]; [discriminate|].
  intro E. inversion E; subst. split; [eauto | split; reflexivity].
Qed.

Lemma with_faker_inr (s : F -> string * F) (w w' : World G F) (a : string) :
  with_faker s w = inr (a, w') -> same_time w w'.
Proof.
  unfold with_faker. destruct (s (faker w)) as [a' f'].
  intro E. inversion E; subst. split; reflexivity.
Qed.

Lemma datetime_now_inr (w w' : World G F) (now : Z) :
  datetime_now w = inr (now, w') ->
  now = clock w (ticks w) /\ clock w' = clock w /\ ticks w' = S (ticks w).
Proof.
  unfold datetime_now. intro E. inversion E; subst. repeat split.
Qed.

Lemma np_random_choice_In {A} (a : list A) (p : option (list Q)) (g g' : G) (x : A) :
  np_random_choice a p g = inr (x, g') -> In x a.
Proof.
  unfold np_random_choice. destruct a as [|a0 a']; [discriminate|].
  assert (Hnth : forall i, In (nth i (a0 :: a') a0) (a0 :: a')).
  { intro i. destruct (nth_in_or_default i (a0 :: a') a0) as [Hin | ->];
      [exact Hin | left; reflexivity]. }
  destruct p as [ps|].
  - destruct (negb _); [discriminate|].
    destruct (existsb _ ps); [discriminate|].
    destruct (Qltb _ _); [discriminate|].
    intro Hrun. eff_inv Hrun. eff_inv Hrun. apply Hnth.
  - intro Hrun. eff_inv Hrun. eff_inv Hrun. apply Hnth.
Qed.

Lemma donation_history_ordered (is_first_time : bool) (g g' : G)
  (total_donations months_since_first months_since_last : Z) :
  donation_history is_first_time g
    = inr ((total_donations, months_since_first, months_since_last), g') ->
  months_since_last <= months_since_first.
Proof.
  unfold donation_history. destruct is_first_time; intro Hrun.
  - eff_inv Hrun. eff_inv Hrun. inversion H2; subst. lia.
  - eff_inv Hrun. eff_inv Hrun. eff_inv Hrun. eff_inv Hrun.
    inversion H2; subst. lia.
Qed.

Lemma np_random_randint_inr (lo hi : Z) (g g' : G) (x : Z) :
  np_random_randint lo hi g = inr (x, g') -> lo <= x < hi.
Proof.
  unfold np_random_randint. destruct (Z.ltb_spec lo hi) as [Hlt | Hge];
    [|discriminate].
  intro Hrun. apply lift_sample_inr in Hrun. destruct Hrun as [-> _].
  apply randint_range. exact Hlt.
Qed.

(** The ranges of the donation count and of the two month counts. *)
Lemma donation_history_bounds (is_first_time : bool) (g g' : G)
  (total_donations months_since_first months_since_last : Z) :
  donation_history is_first_time g
    = inr ((total_donations, months_since_first, months_since_last), g') ->
  1 <= total_donations <= 50
  /\ 0 <= months_since_last <= months_since_first
  /\ months_since_first <= 120.
Proof.
  unfold donation_history. destruct is_first_time; intro Hrun.
  - eff_bind Hrun m g1 Hm. apply ret_inr in Hrun. destruct Hrun as [E _].
    inversion E; subst. apply np_random_randint_inr in Hm. lia.
  - eff_bind Hrun pa g1 Hpa. eff_bind Hrun k g2 Hk. eff_bind Hrun expo g3 Hex.
    apply ret_inr in Hrun. destruct Hrun as [E _]. inversion E; subst.
    apply np_random_randint_inr in Hk.
    apply lift_sample_inr in Hpa, Hex.
    destruct Hpa as [-> _]. destruct Hex as [-> _].
    pose proof (pareto_range 1.5 g) as Hpa.
    pose proof (exponential_range 6 g2) as Hex.
    assert (Hpa3 : (0 <= fmul (fst (sample_pareto 1.5 g)) 3)%Q)
      by (unfold fmul; apply fl_nonneg; nra).
    rewrite (py_int_floor _ Hpa3), (py_int_floor _ Hex).
    apply Qfloor_nonneg in Hpa3, Hex. lia.
Qed.

Lemma draw_deferral_reason_known (gender : string) (g g' : G) (reason : string) :
  draw_deferral_reason gender g = inr (reason, g') ->
  In reason (keys DEFERRAL_REASONS).
Proof.
  unfold draw_deferral_reason. intro Hrun. eff_inv Hrun.
  apply np_random_choice_In in Hm.
  destruct (String.eqb gender "Female").
  - eff_inv Hrun. destruct (Qltb a0 0.3); eff_inv Hrun.
    + left. reflexivity.
    + exact Hm.
  - eff_inv Hrun. exact Hm.
Qed.

End DonorProperties.

Section DonorRow.
Context {G F : Type} `{NumpyRandom G} `{Faker F} `{Rounding}.

(** One turn of the loop: the record, and the three clock readings taken. *)
Lemma donor_row_correct (i : nat) (w w' : World G F) (d : Donor.t) :
  donor_row i w = inr (d, w') ->
  donor_record_ok (clock w (S (ticks w))) (clock w (S (S (ticks w)))) d
  /\ deferral_ok d
  /\ clock w' = clock w
  /\ ticks w' = S (S (S (ticks w))).
Proof.
  unfold donor_row. intro Hrun.
  eff_bind Hrun age_group w1 Hage_group.
  destruct (dict_get AGE_GROUP_RANGES age_group) as [[[age_min age_max] q]|];
    [|discriminate].
  eff_bind Hrun age w2 Hage.
  eff_bind Hrun gender w3 Hgender.
  eff_bind Hrun blood_type w4 Hblood.
  eff_bind Hrun r1 w5 Hr1.
  eff_bind Hrun hist w6 Hhist.
  destruct hist as [[total_donations months_since_first] months_since_last].
  eff_bind Hrun now1 w7 Hnow1.
  eff_bind Hrun now2 w8 Hnow2.
  eff_bind Hrun now3 w9 Hnow3.
  eff_bind Hrun r2 w10 Hr2.
  eff_bind Hrun reason w11 Hreason.
  eff_bind Hrun name w12 Hname.
  eff_bind Hrun city w13 Hcity.
  eff_bind Hrun email w14 Hemail.
  eff_bind Hrun phone w15 Hphone.
  apply ret_inr in Hrun. destruct Hrun as [-> ->].
  apply with_rng_inr in Hage_group, Hage, Hgender, Hblood, Hr1, Hhist, Hr2, Hcity.
  apply with_faker_inr in Hname, Hemail, Hphone.
  apply datetime_now_inr in Hnow1, Hnow2, Hnow3.
  destruct Hage_group as [_ [Hc1 Ht1]]. destruct Hage as [_ [Hc2 Ht2]].
  destruct Hgender as [_ [Hc3 Ht3]]. destruct Hblood as [_ [Hc4 Ht4]].
  destruct Hr1 as [_ [Hc5 Ht5]]. destruct Hhist as [[g6 Hhist] [Hc6 Ht6]].
  destruct Hnow1 as (_ & Hc7 & Ht7). destruct Hnow2 as (-> & Hc8 & Ht8).
  destruct Hnow3 as (-> & Hc9 & Ht9). destruct Hr2 as [_ [Hc10 Ht10]].
  destruct Hcity as [_ [Hc13 Ht13]]. destruct Hname as [Hc12 Ht12].
  destruct Hemail as [Hc14 Ht14]. destruct Hphone as [Hc15 Ht15].
  apply donation_history_ordered in Hhist.
  assert (Hclock7 : clock w7 = clock w) by congruence.
  assert (Hticks7 : ticks w7 = S (ticks w)) by congruence.
  assert (Hclock8 : clock w8 = clock w) by congruence.
  assert (Hticks8 : ticks w8 = S (S (ticks w))) by congruence.
  assert (Hclock9 : clock w9 = clock w) by congruence.
  assert (Hticks9 : ticks w9 = S (S (S (ticks w)))) by congruence.
  rewrite Hclock7, Hticks7, Hclock8, Hticks8.
  assert (Hdef :
    (Qltb r2 0.15 = true ->
       exists s, reason = Some s /\ In s (keys DEFERRAL_REASONS))
    /\ (Qltb r2 0.15 = false -> reason = None)
    /\ same_time w10 w11).
  { destruct (Qltb r2 0.15).
    - eff_bind Hreason s w16 Hs. apply ret_inr in Hreason.
      destruct Hreason as [-> ->].
      apply with_rng_inr in Hs. destruct Hs as [[g16 Hs] Hsame].
      apply draw_deferral_reason_known in Hs.
      split; [|split]; [eauto | discriminate | exact Hsame].
    - apply ret_inr in Hreason. destruct Hreason as [-> ->].
      split; [|split]; [discriminate | reflexivity | split; reflexivity]. }
  destruct Hdef as (Hflag & Hnoflag & [Hc11 Ht11]).
  split; [|split; [|split]].
  - unfold donor_record_ok.
    cbn [Donor.months_since_last_donation Donor.months_since_first_donation
         Donor.total_volume_cc Donor.total_donations Donor.last_donation_date
         Donor.availability_status].
    split; [exact Hhist|]. split; [reflexivity|]. cbv zeta.
    split; [reflexivity|].
    destruct (Z.leb_spec 56
                (Calendar.delta_days (clock w (S (S (ticks w))))
                   (clock w (S (ticks w))
                    - Calendar.timedelta_days (months_since_last * 30)))) as [Hle | Hlt].
    + split; [split; [intros _; exact Hle | reflexivity] | intro Hne; now elim Hne].
    + split; [split; [discriminate | lia] | reflexivity].
  - unfold deferral_ok. cbn [Donor.deferral_reason Donor.has_deferral_history].
    destruct (Qltb r2 0.15).
    + destruct (Hflag eq_refl) as (s & -> & Hin).
      split; [split; [reflexivity | discriminate]|].
      split; [discriminate | intros _; exists s; split; [reflexivity | exact Hin]].
    + rewrite (Hnoflag eq_refl).
      split; [split; [intro Hne; now elim Hne | discriminate]|].
      split; [reflexivity | discriminate].
  - congruence.
  - congruence.
Qed.

End DonorRow.

Section DonorTable.
Context {G F : Type} `{NumpyRandom G} `{Faker F} `{Rounding}.

(** The loop: turn [j] reads the clock at ticks [3j], [3j+1] and [3j+2]. *)
Lemma donor_rows_correct (n : nat) :
  forall (s : nat) (w w' : World G F) (rows : list Donor.t),
    for_each donor_row (seq s n) w = inr (rows, w') ->
    clock w' = clock w
    /\ ticks w' = (ticks w + 3 * n)%nat
    /\ List.length rows = n
    /\ forall (j : nat) (d : Donor.t),
         nth_error rows j = Some d ->
         donor_record_ok (clock w (ticks w + 3 * j + 1)%nat)
                         (clock w (ticks w + 3 * j + 2)%nat) d
         /\ deferral_ok d.
Proof.
  induction n as [|n IH]; intros s w w' rows Hrun; cbn [seq for_each] in Hrun.
  - apply ret_inr in Hrun. destruct Hrun as [-> ->].
    split; [reflexivity|]. split; [lia|]. split; [reflexivity|].
    intros [|j] d Hnth; discriminate.
  - eff_bind Hrun r w1 Hrow. eff_bind Hrun rs w2 Hrest.
    apply ret_inr in Hrun. destruct Hrun as [-> ->].
    apply donor_row_correct in Hrow. destruct Hrow as (Hrec & Hdef & Hc1 & Ht1).
    apply IH in Hrest. destruct Hrest as (Hc2 & Ht2 & Hlen & Hrows).
    split; [congruence|]. split; [lia|]. split; [cbn; lia|].
    intros [|j] d Hnth; cbn [nth_error] in Hnth.
    + inversion Hnth; subst d.
      replace (ticks w + 3 * 0 + 1)%nat with (S (ticks w)) by lia.
      replace (ticks w + 3 * 0 + 2)%nat with (S (S (ticks w))) by lia.
      split; assumption.
    + specialize (Hrows j d Hnth). rewrite Hc1, Ht1 in Hrows.
      replace (ticks w + 3 * S j + 1)%nat with (S (S (S (ticks w))) + 3 * j + 1)%nat by lia.
      replace (ticks w + 3 * S j + 2)%nat with (S (S (S (ticks w))) + 3 * j + 2)%nat by lia.
      exact Hrows.
Qed.

(** C4: in every record of the registry the months since the last donation
    do not exceed the months since the first, the volume is 450 per
    donation, and the status is Available exactly when at least 56 days lie
    between the last donation and the clock reading at which the status is
    decided; while less than a day passes between the two readings of a
    turn, that is when thirty days per month since the last donation make at
    least 56. *)
Theorem donor_records_consistent (n_donors : Z) (w w' : World G F)
  (rows : list Donor.t) (j : nat) (d : Donor.t) :
  generate_donor_registry n_donors w = inr (rows, w') ->
  nth_error rows j = Some d ->
  let now_last := clock w (ticks w + 3 * j + 1)%nat in
  let now_status := clock w (ticks w + 3 * j + 2)%nat in
  donor_record_ok now_last now_status d
  /\ (0 <= now_status - now_last < Calendar.us_per_day ->
      (Donor.availability_status d = "Available"%string <->
       56 <= Donor.months_since_last_donation d * 30)).
Proof.
  unfold generate_donor_registry, py_range. intros Hrun Hnth.
  apply donor_rows_correct in Hrun. destruct Hrun as (_ & _ & _ & Hrows).
  destruct (Hrows j d Hnth) as [Hrec _]. cbv zeta. split; [exact Hrec|].
  intro Hsteady. destruct Hrec as (_ & _ & _ & Hiff & _).
  rewrite delta_days_steady in Hiff by exact Hsteady. exact Hiff.
Qed.

(** C10: in every record of the registry the deferral reason is present
    exactly when the deferral flag is set, and is then one of the seven
    reasons. *)
Theorem deferral_reason_iff_flag (n_donors : Z) (w w' : World G F)
  (rows : list Donor.t) :
  generate_donor_registry n_donors w = inr (rows, w') ->
  Forall deferral_ok rows.
Proof.
  unfold generate_donor_registry, py_range. intro Hrun.
  apply donor_rows_correct in Hrun. destruct Hrun as (_ & _ & _ & Hrows).
  apply Forall_forall. intros d Hin.
  apply In_nth_error in Hin. destruct Hin as [j Hnth].
  apply (Hrows j d Hnth).
Qed.

(** C8, as the code has it: a count of zero or less is not checked; the loop
    runs no turn, draws nothing and the registry is the empty table. *)
Theorem nonpositive_n_donors_gives_empty_table (n_donors : Z) (w : World G F) :
  n_donors <= 0 -> generate_donor_registry n_donors w = inr ([], w).
Proof.
  intro Hn. unfold generate_donor_registry, py_range.
  replace (Z.to_nat n_donors) with 0%nat by lia. reflexivity.
Qed.

End DonorTable.

Lemma sample_registry_run :
  generate_donor_registry 2 (sample_world day_one)
  = inr (sample_registry, sample_world_after).
Proof. vm_compute. reflexivity. Defined.

Lemma donor_records_consistent_witness :
  let now_last := clock (sample_world day_one) 4%nat in
  let now_status := clock (sample_world day_one) 5%nat in
  donor_record_ok now_last now_status sample_first_time_donor
  /\ (0 <= now_status - now_last < Calendar.us_per_day ->
      (Donor.availability_status sample_first_time_donor = "Available"%string <->
       56 <= Donor.months_since_last_donation sample_first_time_donor * 30)).
Proof.
  exact (donor_records_consistent 2 (sample_world day_one) sample_world_after
           sample_registry 1 sample_first_time_donor sample_registry_run eq_refl).
Defined.

Lemma deferral_reason_iff_flag_witness : Forall deferral_ok sample_registry.
Proof.
  exact (deferral_reason_iff_flag 2 (sample_world day_one) sample_world_after
           sample_registry sample_registry_run).
Defined.

Lemma nonpositive_n_donors_gives_empty_table_witness :
  -3 <= 0
  /\ generate_donor_registry (-3) (sample_world day_one)
     = inr ([], sample_world day_one).
Proof.
  assert (Hn : -3 <= 0) by lia.
  split; [exact Hn|].
  exact (nonpositive_n_donors_gives_empty_table (-3) (sample_world day_one) Hn).
Defined.

(** C8, as the spec states it, fails: a count of zero or less raises
    nothing. *)
Lemma nonpositive_n_donors_not_rejected :
  ~ (forall (n_donors : Z) (w : World (list Q) (list string)),
       n_donors <= 0 -> exists e : PyExn, generate_donor_registry n_donors w = inl e).
Proof.
  intro Hraises.
  destruct (Hraises 0 (sample_world day_one) (Z.le_refl 0)) as [e He].
  discriminate He.
Qed.

(** C5 fails on the registry: from one generator state, one Faker state and
    the same arguments, a run on 2024-01-01 and a run on 2024-01-02 give
    different tables; the two worlds differ in the clock alone. *)
Lemma donor_registry_follows_the_clock :
  rng (sample_world day_one) = rng (sample_world day_two)
  /\ faker (sample_world day_one) = faker (sample_world day_two)
  /\ (exists rows w', generate_donor_registry 2 (sample_world day_one) = inr (rows, w')
        /\ map Donor.registration_date rows = ["2018-10-29"; "2023-12-02"]%string
        /\ map Donor.last_donation_date rows = ["2023-10-03"; "2023-12-02"]%string)
  /\ (exists rows w', generate_donor_registry 2 (sample_world day_two) = inr (rows, w')
        /\ map Donor.registration_date rows = ["2018-10-30"; "2023-12-03"]%string
        /\ map Donor.last_donation_date rows = ["2023-10-04"; "2023-12-03"]%string).
Proof.
  split; [reflexivity|]. split; [reflexivity|]. split.
  - exists sample_registry, sample_world_after.
    split; [exact sample_registry_run|]. split; reflexivity.
  - eexists. eexists. split; [vm_compute; reflexivity|]. split; reflexivity.
Qed.

(** ** Quantile scores *)

Lemma sort_values_repeat (c : Q) (n : nat) :
  Pandas.sort_values (repeat c n) = repeat c n.
Proof.
  induction n as [|n IH]; [reflexivity|].
  cbn [repeat Pandas.sort_values fold_right].
  fold (Pandas.sort_values (repeat c n)). rewrite IH.
  destruct n as [|n]; [reflexivity|].
  cbn [repeat Pandas.insert_sorted].
  assert (Hcc : Qle_bool c c = true) by (apply Qle_bool_iff; apply Qle_refl).
  rewrite Hcc. reflexivity.
Qed.

(** Every quantile of a constant column is the constant. *)
Lemma quantile_repeat (c p : Q) (n : nat) :
  (0 < n)%nat -> (0 <= p)%Q -> (p <= 1)%Q ->
  (Pandas.quantile (repeat c n) p == c)%Q.
Proof.
  intros Hn Hp0 Hp1. unfold Pandas.quantile. rewrite repeat_length.
  set (h := (inject_Z (Z.of_nat n - 1) * p)%Q).
  assert (Hn1 : (0 <= inject_Z (Z.of_nat n - 1))%Q).
  { change 0%Q with (inject_Z 0). rewrite <- Zle_Qle. lia. }
  assert (Hh0 : (0 <= h)%Q) by (unfold h; apply Qmult_le_0_compat; assumption).
  assert (Hh1 : (h <= inject_Z (Z.of_nat n - 1))%Q) by (unfold h; nra).
  assert (Hlo0 : 0 <= Qfloor h) by (apply Qfloor_nonneg; exact Hh0).
  assert (Hlo1 : Qfloor h <= Z.of_nat n - 1).
  { rewrite <- (Qfloor_Z (Z.of_nat n - 1)). apply Qfloor_resp_le. exact Hh1. }
  assert (Ha : nth (Z.to_nat (Qfloor h)) (repeat c n) 0%Q = c)
    by (apply nth_repeat_lt; lia).
  rewrite Ha. rewrite nth_repeat. ring.
Qed.

Lemma unique_incl (l : list Q) (y : Q) : In y (Pandas.unique l) -> In y l.
Proof.
  induction l as [|x l IH]; cbn [Pandas.unique]; [intros []|].
  intros [-> | Hin]; [left; reflexivity|].
  apply filter_In in Hin. right. apply IH. apply Hin.
Qed.

Lemma filter_none {A} (f : A -> bool) (m : list A) :
  (forall y, In y m -> f y = false) -> filter f m = [].
Proof.
  induction m as [|y m IH]; intro Hall; [reflexivity|].
  cbn [filter]. rewrite (Hall y (or_introl eq_refl)).
  apply IH. intros z Hz. apply Hall. right. exact Hz.
Qed.

(** Edges that are all equal collapse to one edge. *)
Lemma unique_all_equal (c x : Q) (l : list Q) :
  (x == c)%Q -> Forall (fun y => (y == c)%Q) l -> Pandas.unique (x :: l) = [x].
Proof.
  intros Hx Hl. cbn [Pandas.unique]. f_equal.
  apply filter_none. intros y Hy.
  apply unique_incl in Hy. rewrite Forall_forall in Hl.
  apply negb_false_iff. apply Qeq_bool_iff.
  rewrite Hx. symmetry. apply Hl. exact Hy.
Qed.

Lemma linspace01_5_unit : Forall (fun p => (0 <= p)%Q /\ (p <= 1)%Q) (Pandas.linspace01 5).
Proof. repeat constructor; discriminate. Qed.

(** A cut of a constant column into five labelled bins fails: the six
    quantile edges collapse to one, and five labels do not fit no bin. *)
Lemma qcut_constant_column (c : Q) (n : nat) (labels : list Z) :
  (0 < n)%nat -> List.length labels = 5%nat -> Pandas.has_duplicates labels = false ->
  Pandas.qcut (repeat c n) 5 labels
  = inl (ValueError "Bin labels must be one fewer than the number of bin edges").
Proof.
  intros Hn Hlen Hdup. unfold Pandas.qcut. rewrite sort_values_repeat.
  assert (Hedges : Forall (fun y => (y == c)%Q)
                     (map (Pandas.quantile (repeat c n)) (Pandas.linspace01 5))).
  { apply Forall_map. eapply Forall_impl; [|exact linspace01_5_unit].
    intros p [Hp0 Hp1]. apply quantile_repeat; assumption. }
  remember (map (Pandas.quantile (repeat c n)) (Pandas.linspace01 5)) as bins eqn:Ebins.
  assert (Hbins : List.length bins = 6%nat) by (rewrite Ebins, length_map; reflexivity).
  destruct bins as [|x bins]; [discriminate|].
  inversion Hedges as [|? ? Hx Hrest]; subst.
  unfold Pandas.bins_to_cuts.
  rewrite (unique_all_equal c x bins Hx Hrest), Hbins, Hdup, Hlen.
  reflexivity.
Qed.

(** C2: the spec asks that a column with fewer than five distinct values be
    scored by merging buckets; the code does not.  When all rows share one
    Recency the six quantile edges are one edge, [duplicates='drop'] leaves a
    single edge, and the five labels make [qcut] raise. *)
Theorem calculate_rfm_scores_rejects_tied_recency {Row : Type} (df : list Row)
  (recency_col frequency_col monetary_col : Row -> Q) (c : Q) :
  df <> [] ->
  (forall row, In row df -> recency_col row = c) ->
  calculate_rfm_scores df recency_col frequency_col monetary_col
  = inl (ValueError "Bin labels must be one fewer than the number of bin edges").
Proof.
  intros Hne Hall. unfold calculate_rfm_scores.
  assert (Hcol : map recency_col df = repeat c (List.length df)).
  { clear Hne. induction df as [|row df IH]; [reflexivity|].
    cbn [map List.length repeat]. f_equal.
    - apply Hall. left. reflexivity.
    - apply IH. intros r Hr. apply Hall. right. exact Hr. }
  rewrite Hcol, qcut_constant_column; [reflexivity | | reflexivity | reflexivity].
  destruct df; [contradiction | cbn; lia].
Qed.


Lemma calculate_rfm_scores_rejects_tied_recency_witness :
  calculate_rfm_scores tied_rfm_table Recency_col Frequency_col Monetary_col
  = inl (ValueError "Bin labels must be one fewer than the number of bin edges").
Proof.
  apply (calculate_rfm_scores_rejects_tied_recency tied_rfm_table
           Recency_col Frequency_col Monetary_col 3%Q).
  - discriminate.
  - intros row Hin. unfold tied_rfm_table in Hin. apply in_map_iff in Hin.
    destruct Hin as (k & <- & _). reflexivity.
Defined.

(** ** Forecast metrics *)

Lemma elementwise_map {A} (op : float -> float -> float) (f g : A -> float) (l : list A) :
  elementwise op (map f l) (map g l) = map (fun x => op (f x) (g x)) l.
Proof.
  unfold elementwise. induction l as [|x l IH]; [reflexivity|].
  cbn [map combine fst snd]. f_equal. exact IH.
Qed.

Lemma boolean_index_true (y_true : list float) :
  boolean_index y_true (map (fun t => negb (PrimFloat.eqb t 0)) y_true)
  = inr (filter (fun t => negb (PrimFloat.eqb t 0)) y_true).
Proof.
  induction y_true as [|t ts IH]; [reflexivity|].
  cbn [map boolean_index filter]. rewrite IH. reflexivity.
Qed.

Lemma boolean_index_pairs (y_true y_pred : list float) :
  List.length y_true = List.length y_pred ->
  filter (fun t => negb (PrimFloat.eqb t 0)) y_true
    = map fst (filter true_is_nonzero (combine y_true y_pred))
  /\ boolean_index y_pred (map (fun t => negb (PrimFloat.eqb t 0)) y_true)
     = inr (map snd (filter true_is_nonzero (combine y_true y_pred))).
Proof.
  revert y_pred. induction y_true as [|t ts IH]; intros [|p ps] Hlen;
    try discriminate; [split; reflexivity|].
  injection Hlen as Hlen. destruct (IH ps Hlen) as [IHt IHp].
  cbn [map boolean_index filter combine]. rewrite IHp.
  change (true_is_nonzero (t, p)) with (negb (PrimFloat.eqb t 0)).
  destruct (negb (PrimFloat.eqb t 0)).
  - cbn [map fst snd]. rewrite IHt. split; reflexivity.
  - split; [exact IHt | reflexivity].
Qed.

Lemma combine_app_same {A B} (l1 l2 : list A) (m1 m2 : list B) :
  List.length l1 = List.length m1 ->
  combine (l1 ++ l2) (m1 ++ m2) = combine l1 m1 ++ combine l2 m2.
Proof.
  revert m1. induction l1 as [|x l1 IH]; intros [|y m1] Hlen; try discriminate.
  - reflexivity.
  - injection Hlen as Hlen. cbn [app combine]. f_equal. apply IH. exact Hlen.
Qed.

Section ForecastProperties.
Variable add_reduce : list float -> float.

(** C9: MAE and RMSE are means over all the points; MAPE is a mean over the
    points whose true value is not zero, so that a point with a zero true
    value, wherever it stands, does not change it. *)
Theorem forecast_metrics_point_sets (y_true y_pred : list float) :
  List.length y_true = List.length y_pred ->
  forecast_accuracy_metrics add_reduce y_true y_pred
  = inr {| Metrics.MAE := round2 (mae_all_points add_reduce y_true y_pred);
           Metrics.RMSE := round2 (rmse_all_points add_reduce y_true y_pred);
           Metrics.MAPE := round2 (mape_nonzero_points add_reduce y_true y_pred) |}
  /\ (forall (t p : float) (ts1 ps1 : list float),
        PrimFloat.eqb t 0 = true ->
        List.length ts1 = List.length ps1 ->
        mape_nonzero_points add_reduce (ts1 ++ t :: y_true) (ps1 ++ p :: y_pred)
        = mape_nonzero_points add_reduce (ts1 ++ y_true) (ps1 ++ y_pred)).
Proof.
  intro Hlen. split.
  - unfold forecast_accuracy_metrics.
    rewrite boolean_index_true. cbn [and_then].
    destruct (boolean_index_pairs y_true y_pred Hlen) as [Ht Hp].
    rewrite Hp, Ht. cbn [and_then].
    unfold mae_all_points, rmse_all_points, mape_nonzero_points.
    unfold elementwise at 1 2. rewrite !map_map.
    rewrite (elementwise_map PrimFloat.sub fst snd).
    rewrite (elementwise_map PrimFloat.div
               (fun x => PrimFloat.sub (fst x) (snd x)) fst).
    rewrite map_map. reflexivity.
  - intros t p ts1 ps1 Hzero Hlen1.
    unfold mape_nonzero_points. do 3 f_equal.
    rewrite !combine_app_same by assumption.
    rewrite !filter_app. f_equal.
    cbn [combine filter].
    change (true_is_nonzero (t, p)) with (negb (PrimFloat.eqb t 0)).
    rewrite Hzero. reflexivity.
Qed.

End ForecastProperties.

(** True values [0; 8] against predictions [1; 1]: the first point counts in
    MAE and RMSE and not in MAPE. *)
Lemma forecast_metrics_point_sets_witness :
  forecast_accuracy_metrics sequential_sum [0; 8]%float [1; 1]%float
  = inr {| Metrics.MAE := 4; Metrics.RMSE := 5; Metrics.MAPE := 87.5 |}
  /\ forecast_accuracy_metrics sequential_sum [8]%float [1]%float
     = inr {| Metrics.MAE := 7; Metrics.RMSE := 7; Metrics.MAPE := 87.5 |}.
Proof.
  split.
  - rewrite (proj1 (forecast_metrics_point_sets sequential_sum
                      [0; 8]%float [1; 1]%float eq_refl)).
    vm_compute. reflexivity.
  - vm_compute. reflexivity.
Defined.

(** ** The registry is produced

    With arithmetic that makes no rounding error, every check of
    [np.random.choice] and [np.random.randint] passes, whatever the draws:
    the generator returns one record per donor. *)

Section RegistryReturns.
Context {G F : Type} `{NumpyRandom G} `{Faker F}.

Lemma np_random_choice_returns {A} (a : list A) (p : option (list Q)) (g : G) :
  choice_accepts a p = true ->
  exists x g', np_random_choice a p g = inr (x, g') /\ In x a.
Proof.
  intro Hok.
  assert (Hsome : exists x g', np_random_choice a p g = inr (x, g')).
  { unfold np_random_choice, choice_accepts in *.
    destruct a as [|a0 a']; [discriminate|].
    destruct p as [ps|].
    - apply andb_true_iff in Hok. destruct Hok as [Hok H3].
      apply andb_true_iff in Hok. destruct Hok as [H1 H2].
      rewrite H1. apply negb_true_iff in H2, H3. rewrite H2, H3.
      unfold bind, lift_sample, ret. cbn [negb].
      destruct (sample_index _ g) as [i g']. eauto.
    - unfold bind, lift_sample, ret.
      destruct (sample_index _ g) as [i g']. eauto. }
  destruct Hsome as (x & g' & Hrun). exists x, g'.
  split; [exact Hrun | eapply np_random_choice_In; exact Hrun].
Qed.

Lemma np_random_randint_returns (lo hi : Z) (g : G) :
  lo < hi -> exists x g', np_random_randint lo hi g = inr (x, g').
Proof.
  intro Hlt. unfold np_random_randint.
  apply Z.ltb_lt in Hlt. rewrite Hlt. apply lift_sample_returns.
Qed.

Lemma with_rng_returns {A} (m : Eff G A) (w : World G F) :
  (exists a g', m (rng w) = inr (a, g')) ->
  exists a w', with_rng (F := F) m w = inr (a, w').
Proof.
  intros (a & g' & Hm). unfold with_rng. rewrite Hm. eauto.
Qed.

Lemma donation_history_returns (is_first_time : bool) (g : G) :
  exists h g', donation_history is_first_time g = inr (h, g').
Proof.
  unfold donation_history. destruct is_first_time.
  - unfold bind.
    destruct (np_random_randint_returns 0 6 g) as (m & g1 & ->); [lia|].
    unfold ret. eauto.
  - unfold bind, np_random_pareto, np_random_exponential, lift_sample.
    destruct (sample_pareto 1.5 g) as [pa g1].
    destruct (np_random_randint_returns 3 8 g1) as (k & g2 & ->); [lia|].
    destruct (sample_exponential 6 g2) as [ex g3].
    unfold ret. eauto.
Qed.

Lemma draw_deferral_reason_returns (gender : string) (g : G) :
  exists reason g', draw_deferral_reason gender g = inr (reason, g').
Proof.
  unfold draw_deferral_reason, bind.
  destruct (np_random_choice_returns (keys DEFERRAL_REASONS)
              (Some (normalize (values DEFERRAL_REASONS))) g)
    as (reason & g1 & -> & _); [vm_compute; reflexivity|].
  destruct (String.eqb gender "Female").
  - unfold np_random_random, lift_sample.
    destruct (sample_random g1) as [r g2].
    destruct (Qltb r 0.3); unfold ret; eauto.
  - unfold ret. eauto.
Qed.

Lemma age_group_bounds (age_group : string) :
  In age_group (keys AGE_GROUP_RANGES) ->
  exists age_min age_max q,
    dict_get AGE_GROUP_RANGES age_group = Some (age_min, age_max, q)
    /\ age_min < age_max + 1.
Proof.
  intro Hin. cbn in Hin.
  repeat (destruct Hin as [<- | Hin];
          [do 3 eexists; split; [reflexivity | lia]|]).
  contradiction.
Qed.

Lemma donor_row_returns (i : nat) (w : World G F) :
  exists d w', donor_row i w = inr (d, w').
Proof.
  unfold donor_row, bind.
  destruct (with_rng_returns
              (np_random_choice (keys AGE_GROUP_RANGES)
                 (Some (map snd (values AGE_GROUP_RANGES)))) w)
    as (age_group & w1 & Hage_group).
  { destruct (np_random_choice_returns (keys AGE_GROUP_RANGES)
                (Some (map snd (values AGE_GROUP_RANGES))) (rng w))
      as (x & g' & Hx & _); [vm_compute; reflexivity | eauto]. }
  rewrite Hage_group.
  apply with_rng_inr in Hage_group. destruct Hage_group as [[g1 Hin] _].
  apply np_random_choice_In in Hin.
  destruct (age_group_bounds age_group Hin) as (age_min & age_max & q & -> & Hlt).
  destruct (with_rng_returns (np_random_randint age_min (age_max + 1)) w1)
    as (age & w2 & ->); [apply np_random_randint_returns; exact Hlt|].
  destruct (with_rng_returns
              (np_random_choice ["Male"; "Female"]%string (Some [0.54; 0.46]%Q)) w2)
    as (gender & w3 & ->).
  { destruct (np_random_choice_returns ["Male"; "Female"]%string
                (Some [0.54; 0.46]%Q) (rng w2))
      as (x & g' & Hx & _); [vm_compute; reflexivity | eauto]. }
  destruct (with_rng_returns
              (np_random_choice (keys BLOOD_TYPE_DISTRIBUTION)
                 (Some (normalize (values BLOOD_TYPE_DISTRIBUTION)))) w3)
    as (blood_type & w4 & ->).
  { destruct (np_random_choice_returns (keys BLOOD_TYPE_DISTRIBUTION)
                (Some (normalize (values BLOOD_TYPE_DISTRIBUTION))) (rng w3))
      as (x & g' & Hx & _); [vm_compute; reflexivity | eauto]. }
  destruct (with_rng_returns np_random_random w4) as (r1 & w5 & ->);
    [apply lift_sample_returns|].
  destruct (with_rng_returns (donation_history (Qltb r1 0.30)) w5)
    as ([[total_donations months_since_first] months_since_last] & w6 & ->);
    [apply donation_history_returns|].
  unfold datetime_now at 1 2 3.
  set (w7 := {| rng := rng w6; faker := faker w6; clock := clock w6;
                ticks := S (ticks w6) |}).
  set (w8 := {| rng := rng w7; faker := faker w7; clock := clock w7;
                ticks := S (ticks w7) |}).
  set (w9 := {| rng := rng w8; faker := faker w8; clock := clock w8;
                ticks := S (ticks w8) |}).
  destruct (with_rng_returns np_random_random w9) as (r2 & w10 & ->);
    [apply lift_sample_returns|].
  assert (Hreason : exists reason w11,
            (if Qltb r2 0.15
             then bind (with_rng (F := F) (draw_deferral_reason gender))
                    (fun reason => ret (Some reason))
             else ret None) w10 = inr (reason, w11)).
  { destruct (Qltb r2 0.15).
    - unfold bind.
      destruct (with_rng_returns (draw_deferral_reason gender) w10)
        as (reason & w11 & ->); [apply draw_deferral_reason_returns|].
      unfold ret. eauto.
    - unfold ret. eauto. }
  unfold bind in Hreason. destruct Hreason as (reason & w11 & ->).
  unfold with_faker at 1.
  destruct (fake_name (faker w11)) as [name f12].
  set (w12 := {| rng := rng w11; faker := f12; clock := clock w11; ticks := ticks w11 |}).
  destruct (with_rng_returns (np_random_choice CITIES None) w12) as (city & w13 & ->).
  { destruct (np_random_choice_returns CITIES None (rng w12))
      as (x & g' & Hx & _); [reflexivity | eauto]. }
  unfold with_faker.
  destruct (fake_email (faker w13)) as [email f14]. cbn [faker].
  destruct (fake_phone_number f14) as [phone f15].
  unfold ret. eauto.
Qed.

(** The registry has one record per donor asked for. *)
Lemma generate_donor_registry_returns (n_donors : Z) (w : World G F) :
  exists rows w',
    generate_donor_registry n_donors w = inr (rows, w')
    /\ List.length rows = Z.to_nat n_donors.
Proof.
  unfold generate_donor_registry, py_range.
  destruct (for_each_returns donor_row donor_row_returns (seq 0 (Z.to_nat n_donors)) w)
    as (rows & w' & Hrun & Hlen).
  exists rows, w'. split; [exact Hrun|]. rewrite Hlen. apply length_seq.
Qed.

End RegistryReturns.

(** * Further properties *)

(** ** Scores *)

Lemma bins_to_cuts_labels (x bins : list Q) (labels : list Z) (l : list (option Z)) :
  Pandas.bins_to_cuts x bins labels = inr l ->
  List.length l = List.length x
  /\ Forall (fun o => forall v, o = Some v -> In v labels) l.
Proof.
  unfold Pandas.bins_to_cuts.
  destruct (Pandas.has_duplicates labels); [discriminate|].
  destruct (negb _); [discriminate|].
  intro E. inversion E; subst l. clear E.
  split; [now rewrite !length_map|].
  apply Forall_map. apply Forall_map. apply Forall_forall. intros v _ lab Hlab.
  destruct (_ || _); [discriminate|].
  eapply nth_error_In. exact Hlab.
Qed.

Lemma astype_int_inr (s : list (option Z)) (vs : list Z) :
  Pandas.astype_int s = inr vs -> s = map Some vs.
Proof.
  revert vs. induction s as [|o s IH]; intros vs E; cbn [Pandas.astype_int] in E.
  - inversion E. reflexivity.
  - destruct o as [v|]; [|discriminate].
    destruct (Pandas.astype_int s) as [e | vs']; [discriminate|].
    inversion E; subst. cbn [map]. f_equal. apply IH. reflexivity.
Qed.

(** The integer labels of a cut that converts: one per entry, all among the
    labels. *)
Lemma qcut_scores (x : list Q) (labels : list Z) (l : list (option Z)) (vs : list Z) :
  Pandas.qcut x 5 labels = inr l ->
  Pandas.astype_int l = inr vs ->
  List.length vs = List.length x /\ Forall (fun v => In v labels) vs.
Proof.
  unfold Pandas.qcut. intros Hcut Hint.
  apply bins_to_cuts_labels in Hcut. destruct Hcut as [Hlen Hall].
  apply astype_int_inr in Hint. subst l.
  rewrite length_map in Hlen. split; [exact Hlen|].
  rewrite Forall_map in Hall.
  eapply Forall_impl; [|exact Hall]. intros v Hv. apply Hv. reflexivity.
Qed.

Lemma rank_first_length (x : list Q) :
  List.length (Pandas.rank_first x) = List.length x.
Proof. unfold Pandas.rank_first. now rewrite length_map, length_seq. Qed.

Lemma zip_scores_spec {Row} (df : list Row) :
  forall r f m : list Z,
    List.length r = List.length df ->
    List.length f = List.length df ->
    List.length m = List.length df ->
    map row_of (zip_scores df r f m) = df
    /\ map R_Score (zip_scores df r f m) = r
    /\ map F_Score (zip_scores df r f m) = f
    /\ map M_Score (zip_scores df r f m) = m
    /\ Forall (fun s => RFM_Score s
                        = String.append (py_str (R_Score s))
                            (String.append (py_str (F_Score s)) (py_str (M_Score s))))
              (zip_scores df r f m).
Proof.
  induction df as [|row df IH]; intros [|rs r] [|fs f] [|ms m] Hr Hf Hm;
    try discriminate.
  - repeat split; constructor.
  - injection Hr as Hr. injection Hf as Hf. injection Hm as Hm.
    destruct (IH r f m Hr Hf Hm) as (H1 & H2 & H3 & H4 & H5).
    cbn [zip_scores map row_of R_Score F_Score M_Score].
    rewrite H1, H2, H3, H4.
    repeat split; try reflexivity. constructor; [reflexivity | exact H5].
Qed.

Lemma score_digit (v : Z) : 1 <= v <= 5 -> String.length (py_str v) = 1%nat.
Proof.
  intro Hv.
  assert (Hcases : v = 1 \/ v = 2 \/ v = 3 \/ v = 4 \/ v = 5) by lia.
  destruct Hcases as [-> | [-> | [-> | [-> | ->]]]]; reflexivity.
Qed.

Lemma string_length_append (s1 s2 : string) :
  String.length (String.append s1 s2) = (String.length s1 + String.length s2)%nat.
Proof.
  induction s1 as [|c s1 IH]; [reflexivity|].
  cbn [String.append String.length]. now rewrite IH.
Qed.

(** When the scoring returns, the table has the input rows in order, each
    with three scores between 1 and 5 and a three-character label made of
    the three digits. *)
Theorem calculate_rfm_scores_range {Row : Type} (df : list Row)
  (recency_col frequency_col monetary_col : Row -> Q) (scored : list (Scored Row)) :
  calculate_rfm_scores df recency_col frequency_col monetary_col = inr scored ->
  map row_of scored = df
  /\ Forall (fun s =>
               1 <= R_Score s <= 5 /\ 1 <= F_Score s <= 5 /\ 1 <= M_Score s <= 5
               /\ RFM_Score s
                  = String.append (py_str (R_Score s))
                      (String.append (py_str (F_Score s)) (py_str (M_Score s)))
               /\ String.length (RFM_Score s) = 3%nat)
            scored.
Proof.
  unfold calculate_rfm_scores, and_then. intro Hrun.
  destruct (Pandas.qcut (map recency_col df) 5 [5; 4; 3; 2; 1]) as [e | r] eqn:Hr;
    [discriminate|].
  destruct (Pandas.qcut (Pandas.rank_first (map frequency_col df)) 5 [1; 2; 3; 4; 5])
    as [e | f] eqn:Hf; [discriminate|].
  destruct (Pandas.qcut (Pandas.rank_first (map monetary_col df)) 5 [1; 2; 3; 4; 5])
    as [e | m] eqn:Hm; [discriminate|].
  destruct (Pandas.astype_int r) as [e | r'] eqn:Hr'; [discriminate|].
  destruct (Pandas.astype_int f) as [e | f'] eqn:Hf'; [discriminate|].
  destruct (Pandas.astype_int m) as [e | m'] eqn:Hm'; [discriminate|].
  inversion Hrun; subst scored. clear Hrun.
  destruct (qcut_scores _ _ _ _ Hr Hr') as [Hlr Hinr].
  destruct (qcut_scores _ _ _ _ Hf Hf') as [Hlf Hinf].
  destruct (qcut_scores _ _ _ _ Hm Hm') as [Hlm Hinm].
  rewrite length_map in Hlr.
  rewrite rank_first_length, length_map in Hlf, Hlm.
  destruct (zip_scores_spec df r' f' m' Hlr Hlf Hlm) as (H1 & H2 & H3 & H4 & H5).
  split; [exact H1|].
  rewrite <- H2 in Hinr. rewrite <- H3 in Hinf. rewrite <- H4 in Hinm.
  rewrite Forall_map in Hinr, Hinf, Hinm.
  rewrite Forall_forall in *. intros s Hs.
  assert (HR : 1 <= R_Score s <= 5) by (specialize (Hinr s Hs); cbn in Hinr; lia).
  assert (HF : 1 <= F_Score s <= 5) by (specialize (Hinf s Hs); cbn in Hinf; lia).
  assert (HM : 1 <= M_Score s <= 5) by (specialize (Hinm s Hs); cbn in Hinm; lia).
  repeat split; try lia; try (apply H5; exact Hs).
  rewrite (H5 s Hs), !string_length_append, !score_digit by assumption.
  reflexivity.
Qed.

Lemma calculate_rfm_scores_range_witness :
  exists scored,
    calculate_rfm_scores spread_rfm_table Recency_col Frequency_col Monetary_col
      = inr scored
    /\ map RFM_Score scored
       = ["511"; "511"; "422"; "422"; "333"; "333"; "244"; "244"; "155"; "155"]%string
    /\ Forall (fun s =>
                 1 <= R_Score s <= 5 /\ 1 <= F_Score s <= 5 /\ 1 <= M_Score s <= 5
                 /\ RFM_Score s
                    = String.append (py_str (R_Score s))
                        (String.append (py_str (F_Score s)) (py_str (M_Score s)))
                 /\ String.length (RFM_Score s) = 3%nat)
              scored.
Proof.
  exists spread_scored_table.
  assert (Hrun : calculate_rfm_scores spread_rfm_table Recency_col Frequency_col
                   Monetary_col = inr spread_scored_table)
    by (vm_compute; reflexivity).
  split; [exact Hrun|]. split; [reflexivity|].
  exact (proj2 (calculate_rfm_scores_range spread_rfm_table Recency_col
                  Frequency_col Monetary_col spread_scored_table Hrun)).
Defined.

(** ** Segments and outreach *)

(** Every segment a row can be given is one of the six names, and the
    recommendation table has an entry for it. *)
Theorem every_segment_has_a_recommendation {Row Row' : Type}
  (row : Scored Row) (segment_df : list Row') :
  keys (get_outreach_recommendations segment_df)
  = ["Champions"; "Loyal"; "Potential"; "At Risk"; "Hibernating"; "New"]%string
  /\ In (assign_rfm_segment row) (keys (get_outreach_recommendations segment_df))
  /\ exists rec : Recommendation.t,
       dict_get (get_outreach_recommendations segment_df) (assign_rfm_segment row)
       = Some rec.
Proof.
  split; [reflexivity|].
  unfold assign_rfm_segment.
  destruct ((4 <=? R_Score row) && (4 <=? F_Score row));
    [split; [cbn; tauto | eexists; reflexivity]|].
  destruct ((3 <=? R_Score row) && (3 <=? F_Score row));
    [split; [cbn; tauto | eexists; reflexivity]|].
  destruct ((4 <=? R_Score row) && (F_Score row =? 1));
    [split; [cbn; tauto | eexists; reflexivity]|].
  destruct ((R_Score row <=? 2) && (3 <=? F_Score row));
    [split; [cbn; tauto | eexists; reflexivity]|].
  destruct ((R_Score row <=? 2) && (F_Score row <=? 2));
    split; (cbn; tauto) || (eexists; reflexivity).
Qed.

(** ** Forecast metrics: mismatched and degenerate inputs *)

Lemma boolean_index_mismatch (a : list float) (mask : list bool) :
  List.length a <> List.length mask ->
  boolean_index a mask
  = inl (IndexError "boolean index did not match indexed array").
Proof.
  revert mask. induction a as [|x a IH]; intros [|b mask] Hlen;
    cbn [boolean_index]; try reflexivity.
  - now elim Hlen.
  - rewrite IH; [reflexivity|]. cbn [List.length] in Hlen. lia.
Qed.

Section ForecastEdges.
Variable add_reduce : list float -> float.

(** Arrays of different lengths are rejected when the mask of the true
    values indexes the predictions. *)
Theorem forecast_metrics_length_mismatch (y_true y_pred : list float) :
  List.length y_true <> List.length y_pred ->
  forecast_accuracy_metrics add_reduce y_true y_pred
  = inl (IndexError "boolean index did not match indexed array").
Proof.
  intro Hlen. unfold forecast_accuracy_metrics.
  rewrite boolean_index_true. cbn [and_then].
  rewrite boolean_index_mismatch; [reflexivity|].
  rewrite length_map. intro E. apply Hlen. now rewrite E.
Qed.

Lemma forecast_metrics_pointwise (y_true y_pred : list float) :
  List.length y_true = List.length y_pred ->
  forecast_accuracy_metrics add_reduce y_true y_pred
  = inr {| Metrics.MAE := round2 (mae_all_points add_reduce y_true y_pred);
           Metrics.RMSE := round2 (rmse_all_points add_reduce y_true y_pred);
           Metrics.MAPE := round2 (mape_nonzero_points add_reduce y_true y_pred) |}.
Proof.
  intro Hlen. unfold forecast_accuracy_metrics.
  rewrite boolean_index_true. cbn [and_then].
  destruct (boolean_index_pairs y_true y_pred Hlen) as [Ht Hp].
  rewrite Hp, Ht. cbn [and_then].
  unfold mae_all_points, rmse_all_points, mape_nonzero_points.
  unfold elementwise at 1 2. rewrite !map_map.
  rewrite (elementwise_map PrimFloat.sub fst snd).
  rewrite (elementwise_map PrimFloat.div
             (fun x => PrimFloat.sub (fst x) (snd x)) fst).
  rewrite map_map. reflexivity.
Qed.

Lemma no_nonzero_point (y_true y_pred : list float) :
  Forall (fun t => PrimFloat.eqb t 0 = true) y_true ->
  filter true_is_nonzero (combine y_true y_pred) = [].
Proof.
  intro Hall. revert y_pred.
  induction Hall as [|t ts Ht _ IH]; intros [|p ps]; try reflexivity.
  cbn [combine filter].
  change (true_is_nonzero (t, p)) with (negb (PrimFloat.eqb t 0)).
  rewrite Ht. apply IH.
Qed.

(** When every true value is zero (or there is no point at all) the mask
    removes every point: the call returns, and its MAPE is the mean of no
    number, NaN, when the empty sum is zero. *)
Theorem forecast_metrics_all_zero_truth (y_true y_pred : list float) :
  add_reduce [] = 0%float ->
  List.length y_true = List.length y_pred ->
  Forall (fun t => PrimFloat.eqb t 0 = true) y_true ->
  exists m : Metrics.t,
    forecast_accuracy_metrics add_reduce y_true y_pred = inr m
    /\ Metrics.MAPE m = PrimFloat.nan.
Proof.
  intros Hempty Hlen Hzero.
  eexists. split; [apply forecast_metrics_pointwise; exact Hlen|].
  cbn [Metrics.MAPE]. unfold mape_nonzero_points.
  rewrite no_nonzero_point by exact Hzero.
  cbn [map]. unfold np_mean. rewrite Hempty. reflexivity.
Qed.

End ForecastEdges.

Lemma forecast_metrics_length_mismatch_witness :
  forecast_accuracy_metrics sequential_sum [1; 2]%float [2]%float
  = inl (IndexError "boolean index did not match indexed array").
Proof.
  apply (forecast_metrics_length_mismatch sequential_sum [1; 2]%float [2]%float).
  cbn [List.length]. lia.
Defined.

Lemma forecast_metrics_all_zero_truth_witness :
  exists m : Metrics.t,
    forecast_accuracy_metrics sequential_sum [0; 0]%float [3; 4]%float = inr m
    /\ Metrics.MAPE m = PrimFloat.nan.
Proof.
  apply (forecast_metrics_all_zero_truth sequential_sum [0; 0]%float [3; 4]%float).
  - reflexivity.
  - reflexivity.
  - repeat constructor.
Defined.

(** ** Inventory metrics *)

Lemma Zsum_from (xs : list Z) (a : Z) : fold_left Z.add xs a = a + Zsum xs.
Proof.
  unfold Zsum. revert a. induction xs as [|x xs IH]; intro a; cbn [fold_left].
  - lia.
  - rewrite (IH (a + x)), (IH (0 + x)). lia.
Qed.

Lemma Zsum_cons (x : Z) (xs : list Z) : Zsum (x :: xs) = x + Zsum xs.
Proof. unfold Zsum at 1. cbn [fold_left]. rewrite Zsum_from. lia. Qed.

Lemma Zsum_nonneg (xs : list Z) : Forall (fun x => 0 <= x) xs -> 0 <= Zsum xs.
Proof.
  induction 1 as [|x xs Hx _ IH]; [unfold Zsum; cbn; lia|].
  rewrite Zsum_cons. lia.
Qed.

Lemma py_min_1_unit (x : Q) : (0 <= x)%Q -> (0 <= py_min x 1 /\ py_min x 1 <= 1)%Q.
Proof.
  intro Hx. unfold py_min. destruct (Qltb 1 x) eqn:E.
  - split; [discriminate | apply Qle_refl].
  - split; [exact Hx|]. apply Qnot_lt_le. intro Hlt.
    apply Qltb_lt in Hlt. congruence.
Qed.

Lemma py_max_0_unit (y : Q) : (y <= 1)%Q -> (0 <= py_max 0 y /\ py_max 0 y <= 1)%Q.
Proof.
  intro Hy. unfold py_max. destruct (Qltb 0 y) eqn:E.
  - apply Qltb_lt in E. split; [apply Qlt_le_weak; exact E | exact Hy].
  - split; [apply Qle_refl | discriminate].
Qed.

Lemma py_max_0_nonpos (y : Q) : (y <= 0)%Q -> py_max 0 y = 0%Q.
Proof.
  intro Hy. unfold py_max. destruct (Qltb 0 y) eqn:E; [|reflexivity].
  apply Qltb_lt in E. exfalso. exact (Qlt_not_le _ _ E Hy).
Qed.

Lemma wrap_int64_range (z : Z) : - 2 ^ 63 <= wrap_int64 z < 2 ^ 63.
Proof. unfold wrap_int64. Z.div_mod_to_equations. lia. Qed.

Lemma wrap_int64_id (z : Z) : - 2 ^ 63 <= z < 2 ^ 63 -> wrap_int64 z = z.
Proof. unfold wrap_int64. intro Hz. Z.div_mod_to_equations. lia. Qed.

Lemma wrap_int64_add (a x : Z) : wrap_int64 (wrap_int64 a + x) = wrap_int64 (a + x).
Proof.
  unfold wrap_int64.
  replace ((a + 2 ^ 63) mod 2 ^ 64 - 2 ^ 63 + x + 2 ^ 63)
    with ((a + 2 ^ 63) mod 2 ^ 64 + x) by lia.
  replace (a + x + 2 ^ 63) with (a + 2 ^ 63 + x) by lia.
  rewrite Zplus_mod_idemp_l. reflexivity.
Qed.

(** The sum of an [int64] column is the sum of its entries, wrapped. *)
Lemma int64_sum_wrap (xs : list Z) : int64_sum xs = wrap_int64 (Zsum xs).
Proof.
  unfold int64_sum.
  assert (Hfrom : forall a,
            fold_left (fun acc x => wrap_int64 (acc + x)) xs (wrap_int64 a)
            = wrap_int64 (a + Zsum xs)).
  { induction xs as [|x xs IH]; intro a; cbn [fold_left].
    - unfold Zsum. cbn. f_equal. lia.
    - rewrite wrap_int64_add, IH, Zsum_cons. f_equal. lia. }
  rewrite <- (wrap_int64_id 0) at 1 by lia. rewrite Hfrom. f_equal.
Qed.

Lemma int64_sum_range (xs : list Z) : - 2 ^ 63 <= int64_sum xs < 2 ^ 63.
Proof. rewrite int64_sum_wrap. apply wrap_int64_range. Qed.

Section InventoryProperties.
Context `{Rounding}.

Lemma ratio_le_1 (a b : Z) : a <= b -> 1 <= b -> (fdiv (of_int a) (of_int b) <= 1)%Q.
Proof.
  intros Hab Hb. unfold fdiv. apply fl_le_1.
  pose proof (of_int_mono a b Hab). pose proof (of_int_ge_1 b Hb).
  apply Qle_shift_div_r; lra.
Qed.

Lemma ratio_ge_1 (a b : Z) : b <= a -> 1 <= b -> (1 <= fdiv (of_int a) (of_int b))%Q.
Proof.
  intros Hab Hb. unfold fdiv. apply fl_ge_1.
  pose proof (of_int_mono b a Hab). pose proof (of_int_ge_1 b Hb).
  apply Qle_shift_div_l; lra.
Qed.

Lemma ratio_nonpos (a b : Z) : a <= 0 -> 1 <= b -> (fdiv (of_int a) (of_int b) <= 0)%Q.
Proof.
  intros Ha Hb. unfold fdiv. rewrite <- fl_0. apply fl_mono.
  pose proof (of_int_mono a 0 Ha) as Ha0. unfold of_int at 2 in Ha0.
  change (inject_Z 0) with 0%Q in Ha0. rewrite fl_0 in Ha0.
  pose proof (of_int_ge_1 b Hb).
  apply Qle_shift_div_r; lra.
Qed.

(** On columns of non-negative counts whose totals fit in [int64] the three
    ratios lie between 0 and 1; a zero total is no error: the ratios it
    would divide are 0. *)
Theorem inventory_metrics_unit_interval (demand supply : list Z) (shelf_life_days : Z) :
  Forall (fun x => 0 <= x) demand ->
  Forall (fun x => 0 <= x) supply ->
  Zsum demand < 2 ^ 63 ->
  Zsum supply < 2 ^ 63 ->
  let m := calculate_inventory_metrics demand supply shelf_life_days in
  InventoryMetrics.total_demand m = Zsum demand
  /\ InventoryMetrics.total_supply m = Zsum supply
  /\ (0 <= InventoryMetrics.utilization_rate m /\ InventoryMetrics.utilization_rate m <= 1)%Q
  /\ (0 <= InventoryMetrics.shortage_risk m /\ InventoryMetrics.shortage_risk m <= 1)%Q
  /\ (0 <= InventoryMetrics.wastage_risk m /\ InventoryMetrics.wastage_risk m <= 1)%Q
  /\ (InventoryMetrics.total_supply m = 0 ->
      InventoryMetrics.utilization_rate m = 0%Q /\ InventoryMetrics.wastage_risk m = 0%Q)
  /\ (InventoryMetrics.total_demand m = 0 -> InventoryMetrics.shortage_risk m = 0%Q).
Proof.
  intros Hd Hs Hdmax Hsmax m. subst m. unfold calculate_inventory_metrics.
  cbn [InventoryMetrics.utilization_rate InventoryMetrics.shortage_risk
       InventoryMetrics.wastage_risk InventoryMetrics.total_supply
       InventoryMetrics.total_demand].
  apply Zsum_nonneg in Hd, Hs.
  rewrite !int64_sum_wrap.
  rewrite (wrap_int64_id (Zsum demand)), (wrap_int64_id (Zsum supply)) by lia.
  set (d := Zsum demand) in *. set (s := Zsum supply) in *.
  rewrite (wrap_int64_id (d - s)), (wrap_int64_id (s - d)) by lia.
  split; [reflexivity|]. split; [reflexivity|].
  split; [|split; [|split; [|split]]].
  - destruct (Z.ltb_spec 0 s) as [Hpos | Hzero].
    + apply py_min_1_unit. apply rate_nonneg; lia.
    + split; [apply Qle_refl | discriminate].
  - destruct (Z.ltb_spec 0 d) as [Hpos | Hzero].
    + apply py_max_0_unit. apply ratio_le_1; lia.
    + split; [apply Qle_refl | discriminate].
  - destruct (Z.ltb_spec 0 s) as [Hpos | Hzero].
    + apply py_max_0_unit. apply ratio_le_1; lia.
    + split; [apply Qle_refl | discriminate].
  - intros ->. split; reflexivity.
  - intros ->. reflexivity.
Qed.

(** Shortage and wastage exclude each other: a positive shortage risk means
    demand above supply and no wastage risk, a positive wastage risk means
    supply above demand and no shortage risk; and a positive supply that
    does not exceed the demand is fully utilized. *)
Theorem inventory_shortage_excludes_wastage (demand supply : list Z)
  (shelf_life_days : Z) :
  let m := calculate_inventory_metrics demand supply shelf_life_days in
  ((0 < InventoryMetrics.shortage_risk m)%Q ->
     InventoryMetrics.total_supply m < InventoryMetrics.total_demand m
     /\ InventoryMetrics.wastage_risk m = 0%Q)
  /\ ((0 < InventoryMetrics.wastage_risk m)%Q ->
     InventoryMetrics.total_demand m < InventoryMetrics.total_supply m
     /\ InventoryMetrics.shortage_risk m = 0%Q)
  /\ (0 < InventoryMetrics.total_supply m <= InventoryMetrics.total_demand m ->
     (InventoryMetrics.utilization_rate m == 1)%Q).
Proof.
  intro m. subst m. unfold calculate_inventory_metrics.
  cbn [InventoryMetrics.utilization_rate InventoryMetrics.shortage_risk
       InventoryMetrics.wastage_risk InventoryMetrics.total_supply
       InventoryMetrics.total_demand].
  pose proof (int64_sum_range demand) as Hdr.
  pose proof (int64_sum_range supply) as Hsr.
  set (d := int64_sum demand) in *. set (s := int64_sum supply) in *.
  clearbody d s.
  assert (Hpos : forall a b, - 2 ^ 63 <= b < 2 ^ 63 -> 1 <= a < 2 ^ 63 ->
            (0 < py_max 0 (fdiv (of_int (wrap_int64 (a - b))) (of_int a)))%Q -> b < a).
  { intros a b Hb Ha Hgt. destruct (Z.lt_ge_cases b a) as [Hlt | Hge]; [exact Hlt|].
    rewrite wrap_int64_id in Hgt by lia.
    rewrite py_max_0_nonpos in Hgt by (apply ratio_nonpos; lia).
    discriminate Hgt. }
  assert (Hzero : forall a b, 1 <= a < b -> b < 2 ^ 63 ->
            py_max 0 (fdiv (of_int (wrap_int64 (a - b))) (of_int a)) = 0%Q).
  { intros a b Hab Hb. rewrite wrap_int64_id by lia.
    apply py_max_0_nonpos. apply ratio_nonpos; lia. }
  split; [|split].
  - destruct (Z.ltb_spec 0 d) as [Hd | Hd]; [|discriminate].
    intro Hgt. assert (Hlt : s < d) by (apply Hpos; [lia | lia | exact Hgt]).
    split; [exact Hlt|].
    destruct (Z.ltb_spec 0 s) as [Hs | Hs]; [|reflexivity].
    apply Hzero; lia.
  - destruct (Z.ltb_spec 0 s) as [Hs | Hs]; [|discriminate].
    intro Hgt. assert (Hlt : d < s) by (apply Hpos; [lia | lia | exact Hgt]).
    split; [exact Hlt|].
    destruct (Z.ltb_spec 0 d) as [Hd | Hd]; [|reflexivity].
    apply Hzero; lia.
  - intros [Hs Hsd]. destruct (Z.ltb_spec 0 s) as [_ | Hs']; [|lia].
    assert (Hs1 : 1 <= s) by lia.
    pose proof (ratio_ge_1 d s Hsd Hs1) as Hge.
    unfold py_min. destruct (Qltb 1 (fdiv (of_int d) (of_int s))) eqn:E;
      [reflexivity|].
    apply Qle_antisym; [|exact Hge].
    apply Qnot_lt_le. intro Hlt. apply Qltb_lt in Hlt. congruence.
Qed.

End InventoryProperties.

Lemma inventory_metrics_unit_interval_witness :
  let m := calculate_inventory_metrics [10; 20] [15; 25] 42 in
  InventoryMetrics.total_demand m = 30
  /\ InventoryMetrics.total_supply m = 40
  /\ (0 <= InventoryMetrics.utilization_rate m /\ InventoryMetrics.utilization_rate m <= 1)%Q
  /\ (0 <= InventoryMetrics.shortage_risk m /\ InventoryMetrics.shortage_risk m <= 1)%Q
  /\ (0 <= InventoryMetrics.wastage_risk m /\ InventoryMetrics.wastage_risk m <= 1)%Q
  /\ (InventoryMetrics.total_supply m = 0 ->
      InventoryMetrics.utilization_rate m = 0%Q /\ InventoryMetrics.wastage_risk m = 0%Q)
  /\ (InventoryMetrics.total_demand m = 0 -> InventoryMetrics.shortage_risk m = 0%Q).
Proof.
  apply (inventory_metrics_unit_interval [10; 20] [15; 25] 42).
  - repeat constructor; lia.
  - repeat constructor; lia.
  - vm_compute. reflexivity.
  - vm_compute. reflexivity.
Defined.

(** ** Supply rows on any demand *)

Lemma py_int_zero (x : Q) : (x == 0)%Q -> py_int x = 0.
Proof.
  destruct x as [n d]. unfold Qeq, py_int. cbn. intro Hn.
  replace n with 0 by lia. reflexivity.
Qed.

Section SupplyEdges.
Context {G : Type} `{NumpyRandom G} `{Rounding}.

Lemma fl_eq (x y : Q) : (x == y)%Q -> (fl x == fl y)%Q.
Proof.
  intro E. apply Qle_antisym; apply fl_mono; rewrite E; apply Qle_refl.
Qed.

Lemma fmul_zero_l (x y : Q) : (x == 0)%Q -> (fmul x y == 0)%Q.
Proof.
  intro Hx. unfold fmul. rewrite <- fl_0. apply fl_eq. rewrite Hx. ring.
Qed.

(** One turn of the loop, whatever the demand. *)
Lemma supply_row_inv (row : DailyRow.t) (g g' : G) (s : SupplyRow.t) :
  supply_row row g = inr (s, g') ->
  exists b u : Q,
    in_range 1.05 1.20 b /\ in_range 0.01 0.05 u
    /\ let d := DailyRow.demand_units row in
       let supply := py_int (fmul (of_int d) b) in
       let expiry := py_int (fmul (of_int supply) u) in
       s = {| SupplyRow.date := DailyRow.date row;
              SupplyRow.component := DailyRow.component row;
              SupplyRow.supply_units := supply;
              SupplyRow.demand_units := d;
              SupplyRow.utilized_units := Z.min supply d;
              SupplyRow.wasted_units := Z.max 0 (supply - d) + expiry;
              SupplyRow.utilization_rate :=
                if 0 <? supply then fdiv (of_int (Z.min supply d)) (of_int supply)
                else 0%Q;
              SupplyRow.wastage_rate :=
                if 0 <? supply
                then fdiv (of_int (Z.max 0 (supply - d) + expiry)) (of_int supply)
                else 0%Q |}.
Proof.
  unfold supply_row. intro Hrun.
  eff_bind Hrun b g1 Hb. eff_bind Hrun u g2 Hu.
  apply ret_inr in Hrun. destruct Hrun as [-> _].
  apply uniform_in_range in Hb; [|lra].
  apply uniform_in_range in Hu; [|lra].
  exists b, u. split; [exact Hb|]. split; [exact Hu|]. reflexivity.
Qed.


(** A demand of zero gives a row of zeros: no supply, nothing utilized or
    wasted, and both rates 0 by the guard on the division. *)
Theorem supply_rows_of_zero_demand (demand_df : list DailyRow.t)
  (utilization_rate wastage_rate : Q) (g g' : G) (supply_df : list SupplyRow.t) :
  Forall (fun row => DailyRow.demand_units row = 0) demand_df ->
  generate_supply_data demand_df utilization_rate wastage_rate g = inr (supply_df, g') ->
  List.length supply_df = List.length demand_df
  /\ Forall (fun s =>
               SupplyRow.supply_units s = 0
               /\ SupplyRow.utilized_units s = 0
               /\ SupplyRow.wasted_units s = 0
               /\ SupplyRow.utilization_rate s = 0%Q
               /\ SupplyRow.wastage_rate s = 0%Q)
            supply_df.
Proof.
  intros Hzero Hrun. unfold generate_supply_data in Hrun.
  apply (for_each_Forall2
           (fun row s => DailyRow.demand_units row = 0 ->
              SupplyRow.supply_units s = 0
              /\ SupplyRow.utilized_units s = 0
              /\ SupplyRow.wasted_units s = 0
              /\ SupplyRow.utilization_rate s = 0%Q
              /\ SupplyRow.wastage_rate s = 0%Q)) in Hrun.
  - split; [symmetry; eapply Forall2_length; exact Hrun|].
    revert Hzero. induction Hrun as [|row s rows ss Hrow _ IH]; intro Hzero;
      constructor.
    + apply Hrow. now inversion Hzero.
    + apply IH. now inversion Hzero.
  - intros row w s w' Hrow Hd.
    destruct (supply_row_inv row w w' s Hrow) as (b & u & _ & _ & ->).
    cbv zeta. rewrite Hd.
    assert (Hs : py_int (fmul (of_int 0) b) = 0).
    { apply py_int_zero. apply fmul_zero_l. unfold of_int. apply fl_0. }
    rewrite Hs.
    assert (He : py_int (fmul (of_int 0) u) = 0).
    { apply py_int_zero. apply fmul_zero_l. unfold of_int. apply fl_0. }
    rewrite He.
    cbn [SupplyRow.supply_units SupplyRow.utilized_units SupplyRow.wasted_units
         SupplyRow.utilization_rate SupplyRow.wastage_rate].
    repeat split.
Qed.

End SupplyEdges.


Lemma supply_rows_of_zero_demand_witness :
  Forall (fun row => DailyRow.demand_units row = 0) zero_demand_daily
  /\ List.length zero_supply_df = 1%nat
  /\ Forall (fun s =>
               SupplyRow.supply_units s = 0
               /\ SupplyRow.utilized_units s = 0
               /\ SupplyRow.wasted_units s = 0
               /\ SupplyRow.utilization_rate s = 0%Q
               /\ SupplyRow.wastage_rate s = 0%Q)
            zero_supply_df.
Proof.
  assert (Hzero : Forall (fun row => DailyRow.demand_units row = 0) zero_demand_daily)
    by (repeat constructor).
  split; [exact Hzero|].
  apply (supply_rows_of_zero_demand (G := list Q) zero_demand_daily 0.929 0.071
           sample_supply_tape [1.05; 0.01; 1.2; 0.05; 1.13; 0.02]%Q
           zero_supply_df Hzero).
  vm_compute. reflexivity.
Defined.

(** ** Donor ids *)

Fixpoint leading_zeros (k : nat) (u : Decimal.uint) : Decimal.uint :=
  match k with
  | O => u
  | S k' => Decimal.D0 (leading_zeros k' u)
  end.

Lemma uint_of_string_zeros (k : nat) (s : string) (u : Decimal.uint) :
  NilEmpty.uint_of_string s = Some u ->
  NilEmpty.uint_of_string (String.append (zeros k) s) = Some (leading_zeros k u).
Proof.
  intro Hs. induction k as [|k IH]; [exact Hs|].
  cbn [zeros String.append NilEmpty.uint_of_string leading_zeros].
  rewrite IH. reflexivity.
Qed.

Lemma of_uint_leading_zeros (k : nat) (u : Decimal.uint) :
  N.of_uint (leading_zeros k u) = N.of_uint u.
Proof.
  induction k as [|k IH]; [reflexivity|]. cbn [leading_zeros].
  rewrite <- IH. reflexivity.
Qed.

Lemma to_uint_nonnil (n : N) : N.to_uint n <> Decimal.Nil.
Proof.
  destruct n as [|p]; [discriminate|].
  apply DecimalPos.Unsigned.to_uint_nonnil.
Qed.

(** Reading back a zero-filled number gives the number. *)
Lemma zfill_parses (width : nat) (n : Z) :
  0 <= n ->
  option_map (fun u => Z.of_N (N.of_uint u))
    (NilZero.uint_of_string (zfill width (py_str n))) = Some n.
Proof.
  intro Hn. unfold zfill, py_str.
  set (u := N.to_uint (Z.to_N n)).
  assert (Hu : u <> Decimal.Nil) by apply to_uint_nonnil.
  assert (Hstr : NilZero.string_of_uint u = NilEmpty.string_of_uint u)
    by (destruct u; [now elim Hu | reflexivity ..]).
  rewrite Hstr.
  set (k := (width - String.length (NilEmpty.string_of_uint u))%nat).
  assert (Hparse : NilEmpty.uint_of_string
                     (String.append (zeros k) (NilEmpty.string_of_uint u))
                   = Some (leading_zeros k u))
    by (apply uint_of_string_zeros; apply NilEmpty.usu).
  assert (Hnonempty : String.append (zeros k) (NilEmpty.string_of_uint u)
                      <> EmptyString).
  { destruct k; cbn [zeros String.append]; [|discriminate].
    destruct u; [now elim Hu | discriminate ..]. }
  unfold NilZero.uint_of_string.
  destruct (String.append (zeros k) (NilEmpty.string_of_uint u)) eqn:E;
    [now elim Hnonempty|].
  rewrite Hparse. cbn [option_map]. rewrite of_uint_leading_zeros.
  unfold u. rewrite DecimalN.Unsigned.of_to. now rewrite Z2N.id.
Qed.

Lemma donor_id_decodes (i : nat) :
  decode_donor_id (String.append "D" (zfill 5 (py_str (Z.of_nat i + 1))))
  = Some (Z.of_nat i + 1).
Proof.
  cbn [String.append decode_donor_id]. apply zfill_parses. lia.
Qed.

(** ** Donor records: ranges, ids and dates *)

Section DonorRanges.
Context {G F : Type} `{NumpyRandom G} `{Faker F} `{Rounding}.

Lemma donation_history_first_time (is_first_time : bool) (g g' : G)
  (total_donations months_since_first months_since_last : Z) :
  donation_history is_first_time g
    = inr ((total_donations, months_since_first, months_since_last), g') ->
  (is_first_time = true ->
     total_donations = 1 /\ months_since_last = months_since_first
     /\ months_since_first <= 5)
  /\ (is_first_time = false -> 2 <= total_donations /\ 6 <= months_since_first).
Proof.
  unfold donation_history. destruct is_first_time; intro Hrun.
  - eff_bind Hrun m g1 Hm. apply ret_inr in Hrun. destruct Hrun as [E _].
    inversion E; subst. apply np_random_randint_inr in Hm.
    split; [intros _; repeat split; lia | discriminate].
  - eff_bind Hrun pa g1 Hpa. eff_bind Hrun k g2 Hk. eff_bind Hrun expo g3 Hex.
    apply ret_inr in Hrun. destruct Hrun as [E _]. inversion E; subst.
    apply np_random_randint_inr in Hk.
    apply lift_sample_inr in Hpa. destruct Hpa as [-> _].
    pose proof (pareto_range 1.5 g) as Hpa.
    assert (Hpa3 : (0 <= fmul (fst (sample_pareto 1.5 g)) 3)%Q)
      by (unfold fmul; apply fl_nonneg; nra).
    rewrite (py_int_floor _ Hpa3). apply Qfloor_nonneg in Hpa3.
    split; [discriminate | intros _; split; nia].
Qed.

Lemma age_group_range (age_group : string) (age_min age_max : Z) (p : Q) :
  dict_get AGE_GROUP_RANGES age_group = Some (age_min, age_max, p) ->
  In (age_group, (age_min, age_max, p)) AGE_GROUP_RANGES
  /\ 16 <= age_min /\ age_max <= 75.
Proof.
  unfold AGE_GROUP_RANGES. cbn [dict_get].
  repeat (match goal with
          | |- context [String.eqb ?a ?b] =>
              destruct (String.eqb_spec a b) as [-> | _];
              [intro E; inversion E; subst; split; [cbn; tauto | lia]|]
          end).
  discriminate.
Qed.

(** One turn of the loop: the id, the ranges and the registration date. *)
Lemma donor_row_facts (i : nat) (w w' : World G F) (d : Donor.t) :
  donor_row i w = inr (d, w') ->
  donor_identity i (clock w (ticks w)) d /\ donor_in_range d.
Proof.
  unfold donor_row. intro Hrun.
  eff_bind Hrun age_group w1 Hage_group.
  destruct (dict_get AGE_GROUP_RANGES age_group) as [[[age_min age_max] q]|] eqn:Hget;
    [|discriminate].
  eff_bind Hrun age w2 Hage.
  eff_bind Hrun gender w3 Hgender.
  eff_bind Hrun blood_type w4 Hblood.
  eff_bind Hrun r1 w5 Hr1.
  eff_bind Hrun hist w6 Hhist.
  destruct hist as [[total_donations months_since_first] months_since_last].
  eff_bind Hrun now1 w7 Hnow1.
  eff_bind Hrun now2 w8 Hnow2.
  eff_bind Hrun now3 w9 Hnow3.
  eff_bind Hrun r2 w10 Hr2.
  eff_bind Hrun reason w11 Hreason.
  eff_bind Hrun name w12 Hname.
  eff_bind Hrun city w13 Hcity.
  eff_bind Hrun email w14 Hemail.
  eff_bind Hrun phone w15 Hphone.
  apply ret_inr in Hrun. destruct Hrun as [-> _].
  apply with_rng_inr in Hage_group, Hage, Hgender, Hblood, Hr1, Hhist, Hcity.
  apply datetime_now_inr in Hnow1.
  destruct Hage_group as [_ [Hc1 Ht1]]. destruct Hage as [[g2 Hage] [Hc2 Ht2]].
  destruct Hgender as [[g3 Hgender] [Hc3 Ht3]].
  destruct Hblood as [[g4 Hblood] [Hc4 Ht4]].
  destruct Hr1 as [_ [Hc5 Ht5]]. destruct Hhist as [[g6 Hhist] [Hc6 Ht6]].
  destruct Hcity as [[g13 Hcity] _]. destruct Hnow1 as (-> & _ & _).
  apply np_random_randint_inr in Hage.
  apply np_random_choice_In in Hgender, Hblood, Hcity.
  pose proof (donation_history_bounds _ _ _ _ _ _ Hhist) as (Htd & Hmsl & Hmsf).
  pose proof (donation_history_first_time _ _ _ _ _ _ Hhist) as [Hfirst Hrepeat].
  destruct (age_group_range _ _ _ _ Hget) as (Hin & Hmin & Hmax).
  assert (Hclock : clock w6 = clock w) by congruence.
  assert (Hticks : ticks w6 = ticks w) by congruence.
  rewrite Hclock, Hticks.
  split.
  - split; reflexivity.
  - unfold donor_in_range.
    cbn [Donor.age Donor.gender Donor.blood_type Donor.city Donor.total_donations
         Donor.months_since_last_donation Donor.months_since_first_donation
         Donor.is_first_time_donor].
    split; [exists age_group, age_min, age_max, q; split; [exact Hin | lia]|].
    split; [lia|]. split; [exact Hgender|]. split; [exact Hblood|].
    split; [exact Hcity|]. split; [lia|]. split; [lia|]. split; [lia|].
    destruct (Qltb r1 0.30).
    + destruct (Hfirst eq_refl) as (-> & -> & H5).
      split; [split; reflexivity|]. split; [intros _; split; [reflexivity | lia]|].
      discriminate.
    + destruct (Hrepeat eq_refl) as [H2 H6].
      split; [split; [discriminate | lia]|]. split; [discriminate|].
      intros _. exact H6.
Qed.

(** The loop: turn [j] writes the id of [s + j] and reads the clock first at
    tick [3j]. *)
Lemma donor_rows_facts (n : nat) :
  forall (s : nat) (w w' : World G F) (rows : list Donor.t),
    for_each donor_row (seq s n) w = inr (rows, w') ->
    forall (j : nat) (d : Donor.t),
      nth_error rows j = Some d ->
      donor_identity (s + j) (clock w (ticks w + 3 * j)%nat) d /\ donor_in_range d.
Proof.
  induction n as [|n IH]; intros s w w' rows Hrun; cbn [seq for_each] in Hrun.
  - apply ret_inr in Hrun. destruct Hrun as [-> _]. intros [|j] d Hnth; discriminate.
  - eff_bind Hrun r w1 Hrow. eff_bind Hrun rs w2 Hrest.
    apply ret_inr in Hrun. destruct Hrun as [-> _].
    pose proof (donor_row_facts _ _ _ _ Hrow) as Hfacts.
    apply donor_row_correct in Hrow. destruct Hrow as (_ & _ & Hc1 & Ht1).
    intros [|j] d Hnth; cbn [nth_error] in Hnth.
    + inversion Hnth; subst d.
      replace (s + 0)%nat with s by lia.
      replace (ticks w + 3 * 0)%nat with (ticks w) by lia. exact Hfacts.
    + specialize (IH (S s) w1 w2 rs Hrest j d Hnth). rewrite Hc1, Ht1 in IH.
      replace (s + S j)%nat with (S s + j)%nat by lia.
      replace (ticks w + 3 * S j)%nat with (S (S (S (ticks w))) + 3 * j)%nat by lia.
      exact IH.
Qed.

(** Every record of the registry is in range: the age within one of the
    seven brackets, gender, blood type and city among the constants,
    between 1 and 50 donations, months between 0 and 120; a first-time donor
    is a donor with one donation, whose two month counts agree and are at
    most 5, and a repeat donor first gave at least 6 months ago. *)
Theorem donor_records_in_range (n_donors : Z) (w w' : World G F)
  (rows : list Donor.t) :
  generate_donor_registry n_donors w = inr (rows, w') ->
  Forall donor_in_range rows.
Proof.
  unfold generate_donor_registry, py_range. intro Hrun.
  apply Forall_forall. intros d Hin.
  apply In_nth_error in Hin. destruct Hin as [j Hnth].
  apply (donor_rows_facts _ _ _ _ _ Hrun j d Hnth).
Qed.

(** The id of the record in row [j] reads back as [j + 1]; no two records
    share an id. *)
Theorem donor_ids_decode (n_donors : Z) (w w' : World G F) (rows : list Donor.t) :
  generate_donor_registry n_donors w = inr (rows, w') ->
  (forall (j : nat) (d : Donor.t),
     nth_error rows j = Some d ->
     decode_donor_id (Donor.donor_id d) = Some (Z.of_nat j + 1))
  /\ NoDup (map Donor.donor_id rows).
Proof.
  unfold generate_donor_registry, py_range. intro Hrun.
  assert (Hdecode : forall (j : nat) (d : Donor.t),
            nth_error rows j = Some d ->
            decode_donor_id (Donor.donor_id d) = Some (Z.of_nat j + 1)).
  { intros j d Hnth.
    destruct (donor_rows_facts _ _ _ _ _ Hrun j d Hnth) as [[Hid _] _].
    rewrite Hid. apply donor_id_decodes. }
  split; [exact Hdecode|].
  apply NoDup_nth_error. intros i j Hi Hij.
  rewrite length_map in Hi.
  rewrite !nth_error_map in Hij.
  destruct (nth_error rows i) as [di|] eqn:Ei;
    [|apply nth_error_None in Ei; lia].
  destruct (nth_error rows j) as [dj|] eqn:Ej; [|discriminate].
  cbn [option_map] in Hij. injection Hij as Hij.
  pose proof (Hdecode i di Ei) as Hdi. pose proof (Hdecode j dj Ej) as Hdj.
  rewrite Hij in Hdi. rewrite Hdi in Hdj. injection Hdj as Hdj. lia.
Qed.

(** The registry has one record per donor asked for, none for a count below
    zero; the clock is read three times per record. *)
Theorem donor_registry_size (n_donors : Z) (w w' : World G F) (rows : list Donor.t) :
  generate_donor_registry n_donors w = inr (rows, w') ->
  List.length rows = Z.to_nat n_donors
  /\ ticks w' = (ticks w + 3 * Z.to_nat n_donors)%nat
  /\ clock w' = clock w.
Proof.
  unfold generate_donor_registry, py_range. intro Hrun.
  apply donor_rows_correct in Hrun. destruct Hrun as (Hc & Ht & Hlen & _).
  repeat split; assumption.
Qed.

(** While the clock does not run backwards between the first two readings of
    a turn, the registration is not after the last donation: the two dates
    are the dates of two instants in this order. *)
Theorem donor_registration_before_last_donation (n_donors : Z) (w w' : World G F)
  (rows : list Donor.t) (j : nat) (d : Donor.t) :
  generate_donor_registry n_donors w = inr (rows, w') ->
  nth_error rows j = Some d ->
  clock w (ticks w + 3 * j)%nat <= clock w (ticks w + 3 * j + 1)%nat ->
  let registered :=
    clock w (ticks w + 3 * j)%nat
    - Calendar.timedelta_days (Donor.months_since_first_donation d * 30) in
  let last_donation :=
    clock w (ticks w + 3 * j + 1)%nat
    - Calendar.timedelta_days (Donor.months_since_last_donation d * 30) in
  Donor.registration_date d = Calendar.strftime_ymd registered
  /\ Donor.last_donation_date d = Calendar.strftime_ymd last_donation
  /\ registered <= last_donation
  /\ registered / Calendar.us_per_day <= last_donation / Calendar.us_per_day.
Proof.
  unfold generate_donor_registry, py_range. intros Hrun Hnth Hclock.
  destruct (donor_rows_facts _ _ _ _ _ Hrun j d Hnth) as [[_ Hreg] _].
  apply donor_rows_correct in Hrun. destruct Hrun as (_ & _ & _ & Hrows).
  destruct (Hrows j d Hnth) as [(Hord & _ & Hlast & _) _].
  cbv zeta in *.
  assert (Hle : clock w (ticks w + 3 * j)%nat
                - Calendar.timedelta_days (Donor.months_since_first_donation d * 30)
                <= clock w (ticks w + 3 * j + 1)%nat
                   - Calendar.timedelta_days (Donor.months_since_last_donation d * 30)).
  { unfold Calendar.timedelta_days, Calendar.us_per_day. lia. }
  repeat split; try assumption.
  apply Z.div_le_mono; [unfold Calendar.us_per_day; lia | exact Hle].
Qed.

End DonorRanges.

Lemma donor_records_in_range_witness : Forall donor_in_range sample_registry.
Proof.
  exact (donor_records_in_range 2 (sample_world day_one) sample_world_after
           sample_registry sample_registry_run).
Defined.

Lemma donor_ids_decode_witness :
  (forall (j : nat) (d : Donor.t),
     nth_error sample_registry j = Some d ->
     decode_donor_id (Donor.donor_id d) = Some (Z.of_nat j + 1))
  /\ NoDup (map Donor.donor_id sample_registry).
Proof.
  exact (donor_ids_decode 2 (sample_world day_one) sample_world_after
           sample_registry sample_registry_run).
Defined.

Lemma donor_registry_size_witness :
  List.length sample_registry = 2%nat
  /\ ticks sample_world_after = 6%nat
  /\ clock sample_world_after = clock (sample_world day_one).
Proof.
  exact (donor_registry_size 2 (sample_world day_one) sample_world_after
           sample_registry sample_registry_run).
Defined.

Lemma donor_registration_before_last_donation_witness :
  Donor.registration_date sample_repeat_donor = "2018-10-29"%string
  /\ Donor.last_donation_date sample_repeat_donor = "2023-10-03"%string
  /\ day_one - Calendar.timedelta_days (63 * 30)
     <= 1 + day_one - Calendar.timedelta_days (3 * 30).
Proof.
  assert (Hclock : clock (sample_world day_one) (ticks (sample_world day_one) + 3 * 0)%nat
                   <= clock (sample_world day_one)
                        (ticks (sample_world day_one) + 3 * 0 + 1)%nat)
    by (cbn; lia).
  pose proof (donor_registration_before_last_donation 2 (sample_world day_one)
                sample_world_after sample_registry 0 sample_repeat_donor
                sample_registry_run eq_refl Hclock) as (_ & _ & Hle & _).
  split; [reflexivity|]. split; [reflexivity|]. exact Hle.
Defined.

(** ** The daily aggregate *)

Lemma ascii_compare_lt_trans (a b c : ascii) :
  Ascii.compare a b = Lt -> Ascii.compare b c = Lt -> Ascii.compare a c = Lt.
Proof.
  unfold Ascii.compare. rewrite !N.compare_lt_iff. lia.
Qed.

Lemma string_compare_lt_trans (a : string) :
  forall b c, String.compare a b = Lt -> String.compare b c = Lt ->
              String.compare a c = Lt.
Proof.
  induction a as [|x a IH]; intros [|y b] [|z c]; cbn [String.compare];
    try discriminate; try reflexivity.
  destruct (Ascii.compare x y) eqn:Exy; try discriminate;
  destruct (Ascii.compare y z) eqn:Eyz; try discriminate; intros Hab Hbc.
  - apply Ascii.compare_eq_iff in Exy, Eyz. subst.
    assert (E : Ascii.compare z z = Eq) by (unfold Ascii.compare; apply N.compare_refl).
    rewrite E. eapply IH; eassumption.
  - apply Ascii.compare_eq_iff in Exy. subst. rewrite Eyz. reflexivity.
  - apply Ascii.compare_eq_iff in Eyz. subst. rewrite Exy. reflexivity.
  - rewrite (ascii_compare_lt_trans x y z Exy Eyz). reflexivity.
Qed.

Lemma string_compare_refl (a : string) : String.compare a a = Eq.
Proof.
  induction a as [|x a IH]; [reflexivity|]. cbn [String.compare].
  assert (E : Ascii.compare x x = Eq) by (unfold Ascii.compare; apply N.compare_refl).
  rewrite E. exact IH.
Qed.

Lemma key_eqb_eq (k1 k2 : Z * string) : key_eqb k1 k2 = true <-> k1 = k2.
Proof.
  destruct k1 as [d1 c1], k2 as [d2 c2]. unfold key_eqb. cbn [fst snd].
  rewrite andb_true_iff, Z.eqb_eq, String.eqb_eq.
  split; [intros [-> ->]; reflexivity | intro E; inversion E; split; reflexivity].
Qed.

Lemma key_lt_irrefl (k : Z * string) : ~ key_lt k k.
Proof.
  destruct k as [d c]. unfold key_lt, key_ltb. cbn [fst snd].
  rewrite Z.ltb_irrefl, Z.eqb_refl, string_compare_refl. discriminate.
Qed.

Lemma key_lt_trans (k1 k2 k3 : Z * string) : key_lt k1 k2 -> key_lt k2 k3 -> key_lt k1 k3.
Proof.
  destruct k1 as [d1 c1], k2 as [d2 c2], k3 as [d3 c3].
  unfold key_lt, key_ltb. cbn [fst snd].
  rewrite !orb_true_iff, !andb_true_iff, !Z.ltb_lt, !Z.eqb_eq.
  intros [H12 | [-> H12]] [H23 | [-> H23]].
  - left. lia.
  - left. exact H12.
  - left. exact H23.
  - right. split; [reflexivity|].
    destruct (String.compare c1 c2) eqn:E12; try discriminate.
    destruct (String.compare c2 c3) eqn:E23; try discriminate.
    now rewrite (string_compare_lt_trans c1 c2 c3 E12 E23).
Qed.

Lemma key_lt_total (k1 k2 : Z * string) :
  key_eqb k1 k2 = false -> key_ltb k1 k2 = false -> key_lt k2 k1.
Proof.
  destruct k1 as [d1 c1], k2 as [d2 c2].
  unfold key_lt, key_eqb, key_ltb. cbn [fst snd].
  rewrite (Z.eqb_sym d2 d1).
  destruct (Z.ltb_spec d1 d2) as [Hlt | Hge]; [discriminate|].
  destruct (Z.eqb_spec d1 d2) as [-> | Hne].
  - rewrite Z.ltb_irrefl. cbn [andb orb].
    destruct (String.eqb_spec c1 c2) as [-> | Hc]; [discriminate|]. intros _.
    rewrite (String.compare_antisym c2 c1).
    destruct (String.compare c1 c2) eqn:E; cbn [CompOpp]; intro Hlt.
    + apply String.compare_eq_iff in E. now elim Hc.
    + discriminate.
    + reflexivity.
  - intros _ _. destruct (Z.ltb_spec d2 d1); [reflexivity | lia].
Qed.

Lemma insert_key_spec (k : Z * string) (ks : list (Z * string)) :
  Sorted.StronglySorted key_lt ks ->
  Sorted.StronglySorted key_lt (insert_key k ks)
  /\ (forall x, In x (insert_key k ks) <-> k = x \/ In x ks).
Proof.
  induction 1 as [|k' ks Hs IH Hall]; cbn [insert_key].
  - split; [apply Sorted.SSorted_cons; [apply Sorted.SSorted_nil | apply Forall_nil]|].
    intro x. cbn [In]. tauto.
  - destruct (key_eqb k k') eqn:Eeq.
    + apply key_eqb_eq in Eeq. subst k'.
      split; [constructor; assumption | intro x; cbn; tauto].
    + destruct (key_ltb k k') eqn:Elt.
      * split; [|intro x; cbn; tauto].
        constructor; [constructor; assumption|].
        constructor; [exact Elt|].
        eapply Forall_impl; [|exact Hall]. intros y Hy.
        eapply key_lt_trans; [exact Elt | exact Hy].
      * destruct IH as [IHs IHin]. split.
        -- constructor; [exact IHs|].
           apply Forall_forall. intros y Hy. apply IHin in Hy.
           destruct Hy as [<- | Hy]; [apply key_lt_total; assumption|].
           rewrite Forall_forall in Hall. apply Hall. exact Hy.
        -- intro x. cbn [In]. rewrite IHin. tauto.
Qed.

Lemma group_keys_spec (rows : list DemandRow.t) :
  Sorted.StronglySorted key_lt (group_keys rows)
  /\ (forall k, In k (group_keys rows) <-> exists r, In r rows /\ row_key r = k).
Proof.
  unfold group_keys.
  assert (Hgen : forall rows ks,
            Sorted.StronglySorted key_lt ks ->
            Sorted.StronglySorted key_lt
              (fold_left (fun ks r => insert_key (row_key r) ks) rows ks)
            /\ (forall k, In k (fold_left (fun ks r => insert_key (row_key r) ks) rows ks)
                          <-> In k ks \/ exists r, In r rows /\ row_key r = k)).
  { clear rows. induction rows as [|r rows IH]; intros ks Hks; cbn [fold_left].
    - split; [exact Hks|]. intro k. split; [tauto|].
      intros [Hk | (r & [] & _)]. exact Hk.
    - destruct (insert_key_spec (row_key r) ks Hks) as [Hs Hin].
      destruct (IH _ Hs) as [IHs IHin]. split; [exact IHs|].
      intro k. rewrite IHin, Hin. split.
      + intros [[<- | Hk] | (r' & Hr' & Hk)].
        * right. exists r. split; [left; reflexivity | reflexivity].
        * left. exact Hk.
        * right. exists r'. split; [right; exact Hr' | exact Hk].
      + intros [Hk | (r' & [-> | Hr'] & Hk)].
        * left. right. exact Hk.
        * left. left. exact Hk.
        * right. exists r'. split; assumption. }
  destruct (Hgen rows [] (Sorted.SSorted_nil _)) as [Hs Hin].
  split; [exact Hs|]. intro k. rewrite Hin. cbn [In]. tauto.
Qed.

Lemma strongly_sorted_NoDup (ks : list (Z * string)) :
  Sorted.StronglySorted key_lt ks -> NoDup ks.
Proof.
  induction 1 as [|k ks Hs IH Hall]; constructor; [|exact IH].
  intro Hin. rewrite Forall_forall in Hall.
  exact (key_lt_irrefl k (Hall k Hin)).
Qed.

(** The row [groupby] makes of a key that some detail row has. *)
Lemma aggregate_group_of_key (rows : list DemandRow.t) (k : Z * string) :
  In k (group_keys rows) ->
  exists dr : DailyRow.t,
    aggregate_group rows k = [dr]
    /\ daily_key dr = k
    /\ DailyRow.demand_units dr = Zsum (map DemandRow.demand_units (rows_of_key rows k))
    /\ rows_of_key rows k <> [].
Proof.
  intro Hin. apply (proj2 (group_keys_spec rows)) in Hin.
  destruct Hin as (r & Hr & Hk).
  assert (Hne : In r (rows_of_key rows k)).
  { unfold rows_of_key. apply filter_In. split; [exact Hr|]. now apply key_eqb_eq. }
  unfold aggregate_group. fold (rows_of_key rows k).
  destruct (rows_of_key rows k) as [|r0 grp] eqn:E; [contradiction|].
  eexists. split; [reflexivity|]. destruct k as [d c].
  repeat split. discriminate.
Qed.

Lemma flat_map_singletons {A B} (f : A -> list B) (g : B -> A) (xs : list A) :
  (forall x, In x xs -> exists y, f x = [y] /\ g y = x) ->
  map g (flat_map f xs) = xs.
Proof.
  induction xs as [|x xs IH]; intro Hall; [reflexivity|].
  cbn [flat_map]. rewrite map_app.
  destruct (Hall x (or_introl eq_refl)) as (y & -> & Hy).
  cbn [map app]. rewrite Hy. f_equal. apply IH.
  intros z Hz. apply Hall. right. exact Hz.
Qed.

Lemma groupby_keys (rows : list DemandRow.t) :
  map daily_key (groupby_date_component rows) = group_keys rows.
Proof.
  unfold groupby_date_component. apply flat_map_singletons.
  intros k Hk. destruct (aggregate_group_of_key rows k Hk) as (dr & E & Hkey & _).
  exists dr. split; assumption.
Qed.

(** The daily table has one row per key of the detailed table: its keys are
    in increasing order of date and then component name, no key twice, and
    they are the keys that the detail rows have. *)
Theorem daily_keys_sorted_and_distinct (rows : list DemandRow.t) :
  Sorted.StronglySorted key_lt (map daily_key (groupby_date_component rows))
  /\ NoDup (map daily_key (groupby_date_component rows))
  /\ (forall k : Z * string,
        In k (map daily_key (groupby_date_component rows))
        <-> exists r, In r rows /\ row_key r = k).
Proof.
  rewrite groupby_keys. destruct (group_keys_spec rows) as [Hs Hin].
  split; [exact Hs|]. split; [apply strongly_sorted_NoDup; exact Hs | exact Hin].
Qed.

(** Over keys without repetition, the units of the rows split by key add up
    to the units of the rows whose key is listed. *)
Lemma units_by_key (ks : list (Z * string)) :
  NoDup ks ->
  forall rows : list DemandRow.t,
    (forall r, In r rows -> In (row_key r) ks) ->
    Zsum (map (fun k => Zsum (map DemandRow.demand_units (rows_of_key rows k))) ks)
    = Zsum (map DemandRow.demand_units rows).
Proof.
  intros Hnd rows. induction rows as [|r rows IH]; intro Hin.
  - unfold rows_of_key. cbn [filter map].
    clear. induction ks as [|k ks IH]; [reflexivity|].
    cbn [map]. rewrite Zsum_cons, IH. reflexivity.
  - cbn [map]. rewrite Zsum_cons, <- IH by (intros r' Hr'; apply Hin; right; exact Hr').
    assert (Hr : In (row_key r) ks) by (apply Hin; left; reflexivity).
    clear IH Hin. revert Hr.
    induction Hnd as [|k ks Hnotin Hnd IHks]; intro Hr; [contradiction|].
    cbn [map]. rewrite !Zsum_cons. unfold rows_of_key at 1. cbn [filter].
    fold (rows_of_key rows k).
    destruct (key_eqb (row_key r) k) eqn:E.
    + apply key_eqb_eq in E. cbn [map]. rewrite Zsum_cons.
      assert (Hrest : Zsum (map (fun k0 => Zsum (map DemandRow.demand_units
                                                  (rows_of_key (r :: rows) k0))) ks)
                      = Zsum (map (fun k0 => Zsum (map DemandRow.demand_units
                                                    (rows_of_key rows k0))) ks)).
      { f_equal. apply map_ext_in. intros k0 Hk0. unfold rows_of_key. cbn [filter].
        destruct (key_eqb (row_key r) k0) eqn:E0; [|reflexivity].
        apply key_eqb_eq in E0. congruence. }
      rewrite Hrest. lia.
    + destruct Hr as [Hr | Hr].
      * subst k. assert (Hrefl : key_eqb (row_key r) (row_key r) = true)
          by (now apply key_eqb_eq). congruence.
      * rewrite (IHks Hr). lia.
Qed.

Lemma Zsum_ge_length (xs : list Z) :
  Forall (fun x => 1 <= x) xs -> Z.of_nat (List.length xs) <= Zsum xs.
Proof.
  induction 1 as [|x xs Hx _ IH]; [unfold Zsum; cbn; lia|].
  rewrite Zsum_cons. cbn [List.length]. lia.
Qed.

(** Every daily row carries the sum of the units of the detail rows of its
    key, of which there is at least one. *)
Lemma daily_row_units (rows : list DemandRow.t) :
  Forall (fun dr =>
            DailyRow.demand_units dr
            = Zsum (map DemandRow.demand_units (rows_of_key rows (daily_key dr)))
            /\ rows_of_key rows (daily_key dr) <> [])
         (groupby_date_component rows).
Proof.
  unfold groupby_date_component. apply Forall_forall. intros dr Hdr.
  apply in_flat_map in Hdr. destruct Hdr as (k & Hk & Hdr).
  destruct (aggregate_group_of_key rows k Hk) as (dr' & E & Hkey & Hunits & Hne).
  rewrite E in Hdr. destruct Hdr as [<- | []]. rewrite Hkey. split; assumption.
Qed.

Lemma daily_units_total (rows : list DemandRow.t) :
  Zsum (map DailyRow.demand_units (groupby_date_component rows))
  = Zsum (map DemandRow.demand_units rows).
Proof.
  pose proof (daily_row_units rows) as Hrows.
  destruct (group_keys_spec rows) as [Hs Hin].
  rewrite <- (units_by_key (group_keys rows) (strongly_sorted_NoDup _ Hs) rows).
  - rewrite <- groupby_keys, map_map. f_equal.
    apply map_ext_in. intros dr Hdr. rewrite Forall_forall in Hrows.
    apply (Hrows dr Hdr).
  - intros r Hr. apply Hin. exists r. split; [exact Hr | reflexivity].
Qed.

Lemma daily_units_positive (rows : list DemandRow.t) :
  Forall (fun r => 1 <= DemandRow.demand_units r) rows ->
  Forall (fun dr => 1 <= DailyRow.demand_units dr) (groupby_date_component rows).
Proof.
  intro Hpos. eapply Forall_impl; [|exact (daily_row_units rows)].
  intros dr [Hunits Hne]. rewrite Hunits.
  assert (Hgrp : Forall (fun r => 1 <= DemandRow.demand_units r)
                   (rows_of_key rows (daily_key dr))).
  { unfold rows_of_key. apply Forall_forall. intros r Hr.
    apply filter_In in Hr. rewrite Forall_forall in Hpos. apply Hpos. apply Hr. }
  rewrite <- Forall_map in Hgrp.
  apply Zsum_ge_length in Hgrp. rewrite length_map in Hgrp.
  destruct (rows_of_key rows (daily_key dr)); [now elim Hne|].
  cbn [List.length] in Hgrp. lia.
Qed.

(** The aggregation keeps the units: every daily row carries the sum of the
    units of the detail rows of its key, the daily units add up to the
    detail units, and where every detail row has at least one unit so has
    every daily row. *)
Theorem daily_units_are_group_sums (rows : list DemandRow.t) :
  Forall (fun dr =>
            DailyRow.demand_units dr
            = Zsum (map DemandRow.demand_units (rows_of_key rows (daily_key dr)))
            /\ rows_of_key rows (daily_key dr) <> [])
         (groupby_date_component rows)
  /\ Zsum (map DailyRow.demand_units (groupby_date_component rows))
     = Zsum (map DemandRow.demand_units rows)
  /\ (Forall (fun r => 1 <= DemandRow.demand_units r) rows ->
      Forall (fun dr => 1 <= DailyRow.demand_units dr) (groupby_date_component rows)).
Proof.
  split; [apply daily_row_units|].
  split; [apply daily_units_total | apply daily_units_positive].
Qed.

(** ** The layout of the demand tables *)

Lemma civil_month_day_range (n : Z) :
  1 <= Calendar.month (Calendar.civil_of_days n) <= 12
  /\ 1 <= Calendar.day (Calendar.civil_of_days n) <= 31.
Proof.
  unfold Calendar.civil_of_days. cbv zeta. cbn [Calendar.month Calendar.day].
  set (z := n + 719468).
  set (doe := z - z / 146097 * 146097).
  assert (Hdoe : 0 <= doe < 146097) by (subst doe; Z.div_mod_to_equations; lia).
  set (yoe := (doe - doe / 1460 + doe / 36524 - doe / 146096) / 365).
  set (doy := doe - (365 * yoe + yoe / 4 - yoe / 100)).
  assert (Hdoy : 0 <= doy <= 365) by (subst yoe doy; Z.div_mod_to_equations; lia).
  set (mp := (5 * doy + 2) / 153).
  assert (Hmp : 0 <= mp <= 11) by (subst mp; Z.div_mod_to_equations; lia).
  split.
  - destruct (mp <? 10) eqn:E; [lia|]. apply Z.ltb_ge in E. lia.
  - subst mp. Z.div_mod_to_equations. lia.
Qed.

Lemma dayofweek_range (n : Z) : 0 <= Calendar.dayofweek n <= 6.
Proof. unfold Calendar.dayofweek. Z.div_mod_to_equations. lia. Qed.

Lemma for_each_map {W A B C} (f : B -> C) (g : A -> C) (body : A -> Eff W B) :
  (forall x w r w', body x w = inr (r, w') -> f r = g x) ->
  forall xs w rs w', for_each body xs w = inr (rs, w') -> map f rs = map g xs.
Proof.
  intros Hbody xs w rs w' Hrun.
  apply (for_each_Forall2 (fun x r => f r = g x)) in Hrun; [|exact Hbody].
  induction Hrun as [|x r xs rs Hx _ IH]; [reflexivity|].
  cbn [map]. now rewrite Hx, IH.
Qed.

Lemma for_each_concat_map {W A B C} (f : B -> C) (g : A -> list C)
  (body : A -> Eff W (list B)) :
  (forall x w r w', body x w = inr (r, w') -> map f r = g x) ->
  forall xs w rs w', for_each_concat body xs w = inr (rs, w') ->
                     map f rs = flat_map g xs.
Proof.
  intros Hbody xs. induction xs as [|x xs IH]; intros w rs w' Hrun;
    cbn [for_each_concat] in Hrun.
  - apply ret_inr in Hrun. destruct Hrun as [-> _]. reflexivity.
  - eff_bind Hrun r w1 Hr. eff_bind Hrun rs' w2 Hrs.
    apply ret_inr in Hrun. destruct Hrun as [-> _].
    cbn [flat_map]. rewrite map_app, (Hbody _ _ _ _ Hr), (IH _ _ _ Hrs). reflexivity.
Qed.

Lemma flat_map_constant_length {A B} (f : A -> list B) (c : nat) (l : list A) :
  (forall x, List.length (f x) = c) ->
  List.length (flat_map f l) = (c * List.length l)%nat.
Proof.
  intro Hc. induction l as [|x l IH]; [cbn; lia|].
  cbn [flat_map List.length]. rewrite length_app, Hc, IH. lia.
Qed.

Lemma Zmem_11_12 (m : Z) :
  1 <= m <= 12 ->
  (Zmem m [11; 12] = true /\ 11 <= m) \/ (Zmem m [11; 12] = false /\ m <= 10).
Proof.
  intro Hm. unfold Zmem. cbn [existsb].
  destruct (Z.eqb_spec m 11); [left; split; [reflexivity | lia]|].
  destruct (Z.eqb_spec m 12); [left; split; [reflexivity | lia]|].
  right. split; [reflexivity | lia].
Qed.

Section DemandLayout.
Context {G : Type} `{NumpyRandom G} `{Rounding}.

Lemma blood_type_rows_layout (date : Z) (component : string) (demand : Z)
  (g g' : G) (rows : list DemandRow.t) :
  blood_type_rows date component demand g = inr (rows, g') ->
  map row_label rows
    = map (fun blood_type => (date, component, blood_type))
          (keys BLOOD_TYPE_DISTRIBUTION)
  /\ Forall calendar_columns_ok rows.
Proof.
  unfold blood_type_rows. intro Hrun. split.
  - unfold keys. rewrite map_map.
    eapply (for_each_map row_label); [|exact Hrun].
    intros [blood_type proportion] w r w' Hr.
    eff_bind Hr noise w1 Hn. apply ret_inr in Hr. destruct Hr as [-> _].
    reflexivity.
  - eapply for_each_Forall; [|exact Hrun].
    intros [blood_type proportion] w r w' Hr.
    eff_bind Hr noise w1 Hn. apply ret_inr in Hr. destruct Hr as [-> _].
    unfold calendar_columns_ok.
    cbn [DemandRow.day_of_week DemandRow.date DemandRow.month DemandRow.is_weekend
         DemandRow.is_holiday_season].
    pose proof (dayofweek_range date) as Hdow.
    pose proof (proj1 (civil_month_day_range date)) as Hmonth.
    split; [reflexivity|]. split; [reflexivity|]. split; [exact Hdow|].
    split; [exact Hmonth|]. split.
    + destruct (Z.leb_spec 5 (Calendar.dayofweek date));
        [left | right]; split; (reflexivity || lia).
    + destruct (Zmem_11_12 _ Hmonth) as [[-> Hm] | [-> Hm]];
        [left | right]; split; (reflexivity || lia).
Qed.

Lemma date_rows_layout (date : Z) (g g' : G) (rows : list DemandRow.t) :
  date_rows date g = inr (rows, g') ->
  map row_label rows
    = flat_map (fun component =>
        map (fun blood_type => (date, component, blood_type))
            (keys BLOOD_TYPE_DISTRIBUTION))
        (keys base_demand)
  /\ Forall calendar_columns_ok rows.
Proof.
  unfold date_rows. intro Hrun. split.
  - unfold keys at 2. rewrite flat_map_concat_map, map_map, <- flat_map_concat_map.
    eapply (for_each_concat_map row_label); [|exact Hrun].
    intros [component base] w r w' Hr.
    eff_bind Hr demand w1 Hd.
    apply (blood_type_rows_layout _ _ _ _ _ _ Hr).
  - eapply for_each_concat_Forall; [|exact Hrun].
    intros [component base] w r w' Hr.
    eff_bind Hr demand w1 Hd.
    apply (blood_type_rows_layout _ _ _ _ _ _ Hr).
Qed.

(** The detailed table lists the dates in order, the four components within
    a date and the eight blood types within a component, one row each; the
    calendar columns of every row are those of its date. *)
Theorem demand_table_layout (start_date : Z) (periods : nat) (g g' : G)
  (df : list DemandRow.t) (df_daily : list DailyRow.t) :
  generate_demand_timeseries start_date periods g = inr ((df, df_daily), g') ->
  map row_label df = demand_labels start_date periods
  /\ List.length df = (32 * periods)%nat
  /\ Forall calendar_columns_ok df.
Proof.
  unfold generate_demand_timeseries. intro Hrun.
  eff_bind Hrun rows g1 Hrows.
  destruct rows as [|r rows]; [discriminate|].
  apply ret_inr in Hrun. destruct Hrun as [E _]. inversion E; subst. clear E.
  assert (Hlabels : map row_label (r :: rows) = demand_labels start_date periods).
  { unfold demand_labels. eapply (for_each_concat_map row_label); [|exact Hrows].
    intros date w rs w' Hr. apply (date_rows_layout _ _ _ _ Hr). }
  split; [exact Hlabels|]. split.
  - rewrite <- (length_map row_label), Hlabels. unfold demand_labels.
    rewrite (flat_map_constant_length _ 32%nat) by (intro date; reflexivity).
    unfold date_range. now rewrite length_map, length_seq.
  - eapply for_each_concat_Forall; [|exact Hrows].
    intros date w rs w' Hr. apply (date_rows_layout _ _ _ _ Hr).
Qed.

(** Without a period the generator raises on the key of its [groupby]; with
    at least one it returns, whatever the draws. *)
Theorem generate_demand_timeseries_returns_iff (start_date : Z) (periods : nat) (g : G) :
  (periods = 0%nat ->
   generate_demand_timeseries start_date periods g = inl (KeyError "date"))
  /\ ((0 < periods)%nat ->
      exists df df_daily g',
        generate_demand_timeseries start_date periods g = inr ((df, df_daily), g')).
Proof.
  split.
  - intros ->. reflexivity.
  - intro Hpos.
    destruct (generate_demand_timeseries_returns start_date periods g Hpos)
      as (df & daily & g' & Hrun & _).
    exists df, daily, g'. exact Hrun.
Qed.

End DemandLayout.

Lemma demand_table_layout_witness :
  map row_label sample_demand_df = demand_labels 18628 1
  /\ List.length sample_demand_df = 32%nat
  /\ Forall calendar_columns_ok sample_demand_df.
Proof.
  apply (demand_table_layout (G := list Q) 18628 1 sample_demand_tape []
           sample_demand_df sample_demand_daily).
  vm_compute. reflexivity.
Defined.

(** ** The daily table of the generator *)

Lemma date_range_NoDup (start_date : Z) (periods : nat) :
  NoDup (date_range start_date periods).
Proof.
  unfold date_range. apply NoDup_map_NoDup_ForallPairs; [|apply seq_NoDup].
  intros i j _ _ E. lia.
Qed.

Lemma demand_keys_NoDup (start_date : Z) (periods : nat) :
  NoDup (demand_keys start_date periods).
Proof.
  unfold demand_keys.
  pose proof (date_range_NoDup start_date periods) as Hnd.
  induction Hnd as [|d ds Hnotin _ IH]; [constructor|].
  cbn [flat_map]. apply NoDup_app; [|exact IH|].
  - cbn. repeat constructor; cbn; intuition discriminate.
  - intros k Hk Hk'. apply in_map_iff in Hk. destruct Hk as (c & <- & _).
    apply in_flat_map in Hk'. destruct Hk' as (d' & Hd' & Hk').
    apply in_map_iff in Hk'. destruct Hk' as (c' & E & _).
    inversion E; subst. contradiction.
Qed.

Lemma demand_keys_length (start_date : Z) (periods : nat) :
  List.length (demand_keys start_date periods) = (4 * periods)%nat.
Proof.
  unfold demand_keys.
  rewrite (flat_map_constant_length _ 4%nat) by (intro date; reflexivity).
  unfold date_range. now rewrite length_map, length_seq.
Qed.

Lemma in_demand_labels (start_date : Z) (periods : nat) (d : Z) (c b : string) :
  In (d, c, b) (demand_labels start_date periods)
  <-> In (d, c) (demand_keys start_date periods) /\ In b (keys BLOOD_TYPE_DISTRIBUTION).
Proof.
  unfold demand_labels, demand_keys. rewrite !in_flat_map. split.
  - intros (d' & Hd' & Hin). apply in_flat_map in Hin.
    destruct Hin as (c' & Hc' & Hin). apply in_map_iff in Hin.
    destruct Hin as (b' & E & Hb'). inversion E; subst.
    split; [|exact Hb']. exists d. split; [exact Hd'|].
    apply in_map_iff. exists c. split; [reflexivity | exact Hc'].
  - intros [(d' & Hd' & Hin) Hb]. apply in_map_iff in Hin.
    destruct Hin as (c' & E & Hc'). inversion E; subst.
    exists d. split; [exact Hd'|]. apply in_flat_map. exists c.
    split; [exact Hc'|]. apply in_map_iff. exists b. split; [reflexivity | exact Hb].
Qed.

(** The keys of a table with the labels of the generator. *)
Lemma generated_row_keys (start_date : Z) (periods : nat) (df : list DemandRow.t)
  (k : Z * string) :
  map row_label df = demand_labels start_date periods ->
  (exists r, In r df /\ row_key r = k) <-> In k (demand_keys start_date periods).
Proof.
  intro Hlabels. destruct k as [d c]. split.
  - intros (r & Hr & Hk).
    assert (Hin : In (row_label r) (demand_labels start_date periods))
      by (rewrite <- Hlabels; apply in_map; exact Hr).
    unfold row_label in Hin. unfold row_key in Hk. inversion Hk; subst.
    apply in_demand_labels in Hin. apply Hin.
  - intro Hk.
    assert (Hin : In (d, c, "O+"%string) (map row_label df)).
    { rewrite Hlabels. apply in_demand_labels. split; [exact Hk | left; reflexivity]. }
    apply in_map_iff in Hin. destruct Hin as (r & Hr & Hin).
    exists r. split; [exact Hin|]. unfold row_label in Hr. unfold row_key.
    inversion Hr. reflexivity.
Qed.

(** The daily row of a key, with the row whose calendar columns it takes. *)
Lemma aggregate_group_first (rows : list DemandRow.t) (dr : DailyRow.t) :
  In dr (groupby_date_component rows) ->
  exists r0 : DemandRow.t,
    In r0 rows
    /\ DailyRow.date dr = DemandRow.date r0
    /\ DailyRow.day_of_week dr = DemandRow.day_of_week r0
    /\ DailyRow.month dr = DemandRow.month r0
    /\ DailyRow.is_weekend dr = DemandRow.is_weekend r0
    /\ DailyRow.is_holiday_season dr = DemandRow.is_holiday_season r0.
Proof.
  unfold groupby_date_component. intro Hdr.
  apply in_flat_map in Hdr. destruct Hdr as (k & _ & Hdr).
  unfold aggregate_group in Hdr.
  destruct (filter (fun r => key_eqb (row_key r) k) rows) as [|r0 grp] eqn:E;
    [contradiction|].
  destruct Hdr as [<- | []].
  assert (Hr0 : In r0 (filter (fun r => key_eqb (row_key r) k) rows))
    by (rewrite E; left; reflexivity).
  apply filter_In in Hr0. destruct Hr0 as [Hin Hkey].
  apply key_eqb_eq in Hkey. exists r0.
  cbn [DailyRow.date DailyRow.day_of_week DailyRow.month DailyRow.is_weekend
       DailyRow.is_holiday_season].
  rewrite <- Hkey. repeat split. exact Hin.
Qed.

Section DailyTable.
Context {G : Type} `{NumpyRandom G} `{Rounding}.

Lemma generated_tables (start_date : Z) (periods : nat) (g g' : G)
  (df : list DemandRow.t) (df_daily : list DailyRow.t) :
  generate_demand_timeseries start_date periods g = inr ((df, df_daily), g') ->
  df_daily = groupby_date_component df
  /\ Forall (fun r => 1 <= DemandRow.demand_units r) df
  /\ map row_label df = demand_labels start_date periods
  /\ Forall calendar_columns_ok df.
Proof.
  unfold generate_demand_timeseries. intro Hrun.
  eff_bind Hrun rows g1 Hrows.
  destruct rows as [|r rows]; [discriminate|].
  apply ret_inr in Hrun. destruct Hrun as [E _]. inversion E; subst. clear E.
  split; [reflexivity|]. split; [|split].
  - eapply for_each_concat_Forall; [|exact Hrows].
    intros date g2 rs g3. apply date_rows_positive.
  - unfold demand_labels. eapply (for_each_concat_map row_label); [|exact Hrows].
    intros date w rs w' Hr. apply (date_rows_layout _ _ _ _ Hr).
  - eapply for_each_concat_Forall; [|exact Hrows].
    intros date w rs w' Hr. apply (date_rows_layout _ _ _ _ Hr).
Qed.

Lemma generated_daily_keys (start_date : Z) (periods : nat) (g g' : G)
  (df : list DemandRow.t) (df_daily : list DailyRow.t) :
  generate_demand_timeseries start_date periods g = inr ((df, df_daily), g') ->
  (forall k, In k (map daily_key df_daily) <-> In k (demand_keys start_date periods))
  /\ List.length df_daily = (4 * periods)%nat.
Proof.
  intro Hrun.
  destruct (generated_tables _ _ _ _ _ _ Hrun) as (-> & _ & Hlabels & _).
  destruct (group_keys_spec df) as [Hsorted Hkeys].
  rewrite <- groupby_keys in Hsorted.
  pose proof (strongly_sorted_NoDup _ Hsorted) as Hnd.
  assert (Hin : forall k, In k (map daily_key (groupby_date_component df))
                          <-> In k (demand_keys start_date periods)).
  { intro k. rewrite groupby_keys, Hkeys. apply generated_row_keys. exact Hlabels. }
  split; [exact Hin|].
  rewrite <- (length_map daily_key), <- demand_keys_length with (start_date := start_date).
  apply Nat.le_antisymm; apply NoDup_incl_length.
  - exact Hnd.
  - intros k Hk. apply Hin. exact Hk.
  - apply demand_keys_NoDup.
  - intros k Hk. apply Hin. exact Hk.
Qed.

Lemma generated_daily_calendar (start_date : Z) (periods : nat) (g g' : G)
  (df : list DemandRow.t) (df_daily : list DailyRow.t) :
  generate_demand_timeseries start_date periods g = inr ((df, df_daily), g') ->
  Forall daily_calendar_columns_ok df_daily.
Proof.
  intro Hrun.
  destruct (generated_tables _ _ _ _ _ _ Hrun) as (-> & _ & _ & Hcal).
  apply Forall_forall. intros dr Hdr.
  destruct (aggregate_group_first df dr Hdr)
    as (r0 & Hr0 & Hdate & Hdow & Hmonth & Hwe & Hhol).
  rewrite Forall_forall in Hcal. specialize (Hcal r0 Hr0).
  destruct Hcal as (C1 & C2 & _ & _ & C5 & C6).
  unfold daily_calendar_columns_ok.
  rewrite Hdate, Hdow, Hmonth, Hwe, Hhol. repeat split; assumption.
Qed.

(** The daily table of the generator has one row for each of the four
    components on each date, in order of date and component name; each
    carries at least one unit, the calendar columns of its date, and the
    daily units add up to the units of the detailed table. *)
Theorem daily_table_of_generator (start_date : Z) (periods : nat) (g g' : G)
  (df : list DemandRow.t) (df_daily : list DailyRow.t) :
  generate_demand_timeseries start_date periods g = inr ((df, df_daily), g') ->
  List.length df_daily = (4 * periods)%nat
  /\ Sorted.StronglySorted key_lt (map daily_key df_daily)
  /\ (forall k, In k (map daily_key df_daily) <-> In k (demand_keys start_date periods))
  /\ Forall (fun dr => 1 <= DailyRow.demand_units dr) df_daily
  /\ Forall daily_calendar_columns_ok df_daily
  /\ Zsum (map DailyRow.demand_units df_daily) = Zsum (map DemandRow.demand_units df).
Proof.
  intro Hrun.
  pose proof (generated_daily_calendar _ _ _ _ _ _ Hrun) as Hdaily.
  destruct (generated_daily_keys _ _ _ _ _ _ Hrun) as [Hin Hlen].
  destruct (generated_tables _ _ _ _ _ _ Hrun) as (-> & Hpos & _ & _).
  destruct (group_keys_spec df) as [Hsorted _].
  rewrite <- groupby_keys in Hsorted.
  split; [exact Hlen|]. split; [exact Hsorted|]. split; [exact Hin|].
  split; [exact (daily_units_positive df Hpos)|].
  split; [exact Hdaily | apply daily_units_total].
Qed.

End DailyTable.

Lemma daily_table_of_generator_witness :
  List.length sample_demand_daily = 4%nat
  /\ map daily_key sample_demand_daily
     = [(18628, "Cryoprecipitate"); (18628, "Fresh Frozen Plasma");
        (18628, "Packed RBC"); (18628, "Platelets")]%string
  /\ Zsum (map DailyRow.demand_units sample_demand_daily)
     = Zsum (map DemandRow.demand_units sample_demand_df).
Proof.
  pose proof (daily_table_of_generator (G := list Q) 18628 1 sample_demand_tape []
                sample_demand_df sample_demand_daily) as Hthm.
  assert (Hrun : generate_demand_timeseries (G := list Q) 18628 1 sample_demand_tape
                 = inr ((sample_demand_df, sample_demand_daily), []))
    by (vm_compute; reflexivity).
  destruct (Hthm Hrun) as (Hlen & _ & _ & _ & _ & Hsum).
  split; [exact Hlen|]. split; [reflexivity | exact Hsum].
Defined.

(** ** The RFM table of a generated registry *)

Section RfmOfRegistry.
Context {G F : Type} `{NumpyRandom G} `{Faker F} `{Rounding}.

Lemma rfm_of_donor_in_range (now_last now_status : Z) (d : Donor.t) :
  donor_record_ok now_last now_status d -> donor_in_range d ->
  rfm_in_range (rfm_of_donor d).
Proof.
  intros (Hle & Hvol & _) (_ & _ & _ & _ & _ & Hdon & Hlast & Hfirst & _).
  unfold rfm_in_range, rfm_of_donor.
  cbn [RfmRow.Recency RfmRow.Time RfmRow.Frequency RfmRow.Monetary
       RfmRow.donated_last_quarter].
  repeat split; try lia.
  destruct (Z.leb_spec (Donor.months_since_last_donation d) 3); [left | right]; lia.
Qed.

(** The RFM table of a generated registry has the registry's donors in
    order, one row each; in every row the recency is between 0 and the time,
    the time at most 120 months, the frequency between 1 and 50, the
    monetary value 450 times the frequency, and the label 1 exactly when the
    recency is at most 3, else 0.  The registry of a count below one has no
    column to select, and the derivation raises. *)
Theorem rfm_dataset_of_registry (n_donors : Z) (w w' : World G F)
  (donor_df : list Donor.t) :
  generate_donor_registry n_donors w = inr (donor_df, w') ->
  (n_donors <= 0 -> generate_rfm_dataset donor_df = inl (KeyError "donor_id"))
  /\ (0 < n_donors ->
      exists rfm_df : list RfmRow.t,
        generate_rfm_dataset donor_df = inr rfm_df
        /\ List.length rfm_df = Z.to_nat n_donors
        /\ map RfmRow.donor_id rfm_df = map Donor.donor_id donor_df
        /\ (forall (j : nat) (r : RfmRow.t),
              nth_error rfm_df j = Some r ->
              RfmRow.donor_id r = String.append "D" (zfill 5 (py_str (Z.of_nat j + 1))))
        /\ Forall rfm_in_range rfm_df).
Proof.
  unfold generate_donor_registry, py_range. intro Hrun.
  pose proof (donor_rows_correct _ _ _ _ _ Hrun) as (_ & _ & Hlen & Hok).
  pose proof (donor_rows_facts _ _ _ _ _ Hrun) as Hfacts.
  split.
  - intro Hn. replace (Z.to_nat n_donors) with 0%nat in Hlen by lia.
    destruct donor_df; [reflexivity | discriminate].
  - intro Hn. exists (map rfm_of_donor donor_df).
    split; [|split; [|split; [|split]]].
    + destruct donor_df; [|reflexivity]. cbn in Hlen. lia.
    + rewrite length_map. exact Hlen.
    + rewrite map_map. reflexivity.
    + intros j r Hnth. rewrite nth_error_map in Hnth.
      destruct (nth_error donor_df j) as [d|] eqn:E; [|discriminate].
      inversion Hnth; subst r. destruct (Hfacts j d E) as [[Hid _] _].
      exact Hid.
    + apply Forall_map, Forall_forall. intros d Hin.
      apply In_nth_error in Hin. destruct Hin as [j Hnth].
      destruct (Hok j d Hnth) as [Hrec _]. destruct (Hfacts j d Hnth) as [_ Hrange].
      eapply rfm_of_donor_in_range; eassumption.
Qed.

End RfmOfRegistry.

Lemma rfm_dataset_of_registry_witness :
  exists rfm_df : list RfmRow.t,
    generate_rfm_dataset sample_registry = inr rfm_df
    /\ List.length rfm_df = 2%nat
    /\ map RfmRow.donor_id rfm_df = ["D00001"; "D00002"]%string
    /\ Forall rfm_in_range rfm_df.
Proof.
  destruct (rfm_dataset_of_registry 2 (sample_world day_one) sample_world_after
              sample_registry sample_registry_run) as [_ Hsome].
  assert (Hpos : 0 < 2) by lia.
  destruct (Hsome Hpos) as (rfm_df & Hrun & Hlen & Hids & _ & Hrange).
  exists rfm_df. split; [exact Hrun|]. split; [exact Hlen|].
  split; [rewrite Hids; reflexivity | exact Hrange].
Defined.

(** ** Time features *)

(** The date of the year, month and day of a day number is that day. *)
Lemma days_from_civil_of_days (n : Z) :
  days_from_civil (Calendar.year (Calendar.civil_of_days n))
                  (Calendar.month (Calendar.civil_of_days n))
                  (Calendar.day (Calendar.civil_of_days n)) = n.
Proof.
  unfold Calendar.civil_of_days, days_from_civil. cbv zeta.
  cbn [Calendar.year Calendar.month Calendar.day].
  set (z := n + 719468).
  set (era := z / 146097). set (doe := z - era * 146097).
  assert (Hdoe : 0 <= doe < 146097) by (subst doe era; Z.div_mod_to_equations; lia).
  set (yoe := (doe - doe / 1460 + doe / 36524 - doe / 146096) / 365).
  set (doy := doe - (365 * yoe + yoe / 4 - yoe / 100)).
  assert (Hy : 0 <= yoe <= 399 /\ 0 <= doy <= 365)
    by (subst yoe doy; Z.div_mod_to_equations; lia).
  set (mp := (5 * doy + 2) / 153).
  assert (Hmp : 0 <= mp <= 11) by (subst mp; Z.div_mod_to_equations; lia).
  destruct (Z.ltb_spec mp 10).
  - replace (mp + 3 <=? 2) with false by (symmetry; apply Z.leb_gt; lia).
    replace (2 <? mp + 3) with true by (symmetry; apply Z.ltb_lt; lia).
    replace (mp + 3 - 3) with mp by lia.
    replace ((yoe + era * 400 + 0) / 400) with era by (Z.div_mod_to_equations; lia).
    replace (yoe + era * 400 + 0 - era * 400) with yoe by lia.
    unfold doy, doe, z. lia.
  - replace (mp - 9 <=? 2) with true by (symmetry; apply Z.leb_le; lia).
    replace (2 <? mp - 9) with false by (symmetry; apply Z.ltb_ge; lia).
    replace (mp - 9 + 9) with mp by lia.
    replace ((yoe + era * 400 + 1 - 1) / 400) with era by (Z.div_mod_to_equations; lia).
    replace (yoe + era * 400 + 1 - 1 - era * 400) with yoe by lia.
    unfold doy, doe, z. lia.
Qed.

(** A year has 365 or 366 days. *)
Lemma year_day_step (y : Z) :
  let f := fun y => y / 400 * 146097
                    + ((y - y / 400 * 400) * 365 + (y - y / 400 * 400) / 4
                       - (y - y / 400 * 400) / 100) in
  365 <= f y - f (y - 1) <= 366.
Proof.
  cbv zeta.
  assert (Hc : y / 400 = (y - 1) / 400
               \/ (y / 400 = (y - 1) / 400 + 1 /\ y - y / 400 * 400 = 0))
    by (Z.div_mod_to_equations; lia).
  destruct Hc as [Hc | [Hc H0]].
  - rewrite <- Hc. set (e := y / 400) in *.
    assert (He : 1 <= y - e * 400 <= 399) by (subst e; Z.div_mod_to_equations; lia).
    set (a := y - e * 400) in *. replace (y - 1 - e * 400) with (a - 1) by lia.
    clearbody a. clear Hc. Z.div_mod_to_equations. lia.
  - rewrite H0. set (e := (y - 1) / 400) in *. rewrite Hc.
    assert (Hy : y - 1 - e * 400 = 399) by lia. rewrite Hy.
    change (0 / 4) with 0. change (0 / 100) with 0. change (399 / 4) with 99.
    change (399 / 100) with 3. lia.
Qed.

Lemma days_from_civil_in_year (y m d : Z) :
  1 <= m <= 12 -> 1 <= d <= 31 ->
  0 <= days_from_civil y m d - days_from_civil y 1 1 <= 365.
Proof.
  intros Hm Hd. pose proof (year_day_step y) as Hstep. cbv zeta in Hstep.
  unfold days_from_civil. cbv zeta.
  change (1 <=? 2) with true. change (2 <? 1) with false. cbv iota.
  change ((153 * (1 + 9) + 2) / 5) with 306.
  destruct (Z.leb_spec m 2); destruct (Z.ltb_spec 2 m); try lia.
  - assert (306 <= (153 * (m + 9) + 2) / 5 <= 337) by (Z.div_mod_to_equations; lia).
    lia.
  - assert (0 <= (153 * (m - 3) + 2) / 5 <= 275) by (Z.div_mod_to_equations; lia).
    lia.
Qed.

Lemma isocalendar_week_range (n : Z) : 1 <= isocalendar_week n <= 53.
Proof.
  unfold isocalendar_week. cbv zeta.
  set (thursday := n - Calendar.dayofweek n + 3).
  pose proof (days_from_civil_of_days thursday) as Hround.
  destruct (civil_month_day_range thursday) as [Hm Hd].
  pose proof (days_from_civil_in_year
                (Calendar.year (Calendar.civil_of_days thursday)) _ _ Hm Hd) as Hin.
  rewrite Hround in Hin. Z.div_mod_to_equations. lia.
Qed.

Lemma isin_int_flag (x : Z) (xs : list Z) (P : Prop) :
  (Zmem x xs = true <-> P) -> flag_of (isin_int x xs) P.
Proof.
  unfold flag_of, isin_int. intros [H1 H2].
  destruct (Zmem x xs); [left | right]; split; try reflexivity.
  - now apply H1.
  - intro HP. specialize (H2 HP). discriminate.
Qed.

Lemma Zmem_cons (x y : Z) (ys : list Z) :
  Zmem x (y :: ys) = true <-> x = y \/ Zmem x ys = true.
Proof.
  unfold Zmem. cbn [existsb]. rewrite orb_true_iff, Z.eqb_eq. tauto.
Qed.

Lemma Zmem_nil (x : Z) : Zmem x [] = true <-> False.
Proof. unfold Zmem. cbn. split; [discriminate | tauto]. Qed.

Lemma demand_features_in_range {Row} (date_col : Row -> Z) (row : Row) :
  features_in_range (demand_features date_col row).
Proof.
  unfold features_in_range, demand_features. cbv zeta.
  cbn [FeatureRow.month FeatureRow.day FeatureRow.day_of_week FeatureRow.week_of_year
       FeatureRow.quarter FeatureRow.is_weekend FeatureRow.is_summer
       FeatureRow.is_winter FeatureRow.is_holiday_season].
  destruct (civil_month_day_range (date_col row)) as [Hm Hd].
  pose proof (dayofweek_range (date_col row)) as Hdow.
  pose proof (isocalendar_week_range (date_col row)) as Hweek.
  set (m := Calendar.month (Calendar.civil_of_days (date_col row))) in *.
  set (dow := Calendar.dayofweek (date_col row)) in *.
  clearbody m dow.
  split; [exact Hm|]. split; [exact Hd|]. split; [exact Hdow|]. split; [exact Hweek|].
  unfold quarter_of_month.
  split; [Z.div_mod_to_equations; lia|]. split; [Z.div_mod_to_equations; lia|].
  repeat split; apply isin_int_flag; rewrite !Zmem_cons, Zmem_nil; lia.
Qed.

(** The time features of any table: one row per input row, in order, with
    the month in 1..12, the day in 1..31, the day of the week in 0..6, the
    week of the year in 1..53, the quarter in 1..4 holding the month, and
    each flag 1 or 0 as the day of the week is Saturday or Sunday and as the
    month is one of June to August, of December to February and of November
    and December. *)
Theorem demand_features_columns {Row : Type} (df : list Row) (date_col : Row -> Z) :
  map FeatureRow.row_of (calculate_demand_features df date_col) = df
  /\ Forall features_in_range (calculate_demand_features df date_col)
  /\ Forall (fun f => FeatureRow.is_summer f + FeatureRow.is_winter f <= 1
                      /\ FeatureRow.is_winter f + FeatureRow.is_holiday_season f <= 1
                         + (if FeatureRow.month f =? 12 then 1 else 0))
            (calculate_demand_features df date_col).
Proof.
  unfold calculate_demand_features.
  assert (Hrange : Forall features_in_range (map (demand_features date_col) df)).
  { apply Forall_map, Forall_forall. intros row _. apply demand_features_in_range. }
  split; [|split; [exact Hrange|]].
  - rewrite map_map. cbn [demand_features FeatureRow.row_of]. apply map_id.
  - eapply Forall_impl; [|exact Hrange].
    intros f (Hm & _ & _ & _ & _ & _ & _ & Hs & Hw & Hh).
    unfold flag_of in Hs, Hw, Hh.
    destruct (Z.eqb_spec (FeatureRow.month f) 12); lia.
Qed.

(** The year, month and day columns determine the date: they are the civil
    date of the row's day, so rows that agree on the three agree on the
    date. *)
Theorem demand_features_determine_date {Row : Type} (df : list Row)
  (date_col : Row -> Z) :
  Forall (fun f => days_from_civil (FeatureRow.year f) (FeatureRow.month f)
                     (FeatureRow.day f) = date_col (FeatureRow.row_of f))
         (calculate_demand_features df date_col)
  /\ (forall f1 f2,
        In f1 (calculate_demand_features df date_col) ->
        In f2 (calculate_demand_features df date_col) ->
        FeatureRow.year f1 = FeatureRow.year f2 ->
        FeatureRow.month f1 = FeatureRow.month f2 ->
        FeatureRow.day f1 = FeatureRow.day f2 ->
        date_col (FeatureRow.row_of f1) = date_col (FeatureRow.row_of f2)).
Proof.
  assert (Hround : forall f, In f (calculate_demand_features df date_col) ->
            days_from_civil (FeatureRow.year f) (FeatureRow.month f) (FeatureRow.day f)
            = date_col (FeatureRow.row_of f)).
  { unfold calculate_demand_features. intros f Hf. apply in_map_iff in Hf.
    destruct Hf as (row & <- & _). unfold demand_features. cbv zeta.
    cbn [FeatureRow.year FeatureRow.month FeatureRow.day FeatureRow.row_of].
    apply days_from_civil_of_days. }
  split; [apply Forall_forall; exact Hround|].
  intros f1 f2 H1 H2 Hy Hm Hd.
  rewrite <- (Hround f1 H1), <- (Hround f2 H2), Hy, Hm, Hd. reflexivity.
Qed.

Lemma year_start_step (y : Z) :
  365 <= days_from_civil (y + 1) 1 1 - days_from_civil y 1 1 <= 366.
Proof.
  pose proof (year_day_step y) as Hstep. cbv zeta in Hstep.
  unfold days_from_civil. cbv zeta.
  change (1 <=? 2) with true. change (2 <? 1) with false. cbv iota.
  replace (y + 1 - 1) with y by lia. lia.
Qed.

Lemma days_from_civil_before_next_year (y m d : Z) :
  1 <= m <= 12 -> 1 <= d <= 31 ->
  days_from_civil y m d < days_from_civil (y + 1) 1 1.
Proof.
  intros Hm Hd. pose proof (year_day_step y) as Hstep. cbv zeta in Hstep.
  unfold days_from_civil. cbv zeta.
  change (1 <=? 2) with true. change (2 <? 1) with false. cbv iota.
  replace (y + 1 - 1) with y by lia.
  change ((153 * (1 + 9) + 2) / 5) with 306.
  destruct (Z.leb_spec m 2); destruct (Z.ltb_spec 2 m); try lia.
  - assert (306 <= (153 * (m + 9) + 2) / 5 <= 337) by (Z.div_mod_to_equations; lia).
    lia.
  - assert (0 <= (153 * (m - 3) + 2) / 5 <= 275) by (Z.div_mod_to_equations; lia).
    lia.
Qed.

Lemma year_start_mono (y1 y2 : Z) :
  y1 <= y2 -> days_from_civil y1 1 1 + 365 * (y2 - y1) <= days_from_civil y2 1 1.
Proof.
  intro Hle. pattern y2. apply (Zlt_lower_bound_ind _ y1); [|exact Hle].
  intros y IH Hy. destruct (Z.eq_dec y y1) as [-> | Hne]; [lia|].
  assert (Hprev : y1 <= y - 1 < y) by lia.
  specialize (IH (y - 1) Hprev).
  pose proof (year_start_step (y - 1)) as Hs. replace (y - 1 + 1) with y in Hs by lia.
  lia.
Qed.

(** The year of a day is the one whose first day is the last not after it. *)
Lemma year_of_day (n : Z) :
  let y := Calendar.year (Calendar.civil_of_days n) in
  days_from_civil y 1 1 <= n < days_from_civil (y + 1) 1 1.
Proof.
  cbv zeta. pose proof (days_from_civil_of_days n) as Hround.
  destruct (civil_month_day_range n) as [Hm Hd].
  pose proof (days_from_civil_in_year (Calendar.year (Calendar.civil_of_days n)) _ _ Hm Hd).
  pose proof (days_from_civil_before_next_year
                (Calendar.year (Calendar.civil_of_days n)) _ _ Hm Hd).
  rewrite Hround in *. lia.
Qed.

(** A week later the week number is one more, or the count starts again. *)
Lemma isocalendar_week_next (n : Z) :
  isocalendar_week (n + 7) = isocalendar_week n + 1
  \/ isocalendar_week (n + 7) = 1 /\ 52 <= isocalendar_week n.
Proof.
  unfold isocalendar_week. cbv zeta.
  assert (Hdow : Calendar.dayofweek (n + 7) = Calendar.dayofweek n)
    by (unfold Calendar.dayofweek; Z.div_mod_to_equations; lia).
  rewrite Hdow.
  set (t := n - Calendar.dayofweek n + 3).
  replace (n + 7 - Calendar.dayofweek n + 3) with (t + 7) by (subst t; lia).
  pose proof (year_of_day t) as Ht. pose proof (year_of_day (t + 7)) as Ht'.
  cbv zeta in Ht, Ht'.
  set (y := Calendar.year (Calendar.civil_of_days t)) in *.
  set (y' := Calendar.year (Calendar.civil_of_days (t + 7))) in *.
  clearbody y y' t.
  assert (Hy : y' = y \/ y' = y + 1).
  { destruct (Z_lt_le_dec y' y) as [Hlt | Hge].
    - assert (Hle : y' + 1 <= y) by lia.
      pose proof (year_start_mono (y' + 1) y Hle). lia.
    - destruct (Z_le_gt_dec y' (y + 1)) as [Hle | Hgt]; [lia|].
      assert (Hle : y + 1 <= y') by lia.
      pose proof (year_start_mono (y + 1) y' Hle). lia. }
  destruct Hy as [-> | ->].
  - left. Z.div_mod_to_equations. lia.
  - right. pose proof (year_start_step y). Z.div_mod_to_equations. lia.
Qed.

Lemma isocalendar_week_of_monday (n m : Z) :
  m - Calendar.dayofweek m = n - Calendar.dayofweek n ->
  isocalendar_week m = isocalendar_week n.
Proof. unfold isocalendar_week. cbv zeta. intros ->. reflexivity. Qed.

(** The week of the year counts the weeks from Monday to Sunday: rows whose
    dates lie in the same such week have the same number, and a row seven
    days after another has the next number, or number 1 after a week 52
    or 53. *)
Theorem week_of_year_counts_weeks {Row : Type} (df : list Row) (date_col : Row -> Z) :
  let table := calculate_demand_features df date_col in
  Forall (fun f1 =>
    Forall (fun f2 =>
      let date1 := date_col (FeatureRow.row_of f1) in
      let date2 := date_col (FeatureRow.row_of f2) in
      (date2 - FeatureRow.day_of_week f2 = date1 - FeatureRow.day_of_week f1 ->
       FeatureRow.week_of_year f2 = FeatureRow.week_of_year f1)
      /\ (date2 = date1 + 7 ->
          FeatureRow.week_of_year f2 = FeatureRow.week_of_year f1 + 1
          \/ FeatureRow.week_of_year f2 = 1 /\ 52 <= FeatureRow.week_of_year f1))
      table) table.
Proof.
  cbv zeta. unfold calculate_demand_features.
  apply Forall_map, Forall_forall. intros row1 _.
  apply Forall_map, Forall_forall. intros row2 _.
  unfold demand_features. cbv zeta.
  cbn [FeatureRow.week_of_year FeatureRow.day_of_week FeatureRow.row_of].
  split.
  - apply isocalendar_week_of_monday.
  - intros ->. apply isocalendar_week_next.
Qed.

Lemma week_of_year_counts_weeks_witness :
  let table := calculate_demand_features [18624; 18631; 18638] (fun date => date) in
  map FeatureRow.week_of_year table = [53; 1; 2]
  /\ Forall (fun f1 =>
       Forall (fun f2 =>
         let date1 := FeatureRow.row_of f1 in
         let date2 := FeatureRow.row_of f2 in
         (date2 - FeatureRow.day_of_week f2 = date1 - FeatureRow.day_of_week f1 ->
          FeatureRow.week_of_year f2 = FeatureRow.week_of_year f1)
         /\ (date2 = date1 + 7 ->
             FeatureRow.week_of_year f2 = FeatureRow.week_of_year f1 + 1
             \/ FeatureRow.week_of_year f2 = 1 /\ 52 <= FeatureRow.week_of_year f1))
         table) table.
Proof.
  split; [vm_compute; reflexivity|].
  apply (week_of_year_counts_weeks [18624; 18631; 18638] (fun date => date)).
Defined.

(** ** Time features of the generated tables *)

Lemma isin_int_weekend (dow flag : Z) :
  0 <= dow <= 6 -> (flag = 1 /\ 5 <= dow \/ flag = 0 /\ dow <= 4) ->
  isin_int dow [5; 6] = flag.
Proof.
  intros Hdow Hflag. unfold isin_int.
  destruct (Zmem dow [5; 6]) eqn:E.
  - apply Zmem_cons in E. rewrite Zmem_cons, Zmem_nil in E. lia.
  - assert (Hn : ~ (dow = 5 \/ dow = 6 \/ False)).
    { rewrite <- Zmem_nil with (x := dow), <- !Zmem_cons. congruence. }
    lia.
Qed.

Lemma isin_int_holiday (m flag : Z) :
  1 <= m <= 12 -> (flag = 1 /\ 11 <= m \/ flag = 0 /\ m <= 10) ->
  isin_int m [11; 12] = flag.
Proof.
  intros Hm Hflag. unfold isin_int.
  destruct (Zmem m [11; 12]) eqn:E.
  - apply Zmem_cons in E. rewrite Zmem_cons, Zmem_nil in E. lia.
  - assert (Hn : ~ (m = 11 \/ m = 12 \/ False)).
    { rewrite <- Zmem_nil with (x := m), <- !Zmem_cons. congruence. }
    lia.
Qed.

Section FeaturesOfGenerator.
Context {G : Type} `{NumpyRandom G} `{Rounding}.

(** On the two tables of the generator the features overwrite the columns
    [day_of_week], [month], [is_weekend] and [is_holiday_season] with the
    values they have. *)
Theorem demand_features_keep_generated_columns (start_date : Z) (periods : nat)
  (g g' : G) (df : list DemandRow.t) (df_daily : list DailyRow.t) :
  generate_demand_timeseries start_date periods g = inr ((df, df_daily), g') ->
  Forall keeps_detail_columns (calculate_demand_features df DemandRow.date)
  /\ Forall keeps_daily_columns (calculate_demand_features df_daily DailyRow.date).
Proof.
  intro Hrun.
  pose proof (generated_daily_calendar _ _ _ _ _ _ Hrun) as Hdaily.
  destruct (generated_tables _ _ _ _ _ _ Hrun) as (_ & _ & _ & Hcal).
  unfold calculate_demand_features. split.
  - apply Forall_map. eapply Forall_impl; [|exact Hcal].
    intros r (Hdow & Hm & Hdr & Hmr & Hwe & Hhol).
    unfold keeps_detail_columns, demand_features. cbv zeta.
    cbn [FeatureRow.day_of_week FeatureRow.month FeatureRow.is_weekend
         FeatureRow.is_holiday_season FeatureRow.row_of].
    rewrite <- Hdow, <- Hm.
    split; [reflexivity|]. split; [reflexivity|].
    split; [apply isin_int_weekend | apply isin_int_holiday]; assumption.
  - apply Forall_map. eapply Forall_impl; [|exact Hdaily].
    intros r (Hdow & Hm & Hwe & Hhol).
    unfold keeps_daily_columns, demand_features. cbv zeta.
    cbn [FeatureRow.day_of_week FeatureRow.month FeatureRow.is_weekend
         FeatureRow.is_holiday_season FeatureRow.row_of].
    rewrite <- Hdow, <- Hm.
    split; [reflexivity|]. split; [reflexivity|].
    split; [apply isin_int_weekend | apply isin_int_holiday]; try assumption.
    + rewrite Hdow. apply dayofweek_range.
    + rewrite Hm. apply civil_month_day_range.
Qed.

End FeaturesOfGenerator.

Lemma demand_features_keep_generated_columns_witness :
  Forall keeps_detail_columns (calculate_demand_features sample_demand_df DemandRow.date)
  /\ Forall keeps_daily_columns
       (calculate_demand_features sample_demand_daily DailyRow.date).
Proof.
  apply (demand_features_keep_generated_columns (G := list Q) 18628 1
           sample_demand_tape [] sample_demand_df sample_demand_daily).
  vm_compute. reflexivity.
Defined.

(** ** The five tables of [main] *)

Lemma demand_labels_length (start_date : Z) (periods : nat) :
  List.length (demand_labels start_date periods) = (32 * periods)%nat.
Proof.
  unfold demand_labels.
  rewrite (flat_map_constant_length _ 32%nat) by (intro date; reflexivity).
  unfold date_range. now rewrite length_map, length_seq.
Qed.

Lemma lift_result_inr {W A} (r : PyExn + A) (w w' : W) (a : A) :
  lift_result r w = inr (a, w') -> r = inr a /\ w' = w.
Proof.
  unfold lift_result. destruct r as [e | a0]; [discriminate|].
  intro E. inversion E. split; reflexivity.
Qed.

Section MainTables.
Context {G F : Type} `{NumpyRandom G} `{Faker F} `{Rounding}.

(** When [main] returns, the detailed demand has 35040 rows and the daily
    demand, its aggregate, 4380; the registry and the RFM table have the
    same 10000 donors in the same order; the supply table has the 4380 keys
    and demands of the daily table in order; and the clock was read 30000
    times, all by the registry. *)
Theorem main_tables_linked (w w' : World G F) (ds : Datasets.t) :
  main w = inr (ds, w') ->
  datasets_linked ds
  /\ Z.of_nat (ticks w') = Z.of_nat (ticks w) + 30000
  /\ clock w' = clock w.
Proof.
  unfold main. intro Hrun.
  eff_bind Hrun tables w1 Hdemand. destruct tables as [demand_detailed demand_daily].
  eff_bind Hrun donor_df w2 Hdonors.
  eff_bind Hrun rfm_df w3 Hrfm.
  eff_bind Hrun supply_df w4 Hsupply.
  apply ret_inr in Hrun. destruct Hrun as [-> ->].
  apply with_rng_inr in Hdemand. destruct Hdemand as [[g1 Hdemand] [Hc1 Ht1]].
  apply lift_result_inr in Hrfm. destruct Hrfm as [Hrfm ->].
  apply with_rng_inr in Hsupply. destruct Hsupply as [[g2 Hsupply] [Hc2 Ht2]].
  unfold generate_donor_registry, py_range in Hdonors.
  apply donor_rows_correct in Hdonors. destruct Hdonors as (Hc & Ht & Hlen & _).
  pose proof (generated_daily_keys _ _ _ _ _ _ Hdemand) as [_ Hdaily].
  destruct (generated_tables _ _ _ _ _ _ Hdemand) as (Hgroup & _ & Hlabels & _).
  assert (Hrows : rfm_df = map rfm_of_donor donor_df).
  { unfold generate_rfm_dataset in Hrfm. destruct donor_df; [discriminate|].
    now inversion Hrfm. }
  unfold generate_supply_data in Hsupply.
  unfold datasets_linked.
  cbn [Datasets.demand_detailed Datasets.demand_daily Datasets.donor_registry
       Datasets.rfm_dataset Datasets.supply_inventory].
  split; [|split; [rewrite Ht2, Ht, Ht1; lia | congruence]].
  split; [|split; [|split; [|split; [|split; [|split; [|split; [|split]]]]]]].
  - rewrite <- (length_map row_label), Hlabels, demand_labels_length. lia.
  - rewrite Hdaily. lia.
  - rewrite Hlen. lia.
  - rewrite Hrows, length_map, Hlen. lia.
  - apply for_each_Forall2 with (P := fun _ _ => True) in Hsupply; [|trivial].
    apply Forall2_length in Hsupply. rewrite <- Hsupply, Hdaily. lia.
  - exact Hgroup.
  - rewrite Hrows, map_map. reflexivity.
  - eapply for_each_map; [|exact Hsupply].
    intros row g s g' Hrow.
    destruct (supply_row_inv row g g' s Hrow) as (b & u & _ & _ & ->). reflexivity.
  - eapply for_each_map; [|exact Hsupply].
    intros row g s g' Hrow.
    destruct (supply_row_inv row g g' s Hrow) as (b & u & _ & _ & ->). reflexivity.
Qed.

End MainTables.

Section MainReturns.
Context {G F : Type} `{NumpyRandom G} `{Faker F}.

(** With exact arithmetic every check on the way passes. *)
Lemma main_returns (w : World G F) : exists ds w', main w = inr (ds, w').
Proof.
  unfold main, bind.
  assert (Hperiods : (0 < 1095)%nat) by lia.
  destruct (generate_demand_timeseries_returns 18628 1095 (rng w) Hperiods)
    as (df & daily & g1 & Hdemand & _).
  unfold with_rng at 1. rewrite Hdemand.
  match goal with
  | |- context [generate_donor_registry 10000 ?w1] =>
      destruct (generate_donor_registry_returns 10000 w1) as (rows & w2 & Hdonors & Hlen)
  end.
  rewrite Hdonors.
  destruct rows as [|d rows]; [discriminate|].
  unfold generate_rfm_dataset, lift_result.
  match goal with
  | |- context [with_rng (generate_supply_data daily ?u ?v) ?w3] =>
      destruct (generate_supply_data_returns daily u v (rng w3))
        as (supply_df & g2 & Hsupply & _);
      unfold with_rng; rewrite Hsupply
  end.
  unfold ret. eauto.
Qed.

End MainReturns.

Lemma main_tables_linked_witness :
  exists (ds : Datasets.t) (w' : World (list Q) (list string)),
    main (sample_world day_one) = inr (ds, w')
    /\ datasets_linked ds
    /\ Z.of_nat (ticks w') = 30000.
Proof.
  destruct (main_returns (sample_world day_one)) as (ds & w' & Hrun).
  exists ds, w'. split; [exact Hrun|].
  destruct (main_tables_linked (sample_world day_one) w' ds Hrun) as (Hlinked & Ht & _).
  split; [exact Hlinked | exact Ht].
Defined.

(** ** Order of the scores *)

Lemma insert_sorted_In (a v : Q) (s : list Q) :
  In v (Pandas.insert_sorted a s) <-> v = a \/ In v s.
Proof.
  induction s as [|y s IH]; cbn [Pandas.insert_sorted].
  - cbn. intuition congruence.
  - destruct (Qle_bool a y); cbn [In]; [intuition congruence|]. rewrite IH.
    intuition congruence.
Qed.

Lemma sort_values_In (v : Q) (l : list Q) : In v (Pandas.sort_values l) <-> In v l.
Proof.
  induction l as [|a l IH]; [reflexivity|].
  unfold Pandas.sort_values in *. cbn [fold_right In].
  rewrite insert_sorted_In, IH. intuition congruence.
Qed.

Lemma insert_sorted_sorted (a : Q) (s : list Q) :
  Sorted.StronglySorted Qle s -> Sorted.StronglySorted Qle (Pandas.insert_sorted a s).
Proof.
  induction 1 as [|y s Hs IH Hy]; cbn [Pandas.insert_sorted].
  - apply Sorted.SSorted_cons; [apply Sorted.SSorted_nil | apply Forall_nil].
  - destruct (Qle_bool a y) eqn:E.
    + apply Qle_bool_iff in E.
      apply Sorted.SSorted_cons; [apply Sorted.SSorted_cons; assumption|].
      constructor; [exact E|]. eapply Forall_impl; [|exact Hy].
      intros z Hz. eapply Qle_trans; eassumption.
    + assert (Hya : (y <= a)%Q).
      { apply Qlt_le_weak, Qnot_le_lt. intro Hle. apply Qle_bool_iff in Hle. congruence. }
      apply Sorted.SSorted_cons; [exact IH|].
      apply Forall_forall. intros z Hz. apply insert_sorted_In in Hz.
      destruct Hz as [-> | Hz]; [exact Hya|].
      rewrite Forall_forall in Hy. apply Hy. exact Hz.
Qed.

Lemma sort_values_sorted (l : list Q) : Sorted.StronglySorted Qle (Pandas.sort_values l).
Proof.
  induction l as [|a l IH]; [apply Sorted.SSorted_nil|].
  unfold Pandas.sort_values in *. cbn [fold_right]. apply insert_sorted_sorted. exact IH.
Qed.

(** The first value in sorted order is the least. *)
Lemma sort_values_least (l : list Q) (v : Q) :
  In v l -> (nth 0 (Pandas.sort_values l) 0 <= v)%Q.
Proof.
  intro Hin. apply sort_values_In in Hin.
  pose proof (sort_values_sorted l) as Hs.
  destruct (Pandas.sort_values l) as [|y s]; [contradiction|].
  cbn [nth]. inversion Hs as [|? ? _ Hy]; subst.
  destruct Hin as [-> | Hin]; [apply Qle_refl|].
  rewrite Forall_forall in Hy. apply Hy. exact Hin.
Qed.

Lemma quantile_0 (sorted : list Q) :
  (Pandas.quantile sorted (inject_Z 0 / inject_Z 5) == nth 0 sorted 0)%Q.
Proof.
  unfold Pandas.quantile. cbv zeta.
  set (h := (inject_Z (Z.of_nat (List.length sorted) - 1) * (inject_Z 0 / inject_Z 5))%Q).
  assert (Hh : (h == 0)%Q) by (unfold h; field).
  assert (Hlo : Qfloor h = 0) by (rewrite Hh; reflexivity).
  rewrite Hlo, Hh. cbn [Z.to_nat]. ring.
Qed.

Lemma unique_head (b0 : Q) (bins : list Q) :
  exists rest, Pandas.unique (b0 :: bins) = b0 :: rest.
Proof. cbn [Pandas.unique]. eauto. Qed.

Lemma searchsorted_left_mono (bins : list Q) (v v' : Q) :
  (v <= v')%Q -> (Pandas.searchsorted_left bins v <= Pandas.searchsorted_left bins v')%nat.
Proof.
  intro Hle. unfold Pandas.searchsorted_left.
  induction bins as [|b bins IH]; [reflexivity|].
  cbn [filter].
  destruct (Qltb b v) eqn:E.
  - apply Qltb_lt in E.
    assert (E' : Qltb b v' = true) by (apply Qltb_lt; eapply Qlt_le_trans; eassumption).
    rewrite E'. cbn [List.length]. lia.
  - destruct (Qltb b v'); cbn [List.length]; lia.
Qed.

Lemma bin_id_mono (b0 : Q) (rest : list Q) (v v' : Q) :
  (b0 <= v)%Q -> (v <= v')%Q -> (bin_id (b0 :: rest) v <= bin_id (b0 :: rest) v')%nat.
Proof.
  intros Hb Hle. unfold bin_id.
  destruct (Qeq_bool v b0) eqn:E; destruct (Qeq_bool v' b0) eqn:E'.
  - lia.
  - apply Qeq_bool_iff in E. apply Qeq_bool_neq in E'.
    unfold Pandas.searchsorted_left. cbn [filter].
    assert (Hlt : Qltb b0 v' = true).
    { apply Qltb_lt. rewrite E in Hle. apply Qle_lt_or_eq in Hle.
      destruct Hle as [Hlt | Heq]; [exact Hlt|]. elim E'. symmetry. exact Heq. }
    rewrite Hlt. cbn [List.length]. lia.
  - apply Qeq_bool_neq in E. apply Qeq_bool_iff in E'.
    elim E. apply Qle_antisym; [rewrite <- E'; exact Hle | exact Hb].
  - apply searchsorted_left_mono. exact Hle.
Qed.

(** The labels of a cut that converts are the labels of the bin numbers,
    which do not decrease with the value. *)
Lemma qcut_by_bin (x : list Q) (labels : list Z) (l : list (option Z)) (vs : list Z) :
  Pandas.qcut x 5 labels = inr l ->
  Pandas.astype_int l = inr vs ->
  exists bins : list Q,
    (forall (i : nat) (v : Q) (s : Z),
        nth_error x i = Some v -> nth_error vs i = Some s ->
        (1 <= bin_id bins v)%nat /\ nth_error labels (bin_id bins v - 1) = Some s)
    /\ (forall v v' : Q,
          In v x -> (v <= v')%Q -> (bin_id bins v <= bin_id bins v')%nat).
Proof.
  unfold Pandas.qcut, Pandas.bins_to_cuts. cbv zeta.
  set (edges := map (Pandas.quantile (Pandas.sort_values x)) (Pandas.linspace01 5)).
  match goal with
  | |- context [if ?c then Pandas.unique edges else edges] =>
      set (bins := if c then Pandas.unique edges else edges)
  end.
  destruct (Pandas.has_duplicates labels); [discriminate|].
  destruct (negb (List.length labels =? _)%nat); [discriminate|].
  intros E Hint. inversion E; subst l. clear E.
  apply astype_int_inr in Hint.
  exists bins. split.
  - intros i v s Hv Hs.
    assert (Hi : nth_error (map Some vs) i = Some (Some s))
      by (rewrite nth_error_map, Hs; reflexivity).
    rewrite <- Hint, map_map, nth_error_map, Hv in Hi. cbn [option_map] in Hi.
    injection Hi as Hi. fold (bin_id bins v) in Hi.
    destruct (bin_id bins v =? 0)%nat eqn:E0; [discriminate|].
    apply Nat.eqb_neq in E0.
    destruct (bin_id bins v =? List.length bins)%nat; [discriminate|].
    cbn [orb] in Hi. split; [lia | exact Hi].
  - intros v v' Hin Hle.
    assert (Hhead : exists b0 rest,
               bins = b0 :: rest /\ (b0 == nth 0 (Pandas.sort_values x) 0)%Q).
    { assert (Hedges : exists rest,
                edges = Pandas.quantile (Pandas.sort_values x) (inject_Z 0 / inject_Z 5)
                        :: rest) by (unfold edges; cbn; eauto).
      destruct Hedges as [rest Hedges]. unfold bins.
      match goal with
      | |- context [if ?c then _ else _] => generalize c
      end.
      rewrite Hedges. intros [|].
      - destruct (unique_head (Pandas.quantile (Pandas.sort_values x)
                                 (inject_Z 0 / inject_Z 5)) rest) as [rest' ->].
        eexists _, _. split; [reflexivity | apply quantile_0].
      - eexists _, _. split; [reflexivity | apply quantile_0]. }
    destruct Hhead as (b0 & rest & -> & Hb0).
    apply bin_id_mono; [|exact Hle].
    rewrite Hb0. apply sort_values_least. exact Hin.
Qed.

Lemma filter_length_le {A} (p q : A -> bool) (l : list A) :
  (forall y, p y = true -> q y = true) ->
  (List.length (filter p l) <= List.length (filter q l))%nat.
Proof.
  intro Himp. induction l as [|y l IH]; [reflexivity|].
  cbn [filter]. destruct (p y) eqn:E.
  - rewrite (Himp y E). cbn [List.length]. lia.
  - destruct (q y); cbn [List.length]; lia.
Qed.

Lemma filter_length_sum {A} (p1 p2 q : A -> bool) (l : list A) :
  (forall y, p1 y = true -> q y = true) ->
  (forall y, p2 y = true -> q y = true) ->
  (forall y, p1 y = true -> p2 y = true -> False) ->
  (List.length (filter p1 l) + List.length (filter p2 l)
   <= List.length (filter q l))%nat.
Proof.
  intros H1 H2 Hdis. induction l as [|y l IH]; [reflexivity|].
  cbn [filter].
  destruct (p1 y) eqn:E1; destruct (p2 y) eqn:E2.
  - elim (Hdis y E1 E2).
  - rewrite (H1 y E1). cbn [List.length]. lia.
  - rewrite (H2 y E2). cbn [List.length]. lia.
  - destruct (q y); cbn [List.length]; lia.
Qed.

Lemma filter_firstn_le {A} (p : A -> bool) (i : nat) (l : list A) :
  (List.length (filter p (firstn i l)) <= List.length (filter p l))%nat.
Proof.
  rewrite <- (firstn_skipn i l) at 2. rewrite filter_app, length_app. lia.
Qed.

Lemma filter_firstn_mono {A} (p : A -> bool) (i j : nat) (l : list A) :
  (i <= j)%nat ->
  (List.length (filter p (firstn i l)) <= List.length (filter p (firstn j l)))%nat.
Proof.
  intro Hij. replace (firstn i l) with (firstn i (firstn j l)).
  - apply filter_firstn_le.
  - rewrite firstn_firstn. f_equal. lia.
Qed.

Lemma rank_first_nth (x : list Q) (i : nat) (v : Q) :
  nth_error x i = Some v ->
  nth_error (Pandas.rank_first x) i = Some (inject_Z (Z.of_nat (rank_of x i v))).
Proof.
  intro Hv. unfold Pandas.rank_first.
  assert (Hi : (i < List.length x)%nat) by (apply nth_error_Some; congruence).
  rewrite nth_error_map.
  rewrite (nth_error_nth' (seq 0 (List.length x)) 0%nat) by (rewrite length_seq; exact Hi).
  rewrite seq_nth by exact Hi. cbn [option_map Nat.add].
  rewrite (nth_error_nth x i 0%Q Hv). reflexivity.
Qed.

(** Ranks follow the values, and the order of appearance among equals. *)
Lemma rank_of_order (x : list Q) (i j : nat) (vi vj : Q) :
  (vi < vj)%Q \/ (vi == vj)%Q /\ (i <= j)%nat ->
  (rank_of x i vi <= rank_of x j vj)%nat.
Proof.
  unfold rank_of. intros [Hlt | [Heq Hij]].
  - pose proof (filter_length_sum (fun y => Qltb y vi) (fun y => Qeq_bool y vi)
                  (fun y => Qltb y vj) x) as Hsum.
    pose proof (filter_firstn_le (fun y => Qeq_bool y vi) i x) as Hfirst.
    assert (Hle : (List.length (filter (fun y => Qltb y vi) x)
                   + List.length (filter (fun y => Qeq_bool y vi) x)
                   <= List.length (filter (fun y => Qltb y vj) x))%nat).
    { apply Hsum.
      - intros y Hy. apply Qltb_lt in Hy. apply Qltb_lt.
        eapply Qlt_trans; eassumption.
      - intros y Hy. apply Qeq_bool_iff in Hy. apply Qltb_lt. rewrite Hy. exact Hlt.
      - intros y Hy1 Hy2. apply Qltb_lt in Hy1. apply Qeq_bool_iff in Hy2.
        rewrite Hy2 in Hy1. exact (Qlt_irrefl _ Hy1). }
    lia.
  - assert (HL : (List.length (filter (fun y => Qltb y vi) x)
                  <= List.length (filter (fun y => Qltb y vj) x))%nat).
    { apply filter_length_le. intros y Hy. apply Qltb_lt in Hy. apply Qltb_lt.
      rewrite <- Heq. exact Hy. }
    assert (HE : (List.length (filter (fun y => Qeq_bool y vi) (firstn i x))
                  <= List.length (filter (fun y => Qeq_bool y vj) (firstn j x)))%nat).
    { etransitivity; [apply (filter_firstn_mono _ i j x Hij)|].
      apply filter_length_le. intros y Hy. apply Qeq_bool_iff in Hy.
      apply Qeq_bool_iff. rewrite Hy. exact Heq. }
    lia.
Qed.

Lemma descending_label (k : nat) (s : Z) :
  (1 <= k)%nat -> nth_error [5; 4; 3; 2; 1] (k - 1) = Some s -> s = 6 - Z.of_nat k.
Proof.
  intros Hk Hs.
  destruct k as [|[|[|[|[|[|k]]]]]]; cbn in Hs; try lia; try (inversion Hs; lia).
  destruct k; discriminate.
Qed.

Lemma ascending_label (k : nat) (s : Z) :
  (1 <= k)%nat -> nth_error [1; 2; 3; 4; 5] (k - 1) = Some s -> s = Z.of_nat k.
Proof.
  intros Hk Hs.
  destruct k as [|[|[|[|[|[|k]]]]]]; cbn in Hs; try lia; try (inversion Hs; lia).
  destruct k; discriminate.
Qed.

(** Scores of a cut of the ranks of a column. *)
Lemma ranked_scores_order (x : list Q) (l : list (option Z)) (vs : list Z) :
  Pandas.qcut (Pandas.rank_first x) 5 [1; 2; 3; 4; 5] = inr l ->
  Pandas.astype_int l = inr vs ->
  forall (i j : nat) (vi vj : Q) (si sj : Z),
    nth_error x i = Some vi -> nth_error x j = Some vj ->
    nth_error vs i = Some si -> nth_error vs j = Some sj ->
    (vi < vj)%Q \/ (vi == vj)%Q /\ (i <= j)%nat ->
    si <= sj.
Proof.
  intros Hcut Hint i j vi vj si sj Hvi Hvj Hsi Hsj Horder.
  destruct (qcut_by_bin _ _ _ _ Hcut Hint) as (bins & Hlabel & Hmono).
  pose proof (rank_first_nth x i vi Hvi) as Hri.
  pose proof (rank_first_nth x j vj Hvj) as Hrj.
  destruct (Hlabel i _ si Hri Hsi) as [Hi1 Hi2].
  destruct (Hlabel j _ sj Hrj Hsj) as [Hj1 Hj2].
  apply ascending_label in Hi2; [|exact Hi1].
  apply ascending_label in Hj2; [|exact Hj1].
  assert (Hle : (bin_id bins (inject_Z (Z.of_nat (rank_of x i vi)))
                 <= bin_id bins (inject_Z (Z.of_nat (rank_of x j vj))))%nat).
  { apply Hmono; [eapply nth_error_In; exact Hri|].
    rewrite <- Zle_Qle. apply Nat2Z.inj_le. apply rank_of_order. exact Horder. }
  lia.
Qed.

Lemma cut_scores_order (x : list Q) (l : list (option Z)) (vs : list Z) :
  Pandas.qcut x 5 [5; 4; 3; 2; 1] = inr l ->
  Pandas.astype_int l = inr vs ->
  forall (i j : nat) (vi vj : Q) (si sj : Z),
    nth_error x i = Some vi -> nth_error x j = Some vj ->
    nth_error vs i = Some si -> nth_error vs j = Some sj ->
    (vi <= vj)%Q -> sj <= si.
Proof.
  intros Hcut Hint i j vi vj si sj Hvi Hvj Hsi Hsj Horder.
  destruct (qcut_by_bin _ _ _ _ Hcut Hint) as (bins & Hlabel & Hmono).
  destruct (Hlabel i _ si Hvi Hsi) as [Hi1 Hi2].
  destruct (Hlabel j _ sj Hvj Hsj) as [Hj1 Hj2].
  apply descending_label in Hi2; [|exact Hi1].
  apply descending_label in Hj2; [|exact Hj1].
  assert (Hle : (bin_id bins vi <= bin_id bins vj)%nat).
  { apply Hmono; [eapply nth_error_In; exact Hvi | exact Horder]. }
  lia.
Qed.

(** When the scoring returns, the scores follow the columns: a row whose
    recency is not above that of another has an R score not below it; a row
    whose frequency is below that of another, or equal to it and earlier in
    the table, has an F score not above it; and so for the monetary value
    and the M score. *)
Theorem calculate_rfm_scores_ordered {Row : Type} (df : list Row)
  (recency_col frequency_col monetary_col : Row -> Q) (scored : list (Scored Row)) :
  calculate_rfm_scores df recency_col frequency_col monetary_col = inr scored ->
  forall (i j : nat) (si sj : Scored Row),
    nth_error scored i = Some si -> nth_error scored j = Some sj ->
    scores_ordered recency_col frequency_col monetary_col i j si sj.
Proof.
  unfold calculate_rfm_scores, and_then. intro Hrun.
  destruct (Pandas.qcut (map recency_col df) 5 [5; 4; 3; 2; 1]) as [e | r] eqn:Hr;
    [discriminate|].
  destruct (Pandas.qcut (Pandas.rank_first (map frequency_col df)) 5 [1; 2; 3; 4; 5])
    as [e | f] eqn:Hf; [discriminate|].
  destruct (Pandas.qcut (Pandas.rank_first (map monetary_col df)) 5 [1; 2; 3; 4; 5])
    as [e | m] eqn:Hm; [discriminate|].
  destruct (Pandas.astype_int r) as [e | r'] eqn:Hr'; [discriminate|].
  destruct (Pandas.astype_int f) as [e | f'] eqn:Hf'; [discriminate|].
  destruct (Pandas.astype_int m) as [e | m'] eqn:Hm'; [discriminate|].
  inversion Hrun; subst scored. clear Hrun.
  destruct (qcut_scores _ _ _ _ Hr Hr') as [Hlr _].
  destruct (qcut_scores _ _ _ _ Hf Hf') as [Hlf _].
  destruct (qcut_scores _ _ _ _ Hm Hm') as [Hlm _].
  rewrite length_map in Hlr.
  rewrite rank_first_length, length_map in Hlf, Hlm.
  destruct (zip_scores_spec df r' f' m' Hlr Hlf Hlm) as (H1 & H2 & H3 & H4 & _).
  intros i j si sj Hsi Hsj.
  assert (Hcol : forall (col : Row -> Q) k s,
            nth_error (zip_scores df r' f' m') k = Some s ->
            nth_error (map col df) k = Some (col (row_of s))).
  { intros col k s Hs. rewrite <- H1, map_map, nth_error_map, Hs. reflexivity. }
  assert (Hscore : forall {B} (g : Scored Row -> B) k s,
            nth_error (zip_scores df r' f' m') k = Some s ->
            nth_error (map g (zip_scores df r' f' m')) k = Some (g s)).
  { intros B g k s Hs. rewrite nth_error_map, Hs. reflexivity. }
  pose proof (Hscore _ R_Score i si Hsi) as HRi. pose proof (Hscore _ R_Score j sj Hsj) as HRj.
  pose proof (Hscore _ F_Score i si Hsi) as HFi. pose proof (Hscore _ F_Score j sj Hsj) as HFj.
  pose proof (Hscore _ M_Score i si Hsi) as HMi. pose proof (Hscore _ M_Score j sj Hsj) as HMj.
  rewrite H2 in HRi, HRj. rewrite H3 in HFi, HFj. rewrite H4 in HMi, HMj.
  unfold scores_ordered. split; [|split].
  - apply (cut_scores_order _ _ _ Hr Hr' i j); auto.
  - apply (ranked_scores_order _ _ _ Hf Hf' i j); auto.
  - apply (ranked_scores_order _ _ _ Hm Hm' i j); auto.
Qed.

Lemma calculate_rfm_scores_ordered_witness :
  exists si sj : Scored RfmRow.t,
    nth_error spread_scored_table 0 = Some si
    /\ nth_error spread_scored_table 9 = Some sj
    /\ R_Score sj <= R_Score si
    /\ F_Score si <= F_Score sj
    /\ M_Score si <= M_Score sj.
Proof.
  assert (Hrun : calculate_rfm_scores spread_rfm_table Recency_col Frequency_col
                   Monetary_col = inr spread_scored_table)
    by (vm_compute; reflexivity).
  destruct (nth_error spread_scored_table 0) as [si|] eqn:Hsi; [|discriminate].
  destruct (nth_error spread_scored_table 9) as [sj|] eqn:Hsj; [|discriminate].
  exists si, sj. split; [reflexivity|]. split; [reflexivity|].
  destruct (calculate_rfm_scores_ordered spread_rfm_table Recency_col Frequency_col
              Monetary_col spread_scored_table Hrun 0%nat 9%nat si sj Hsi Hsj)
    as (HR & HF & HM).
  inversion Hsi; subst si. inversion Hsj; subst sj.
  split; [apply HR; vm_compute; discriminate|].
  split; [apply HF | apply HM]; left; vm_compute; reflexivity.
Defined.
